(** * Package integrity of a lerna workspace: [scripts/ensure-integrity.js]

    A shallow embedding of the script and the properties of its
    reconciliation engine.

    Modelling conventions.
    - A JavaScript object used as a string-keyed table is an association list
      in insertion order ([JsObject.t]); [JsObject.keys] is the order in which
      [Object.keys] and [for .. in] enumerate it (integer-like keys first, in
      ascending numeric order, then the other keys in insertion order).
    - The manifest objects returned by [require] are shared and mutated in
      place.  They live in [require_cache], keyed by the file they were loaded
      from, and the tables of the script hold references (file names) to them.
    - The text of a [package.json] is represented by the JSON value it denotes
      together with a flag telling whether the text is the rendering
      [JSON.stringify(value, null, 2) + '\n'], see [JsonFile].
    - A thrown exception is the result [Throw].
    - A table is its own properties.  The script reads its tables with
      [o[k]] and [k in o], which also see the members that every object
      inherits from [Object.prototype]; the names of these members are
      listed by [Js.inherited], and the properties that depend on such a read
      are stated for the names that are not inherited.
    - [sortPackageJson] is applied for the text that is written; the order of
      the keys of the manifest objects in memory is not part of the model, and
      the properties of these objects are stated key by key.
    - [OtherJson] stands for a JSON file that is not a manifest with a name;
      the properties of the loading stage are stated for the workspaces whose
      package manifests, where they can be parsed, are named. *)

From stdpp Require Import gmap strings list sorting.
From Stdlib Require Import Ascii String.

Local Open Scope string_scope.
Local Open Scope list_scope.
Local Open Scope stdpp_scope.

(** ** Strings *)

Module Js.

(** [s.split(sep)] for a one-character separator. *)
Fixpoint split (sep : ascii) (s : string) : list string :=
  match s with
  | EmptyString => [EmptyString]
  | String c s' =>
      if decide (c = sep) then EmptyString :: split sep s'
      else match split sep s' with
           | [] => [String c EmptyString]
           | p :: ps => String c p :: ps
           end
  end.

(** [lines.join(sep)]. *)
Definition join (sep : string) (l : list string) : string := String.concat sep l.

(** [s.indexOf(sub) !== -1]. *)
Fixpoint includes (sub s : string) : bool :=
  String.prefix sub s ||
  match s with
  | EmptyString => false
  | String _ s' => includes sub s'
  end.

(** [s.indexOf(c) === 0] for a character [c]. *)
Definition startsWith (c : ascii) (s : string) : bool :=
  match s with
  | String c' _ => bool_decide (c' = c)
  | EmptyString => false
  end.

(** Truthiness of the result of a property read of a string-valued table:
    [undefined] and the empty string are falsy. *)
Definition truthy (v : option string) : bool :=
  match v with
  | Some s => negb (bool_decide (s = EmptyString))
  | None => false
  end.

(** [Array.from(new Set(l))]: the first occurrence of every element. *)
Definition uniq (l : list string) : list string :=
  fold_left (fun acc x => if decide (x ∈ acc) then acc else acc ++ [x]) l [].

(** The default order of [Array.prototype.sort] on strings. *)
Definition str_le (a b : string) : Prop := String.leb a b = true.

#[global] Instance str_le_dec : RelDecision str_le.
Proof. intros a b. unfold str_le. apply _. Defined.

Definition sort (l : list string) : list string := merge_sort str_le l.

(** Canonical array indices: the decimal numerals below [2^32 - 1] without
    leading zero.  Own property keys of this shape are enumerated first. *)
Definition digit (c : ascii) : option N :=
  let n := N_of_ascii c in
  if ((48 <=? n) && (n <=? 57))%N then Some (n - 48)%N else None.

Fixpoint digits (s : string) (acc : N) : option N :=
  match s with
  | EmptyString => Some acc
  | String c s' =>
      match digit c with
      | Some d => digits s' (acc * 10 + d)%N
      | None => None
      end
  end.

Definition arrayIndex (s : string) : option N :=
  match s with
  | EmptyString => None
  | String "0" EmptyString => Some 0%N
  | String "0" _ => None
  | _ => match digits s 0 with
         | Some n => if (n <? 4294967295)%N then Some n else None
         | None => None
         end
  end.

Definition isIndex (s : string) : bool := bool_decide (is_Some (arrayIndex s)).

Definition index_le (a b : string) : Prop :=
  (default 0 (arrayIndex a) <= default 0 (arrayIndex b))%N.

#[global] Instance index_le_dec : RelDecision index_le.
Proof. intros a b. unfold index_le. apply _. Defined.

(** Enumeration order of own string keys given their insertion order. *)
Definition ownKeys (ks : list string) : list string :=
  merge_sort index_le (filter (fun k => isIndex k = true) ks)
    ++ filter (fun k => isIndex k = false) ks.

(** The names of the members of [Object.prototype]: for these, [k in o] is
    true and [o[k]] is an inherited function or object on every plain object
    [o] that has no own property [k]. *)
Definition inherited (k : string) : bool :=
  bool_decide (k ∈ ["constructor"; "hasOwnProperty"; "isPrototypeOf";
                    "propertyIsEnumerable"; "toLocaleString"; "toString";
                    "valueOf"; "__proto__"; "__defineGetter__";
                    "__defineSetter__"; "__lookupGetter__"; "__lookupSetter__"]).

End Js.

(** ** Objects used as tables *)

Module JsObject.

Abbreviation t V := (list (string * V)) (only parsing).

Section ops.
Context {V : Type}.

(** [o[k]] *)
Fixpoint get (k : string) (o : t V) : option V :=
  match o with
  | [] => None
  | (k', v) :: o' => if decide (k' = k) then Some v else get k o'
  end.

(** [k in o] *)
Definition has (k : string) (o : t V) : bool :=
  match get k o with Some _ => true | None => false end.

(** [o[k] = v]: an existing key keeps its place, a new one goes last. *)
Fixpoint set (k : string) (v : V) (o : t V) : t V :=
  match o with
  | [] => [(k, v)]
  | (k', v') :: o' =>
      if decide (k' = k) then (k, v) :: o' else (k', v') :: set k v o'
  end.

(** [delete o[k]] *)
Definition delete (k : string) (o : t V) : t V :=
  filter (fun kv => kv.1 ≠ k) o.

(** [Object.keys(o)], also the order of [for (k in o)]. *)
Definition keys (o : t V) : list string := Js.ownKeys (Js.uniq (o.*1)).

(** [Object.entries(o)]. *)
Definition entries (o : t V) : t V :=
  omap (fun k => pair k <$> get k o) (keys o).
End ops.

End JsObject.

(** ** Manifests, files and syntax trees *)

(** The fields of a [package.json] the script reads or writes.  The two
    dependency tables may be absent from a manifest. *)
Record Package := mkPackage {
  name : string;
  version : string;
  dependencies : option (JsObject.t string);
  devDependencies : option (JsObject.t string);
}.

#[global] Instance Package_eq_dec : EqDecision Package.
Proof. solve_decision. Defined.

(** A [.json] file that parses.  [Manifest r d] is a text denoting the
    manifest [d], its members in the order of the lists; [r] tells whether the
    text is exactly [JSON.stringify(d, null, 2) + '\n']. *)
Inductive JsonFile :=
| Manifest (rendered : bool) (data : Package)
| OtherJson.

#[global] Instance JsonFile_eq_dec : EqDecision JsonFile.
Proof. solve_decision. Defined.

(** The part of a TypeScript syntax tree that [getImports] looks at. *)
Inductive ModuleReference :=
| ExternalModuleReference (expression_text : string)
| EntityName.

#[warnings="-register-all"]
Inductive Node :=
| ImportDeclaration (moduleSpecifier_text : string) (children : list Node)
| ImportEqualsDeclaration (moduleReference : ModuleReference) (children : list Node)
| OtherKind (children : list Node).

(** ** The state of a run *)

Record State := mkState {
  pkgData : JsObject.t string;       (* package name -> reference to its manifest object *)
  pkgPaths : JsObject.t string;      (* package name -> directory *)
  pkgNames : JsObject.t string;      (* directory -> package name *)
  seenDeps : JsObject.t string;      (* dependency name -> version spec *)
  require_cache : gmap string Package;  (* the manifest objects, by file *)
  jsonFiles : gmap string JsonFile;     (* the .json files on disk *)
  textFiles : gmap string string;       (* the other files on disk *)
}.

Definition set_pkgData f st :=
  mkState (f (pkgData st)) (pkgPaths st) (pkgNames st) (seenDeps st)
          (require_cache st) (jsonFiles st) (textFiles st).
Definition set_pkgPaths f st :=
  mkState (pkgData st) (f (pkgPaths st)) (pkgNames st) (seenDeps st)
          (require_cache st) (jsonFiles st) (textFiles st).
Definition set_pkgNames f st :=
  mkState (pkgData st) (pkgPaths st) (f (pkgNames st)) (seenDeps st)
          (require_cache st) (jsonFiles st) (textFiles st).
Definition set_seenDeps f st :=
  mkState (pkgData st) (pkgPaths st) (pkgNames st) (f (seenDeps st))
          (require_cache st) (jsonFiles st) (textFiles st).
Definition set_require_cache f st :=
  mkState (pkgData st) (pkgPaths st) (pkgNames st) (seenDeps st)
          (f (require_cache st)) (jsonFiles st) (textFiles st).
Definition set_jsonFiles f st :=
  mkState (pkgData st) (pkgPaths st) (pkgNames st) (seenDeps st)
          (require_cache st) (f (jsonFiles st)) (textFiles st).
Definition set_textFiles f st :=
  mkState (pkgData st) (pkgPaths st) (pkgNames st) (seenDeps st)
          (require_cache st) (jsonFiles st) (f (textFiles st)).

(** The state of a process that has just started on the given disk. *)
Definition initial (json : gmap string JsonFile) (text : gmap string string) : State :=
  mkState [] [] [] [] ∅ json text.

(** ** Computations that read and write the state and may throw *)

Inductive Exn :=
| TypeError                      (* a property read of [undefined] *)
| ModuleNotFound (file : string) (* [require] of a file that is missing or does not parse *)
| ENOENT (file : string)         (* [readFileSync] of a missing file *)
| LookupError (dep : string).    (* [getDependency] failed *)

Inductive Result (A : Type) :=
| Ok (a : A)
| Throw (e : Exn).
Arguments Ok {A} a.
Arguments Throw {A} e.

Definition M (A : Type) : Type := State -> Result (A * State).

Definition ret {A} (a : A) : M A := fun st => Ok (a, st).

Definition bind {A B} (m : M A) (f : A -> M B) : M B :=
  fun st => match m st with
            | Ok (a, st') => f a st'
            | Throw e => Throw e
            end.

Definition throw {A} (e : Exn) : M A := fun _ => Throw e.

Definition gets {A} (f : State -> A) : M A := fun st => Ok (f st, st).

Definition modify (f : State -> State) : M unit := fun st => Ok (tt, f st).

Declare Scope js_scope.
Delimit Scope js_scope with js.
Notation "x <- m ;; k" := (bind m (fun x => k))
  (at level 100, m at next level, right associativity) : js_scope.
Notation "m ;;; k" := (bind m (fun _ => k))
  (at level 100, right associativity) : js_scope.
Local Open Scope js_scope.

(** [l.forEach(f)] *)
Fixpoint forEach {A} (l : list A) (f : A -> M unit) : M unit :=
  match l with
  | [] => ret tt
  | x :: l' => f x ;;; forEach l' f
  end.

(** A loop that also updates local variables [b]. *)
Fixpoint foldM {A B} (f : B -> A -> M B) (b : B) (l : list A) : M B :=
  match l with
  | [] => ret b
  | x :: l' => b' <- f b x ;; foldM f b' l'
  end.

(** A value that must not be [undefined] where it is used. *)
Definition defined {A} (o : option A) : M A :=
  match o with
  | Some a => ret a
  | None => throw TypeError
  end.

(** ** The script *)

(** What the script takes from its surroundings: the working directory, the
    [glob] and [typescript] libraries, [lerna.json] and the sibling module
    [./get-dependency], which is looked at as a function of the dependency
    name that either gives a version spec or throws. *)
Record Env := mkEnv {
  basePath : string;
  glob_sync : string -> list string;
  lernaConfig_packages : list string;
  getDependency : string -> option string;
  createSourceFile : string -> Node;
}.

(** [path.join(a, b)] for normalized segments. *)
Definition path_join (a b : string) : string := a +:+ "/" +:+ b.

(** Data to ignore. *)
Definition MISSING : JsObject.t (list string) :=
  [("@jupyterlab/buildutils", ["path"])].

Definition UNUSED : JsObject.t (list string) :=
  [("@jupyterlab/apputils-extension", ["es6-promise"]);
   ("@jupyterlab/theme-dark-extension", ["font-awesome"]);
   ("@jupyterlab/theme-light-extension", ["font-awesome"]);
   ("@jupyterlab/vega2-extension", ["d3"; "vega"; "vega-lite"])].

(** [TABLE[pkgName] && TABLE[pkgName].indexOf(name) !== -1] *)
Definition ignored (table : JsObject.t (list string)) (pkgName name : string) : bool :=
  match JsObject.get pkgName table with
  | Some l => bool_decide (name ∈ l)
  | None => false
  end.

(** The findings of one package, and the report of a run. *)
Inductive Finding :=
| TopMessage (s : string)
| PkgMessages (l : list string).

(** *** Shared objects and files *)

(** [require(file)]: the cached object, or the file parsed and cached.  The
    result is the reference to the object. *)
Definition require (file : string) : M string :=
  fun st =>
    match require_cache st !! file with
    | Some _ => Ok (file, st)
    | None =>
        match jsonFiles st !! file with
        | Some (Manifest _ d) => Ok (file, set_require_cache (insert file d) st)
        | _ => Throw (ModuleNotFound file)
        end
    end.

(** [require] of a [.json] file whose value is not used. *)
Definition requireJson (file : string) : M unit :=
  fun st =>
    match jsonFiles st !! file with
    | Some _ => Ok (tt, st)
    | None => Throw (ModuleNotFound file)
    end.

(** The object behind a reference. *)
Definition load (ref : string) : M Package :=
  fun st =>
    match require_cache st !! ref with
    | Some d => Ok (d, st)
    | None => Throw TypeError
    end.

Definition store (ref : string) (d : Package) : M unit :=
  modify (set_require_cache (insert ref d)).

(** The two dependency tables of a manifest. *)
Inductive Field := Dependencies | DevDependencies.

Definition field (f : Field) (d : Package) : option (JsObject.t string) :=
  match f with
  | Dependencies => dependencies d
  | DevDependencies => devDependencies d
  end.

Definition with_field (f : Field) (o : option (JsObject.t string)) (d : Package) : Package :=
  match f with
  | Dependencies => mkPackage (name d) (version d) o (devDependencies d)
  | DevDependencies => mkPackage (name d) (version d) (dependencies d) o
  end.

(** [data[f][k] = v] *)
Definition setField (f : Field) (data k v : string) : M unit :=
  d <- load data ;;
  t <- defined (field f d) ;;
  store data (with_field f (Some (JsObject.set k v t)) d).

(** [data.dependencies[k] = v] and [data.devDependencies[k] = v] *)
Definition setDependency : string -> string -> string -> M unit :=
  setField Dependencies.

Definition setDevDependency : string -> string -> string -> M unit :=
  setField DevDependencies.

(** [delete data.dependencies[k]] *)
Definition deleteDependency (data k : string) : M unit :=
  d <- load data ;;
  deps <- defined (dependencies d) ;;
  store data (with_field Dependencies (Some (JsObject.delete k deps)) d).

(** [fs.readFileSync(file).toString()] of a file that is not a manifest. *)
Definition readFileSync (file : string) : M string :=
  fun st =>
    match textFiles st !! file with
    | Some s => Ok (s, st)
    | None => Throw (ENOENT file)
    end.

Definition writeFileSync (file text : string) : M unit :=
  modify (set_textFiles (insert file text)).

(** *** [sort-package-json] and [JSON.stringify] *)

(** A table rebuilt with its keys in the default sort order. *)
Definition sortObject (o : JsObject.t string) : JsObject.t string :=
  omap (fun k => pair k <$> JsObject.get k o) (Js.sort (JsObject.keys o)).

Definition sortPackageJson (d : Package) : Package :=
  mkPackage (name d) (version d)
            (sortObject <$> dependencies d) (sortObject <$> devDependencies d).

(** [JSON.stringify(d, null, 2) + '\n']: the members of every table are
    written in enumeration order. *)
Definition JSON_stringify (d : Package) : JsonFile :=
  Manifest true (mkPackage (name d) (version d)
                           (JsObject.entries <$> dependencies d)
                           (JsObject.entries <$> devDependencies d)).

(** Write package data using sort-package-json. *)
Definition ensurePackageData (data pkgJsonPath : string) : M bool :=
  d <- load data ;;
  let text := JSON_stringify (sortPackageJson d) in
  fun st =>
    match jsonFiles st !! pkgJsonPath with
    | None => Throw (ENOENT pkgJsonPath)
    | Some orig =>
        if decide (text = orig) then Ok (false, st)
        else Ok (true, set_jsonFiles (insert pkgJsonPath text) st)
    end.

(** *** Extract the module imports from a TypeScript source file *)

Fixpoint handleNode (node : Node) (imports : list string) : Result (list string) :=
  let forEachChild :=
    fix forEachChild (cs : list Node) (imports : list string) :=
      match cs with
      | [] => Ok imports
      | c :: cs' =>
          match handleNode c imports with
          | Ok imports' => forEachChild cs' imports'
          | Throw e => Throw e
          end
      end in
  match node with
  | ImportDeclaration text cs => forEachChild cs (imports ++ [text])
  | ImportEqualsDeclaration (ExternalModuleReference text) cs =>
      forEachChild cs (imports ++ [text])
  | ImportEqualsDeclaration EntityName _ => Throw TypeError
  | OtherKind cs => forEachChild cs imports
  end.

Definition getImports (sourceFile : Node) : Result (list string) :=
  handleNode sourceFile [].

(** The package a module specifier belongs to (the [names.map] callback). *)
Definition packageOf (name : string) : string :=
  let parts := Js.split "/" name in
  if Js.startsWith "@" name
  then nth 0 parts "undefined" +:+ "/" +:+ nth 1 parts "undefined"
  else nth 0 parts "undefined".

(** The line feed and the double quote. *)
Definition LF : ascii := "010"%char.
Definition DQUOTE : ascii := "034"%char.

(** The generated line of [index.ts] that imports the package [name],
    line feed included. *)
Definition importLine (name : string) : string :=
  "import " +:+ String DQUOTE name +:+ String DQUOTE (String ";" (String LF EmptyString)).

(** The import statement of a generated line, without the line feed, and
    the number of lines of a text that are this statement. *)
Definition importStatement (name : string) : string :=
  "import " +:+ String DQUOTE name +:+ String DQUOTE ";".

Definition references (name text : string) : nat :=
  List.length (filter (fun line => line = importStatement name) (Js.split LF text)).

Section Script.

Variable E : Env.

Definition allPackagesPath : string :=
  path_join (path_join (basePath E) "packages") "all-packages".

Definition localPackages : list string :=
  glob_sync E (path_join (path_join (basePath E) "packages") "*").

(** [pkgNames[pkgPath]] used as a property key or in a string. *)
Definition nameOf (st : State) (pkgPath : string) : string :=
  default "undefined" (JsObject.get pkgPath (pkgNames st)).

(** The three copies of
    [if (!(name in seenDeps)) seenDeps[name] = getDependency(name)],
    followed by the read of [seenDeps[name]]. *)
Definition seenDep (name : string) : M string :=
  fun st =>
    match JsObject.get name (seenDeps st) with
    | Some v => Ok (v, st)
    | None =>
        match getDependency E name with
        | Some v => Ok (v, set_seenDeps (JsObject.set name v) st)
        | None => Throw (LookupError name)
        end
    end.

Definition allPackageJson : string := path_join allPackagesPath "package.json".

Definition tsconfigPath : string :=
  path_join (path_join (path_join (basePath E) "packages") "all-packages")
            "tsconfig.json".

Definition indexPath : string :=
  path_join (path_join (path_join (path_join (basePath E) "packages")
                                  "all-packages") "src") "index.ts".

(** The callback of the loop of [ensureAllPackages] over the local
    packages; [acc] holds the local variables [lines] and [messages]. *)
Definition allPackagesStep (allPackageData index : string)
           (acc : list string * list string) (pkgPath : string)
  : M (list string * list string) :=
  let (lines, messages) := acc in
  if decide (pkgPath = allPackagesPath) then ret acc
  else
    name <- gets (fun st => nameOf st pkgPath) ;;
    data <- gets (fun st => JsObject.get name (pkgData st)) ;;
    (* Ensure it is a dependency. *)
    all <- load allPackageData ;;
    deps <- defined (dependencies all) ;;
    valid <- (if Js.truthy (JsObject.get name deps) then ret true
              else
                data <- defined data ;;
                d <- load data ;;
                setDependency allPackageData name ("^" +:+ version d) ;;;
                ret false) ;;
    (* Ensure it is in index.ts *)
    let valid := if Js.includes name index then valid else false in
    let lines := lines ++ [importLine name] in
    ret (lines, if valid then messages else messages ++ ["Updated: " +:+ name]).

(** Ensure the all-packages package. *)
Definition ensureAllPackages : M (list string) :=
  allPackageData <- require allPackageJson ;;
  requireJson tsconfigPath ;;;
  index <- readFileSync indexPath ;;
  let lines := take 3 (Js.split LF index) in
  r <- foldM (allPackagesStep allPackageData index) (lines, []) localPackages ;;
  let (lines, messages) := r in
  (* Write the files. *)
  changed <- ensurePackageData allPackageData allPackageJson ;;
  let messages := if changed then messages ++ ["Package data changed"] else messages in
  let newIndex := Js.join (String LF EmptyString) lines in
  if decide (newIndex = index) then ret messages
  else
    writeFileSync indexPath newIndex ;;;
    ret (messages ++ ["Index changed"]).

(** The two [glob.sync] calls that list the TypeScript files of a package. *)
Definition sourceFiles (dname : string) : list string :=
  glob_sync E (path_join dname "src/*.ts*")
    ++ glob_sync E (path_join dname "src/**/*.ts*").

(** Extract all of the imports from the TypeScript files. *)
Definition collectImports (filenames : list string) : M (list string) :=
  foldM (fun imports fileName =>
           text <- readFileSync fileName ;;
           match getImports (createSourceFile E text) with
           | Ok found => ret (imports ++ found)
           | Throw e => throw e
           end)
        [] filenames.

(** [Array.from(new Set(imports)).sort()] mapped to package names. *)
Definition importNames (imports : list string) : list string :=
  packageOf <$> Js.sort (Js.uniq imports).

(** Look for imports with no dependencies (the callback of the loop). *)
Definition missingStep (pkgName data : string) (messages : list string)
           (name : string) : M (list string) :=
  if ignored MISSING pkgName name then ret messages
  else if bool_decide (name = "." \/ name = "..") then ret messages
  else
    d <- load data ;;
    deps <- defined (dependencies d) ;;
    if Js.truthy (JsObject.get name deps) then ret messages
    else
      v <- seenDep name ;;
      setDependency data name v ;;;
      ret (messages ++ ["Missing dependency: " +:+ name]).

(** Look for unused packages (the callback of the loop). *)
Definition unusedStep (pkgName data : string) (names : list string)
           (messages : list string) (name : string) : M (list string) :=
  if ignored UNUSED pkgName name then ret messages
  else if bool_decide (name ∈ names) then ret messages
  else
    deleteDependency data name ;;;
    ret (messages ++ ["Unused dependency: " +:+ name]).

(** Ensure the integrity of a package. *)
Definition ensurePackage (pkgName : string) : M (list string) :=
  dname <- gets (fun st => JsObject.get pkgName (pkgPaths st)) ;;
  data <- gets (fun st => JsObject.get pkgName (pkgData st)) ;;
  data <- defined data ;;
  d <- load data ;;
  (* Verify dependencies are consistent. *)
  deps <- defined (dependencies d) ;;
  forEach (JsObject.keys deps)
          (fun name => v <- seenDep name ;; setDependency data name v) ;;;
  (* Verify devDependencies are consistent. *)
  devDeps <- defined (devDependencies d) ;;
  forEach (JsObject.keys devDeps)
          (fun name => v <- seenDep name ;; setDevDependency data name v) ;;;
  messages <- (if decide (pkgName = "@jupyterlab/all-packages")
               then ensureAllPackages else ret []) ;;
  (* For TypeScript files, verify imports match dependencies. *)
  dname <- defined dname ;;
  let filenames := sourceFiles dname in
  if decide (List.length filenames = 0) then
    changed <- ensurePackageData data (path_join dname "package.json") ;;
    ret (if changed then messages ++ ["Package data changed"] else messages)
  else
    imports <- collectImports filenames ;;
    let names := importNames imports in
    messages <- foldM (missingStep pkgName data) messages names ;;
    d <- load data ;;
    deps <- defined (dependencies d) ;;
    messages <- foldM (unusedStep pkgName data names) messages (JsObject.keys deps) ;;
    changed <- ensurePackageData data (path_join dname "package.json") ;;
    ret (if changed then messages ++ ["Package data changed"] else messages).

(** The callback of the loop of [ensureTop] over the local packages. *)
Definition hoistStep (localData pkgPath : string) : M unit :=
  name <- gets (fun st => nameOf st pkgPath) ;;
  data <- gets (fun st => JsObject.get name (pkgData st)) ;;
  data <- defined data ;;
  d <- load data ;;
  let devDeps := default [] (devDependencies d) in
  forEach (JsObject.keys devDeps)
          (fun name =>
             match JsObject.get name devDeps with
             | Some v => setDevDependency localData name v
             | None => ret tt
             end).

(** Ensure the top level package. *)
Definition ensureTop : M (option string) :=
  (* Hoist dependencies and devDependencies to top level. *)
  let localPath := path_join (basePath E) "package.json" in
  localData <- require localPath ;;
  forEach localPackages (hoistStep localData) ;;;
  changed <- ensurePackageData localData localPath ;;
  ret (if changed then Some "updated" else None).

(** The lerna package directories, in the order of the configuration. *)
Definition lernaPaths : list string :=
  mjoin ((fun spec => glob_sync E (path_join (basePath E) spec))
           <$> lernaConfig_packages E).

(** Pick up all the package versions. *)
Definition loadPackage (pkgPath : string) : M unit :=
  fun st =>
    match require (path_join pkgPath "package.json") st with
    | Throw _ => Ok (tt, st)
    | Ok (package, st') =>
        (d <- load package ;;
         modify (set_pkgData (JsObject.set (name d) package)) ;;;
         modify (set_pkgPaths (JsObject.set (name d) pkgPath)) ;;;
         modify (set_pkgNames (JsObject.set pkgPath (name d)))) st'
    end.

(** Validate each package: the body of the loop and the loop. *)
Definition validateStep (messages : JsObject.t Finding) (name : string)
  : M (JsObject.t Finding) :=
  pkgMessages <- ensurePackage name ;;
  ret (if decide (0 < List.length pkgMessages)
       then JsObject.set name (PkgMessages pkgMessages) messages
       else messages).

Definition validatePackages (messages : JsObject.t Finding) : M (JsObject.t Finding) :=
  names <- gets (fun st => JsObject.keys (pkgData st)) ;;
  foldM validateStep messages names.

(** Ensure the repo integrity.  The result is the [messages] object; the
    process exits with status 1 when it has a key. *)
Definition ensureIntegrity : M (JsObject.t Finding) :=
  (* Look in all of the packages. *)
  forEach lernaPaths loadPackage ;;;
  (* Handle the top level package. *)
  topMessage <- ensureTop ;;
  let messages := match topMessage with
                  | Some m => [("top", TopMessage m)]
                  | None => []
                  end in
  validatePackages messages.

End Script.

(** The findings of the two import checks, and the names the first one
    looks at. *)
Definition missingMsg (k : string) : string := "Missing dependency: " +:+ k.
Definition unusedMsg (k : string) : string := "Unused dependency: " +:+ k.

Definition checked (pkgName k : string) : Prop :=
  ignored MISSING pkgName k = false /\ k ≠ "." /\ k ≠ "..".

(** How often a finding occurs in a list of findings. *)
Definition occurrences (m : string) (l : list string) : nat :=
  List.length (filter (fun x => x = m) l).

(** The keys of an optional table, in insertion order. *)
Definition tableKeys (o : option (JsObject.t string)) : option (list string) :=
  match o with
  | Some t => Some (t.*1)
  | None => None
  end.

(** Two versions of a manifest object with the same name, version and
    devDependencies keys, in the same order. *)
Definition same_shape (d d' : Package) : Prop :=
  name d' = name d /\ version d' = version d /\
  tableKeys (devDependencies d') = tableKeys (devDependencies d).

(** Every manifest object of [st] is still there in [st'], in the same
    shape. *)
Definition objects_kept (st st' : State) : Prop :=
  forall ref d, require_cache st !! ref = Some d ->
                exists d', require_cache st' !! ref = Some d' /\ same_shape d d'.

(** The character [c] occurs in [s]. *)
Fixpoint mentions (c : ascii) (s : string) : Prop :=
  match s with
  | EmptyString => False
  | String c' s' => c' = c \/ mentions c s'
  end.

(** The package tables of a state are in order: a package name leads to the
    manifest object of that name, loaded from the directory of the package. *)
Definition tables_ok (st : State) : Prop :=
  forall n ref, JsObject.get n (pkgData st) = Some ref ->
    exists dname d, JsObject.get n (pkgPaths st) = Some dname /\
                    ref = path_join dname "package.json" /\
                    require_cache st !! ref = Some d /\ name d = n.

(** Every manifest object of a state has the name of the manifest on disk. *)
Definition cache_ok (st : State) : Prop :=
  forall ref d, require_cache st !! ref = Some d ->
    exists r d0, jsonFiles st !! ref = Some (Manifest r d0) /\ name d0 = name d.

(** The module specifiers of the imports of a tree in the order of the
    text, a node before its children, and whether the tree holds an
    import-equals declaration whose reference is an entity name. *)
Fixpoint specifiers (node : Node) : list string :=
  let below :=
    fix below (cs : list Node) : list string :=
      match cs with
      | [] => []
      | c :: cs' => specifiers c ++ below cs'
      end in
  match node with
  | ImportDeclaration text cs => text :: below cs
  | ImportEqualsDeclaration (ExternalModuleReference text) cs => text :: below cs
  | ImportEqualsDeclaration EntityName cs => below cs
  | OtherKind cs => below cs
  end.

Fixpoint entityImport (node : Node) : bool :=
  let any :=
    fix any (cs : list Node) : bool :=
      match cs with
      | [] => false
      | c :: cs' => entityImport c || any cs'
      end in
  match node with
  | ImportEqualsDeclaration EntityName _ => true
  | ImportEqualsDeclaration (ExternalModuleReference _) cs => any cs
  | ImportDeclaration _ cs => any cs
  | OtherKind cs => any cs
  end.

(** The walk of [handleNode] over the children of a node, and what is
    listed and looked for below them. *)
Definition walkChildren : list Node -> list string -> Result (list string) :=
  fix forEachChild (cs : list Node) (imports : list string) :=
    match cs with
    | [] => Ok imports
    | c :: cs' =>
        match handleNode c imports with
        | Ok imports' => forEachChild cs' imports'
        | Throw e => Throw e
        end
    end.

Definition specifiersBelow : list Node -> list string :=
  fix below (cs : list Node) : list string :=
    match cs with
    | [] => []
    | c :: cs' => specifiers c ++ below cs'
    end.

Definition entityImportBelow : list Node -> bool :=
  fix any (cs : list Node) : bool :=
    match cs with
    | [] => false
    | c :: cs' => entityImport c || any cs'
    end.

(** What the walk of a node gives, whatever has been collected before. *)
Definition walked (node : Node) : Prop :=
  forall imports,
    handleNode node imports
    = if entityImport node then Throw TypeError else Ok (imports ++ specifiers node).

(** A computation that throws nothing but the exception [e]. *)
Definition throwsOnly {A} (e : Exn) (r : Result A) : Prop :=
  match r with
  | Ok _ => True
  | Throw e' => e' = e
  end.

(** The last directory of a list whose manifest, on the given disk, has
    the name [n]. *)
Fixpoint lastNamed (json : gmap string JsonFile) (n : string) (ps : list string)
  : option string :=
  match ps with
  | [] => None
  | p :: ps' =>
      match lastNamed json n ps' with
      | Some q => Some q
      | None =>
          match json !! path_join p "package.json" with
          | Some (Manifest _ d) => if decide (name d = n) then Some p else None
          | _ => None
          end
      end
  end.

(** The exit status of the process for a report. *)
Definition exitStatus (messages : JsObject.t Finding) : nat :=
  if decide (0 < List.length (JsObject.keys messages)) then 1 else 0.

(** ** Notions used in the statements *)

Section Notions.

Variable E : Env.

(** The version cache of [st'] is that of [st] with more names resolved,
    each to the spec that [getDependency] gives. *)
Definition cache_grows (st st' : State) : Prop :=
  forall k,
    match JsObject.get k (seenDeps st) with
    | Some v => JsObject.get k (seenDeps st') = Some v
    | None => JsObject.get k (seenDeps st') = None
              \/ JsObject.get k (seenDeps st') = getDependency E k
    end.

(** The three package tables are the same in both states. *)
Definition same_tables (st st' : State) : Prop :=
  pkgData st' = pkgData st /\ pkgPaths st' = pkgPaths st /\ pkgNames st' = pkgNames st.

(** The files are the same in both states. *)
Definition same_disk (st st' : State) : Prop :=
  jsonFiles st' = jsonFiles st /\ textFiles st' = textFiles st.

(** The spec that [seenDep] gives for a name in a state, if any. *)
Definition canonical (st : State) (k : string) : option string :=
  match JsObject.get k (seenDeps st) with
  | Some v => Some v
  | None => getDependency E k
  end.

(** The body of the two loops that make the specs of a package consistent. *)
Definition normalize (f : Field) (data : string) (ks : list string) : M unit :=
  forEach ks (fun name => v <- seenDep E name ;; setField f data name v).

(** The module specifiers that [collectImports] finds in the given files
    of a disk, when every file can be read and walked. *)
Definition fileImports (files : gmap string string) (fileName : string)
  : option (list string) :=
  match files !! fileName with
  | Some text =>
      match getImports (createSourceFile E text) with
      | Ok found => Some found
      | Throw _ => None
      end
  | None => None
  end.

Definition readImports (files : gmap string string) (filenames : list string)
  : option (list string) :=
  mjoin <$> mapM (fileImports files) filenames.

(** The package names that the sources of the package in directory [dname]
    import, as [ensurePackage] computes them in state [st]. *)
Definition importedNames (st : State) (dname : string) : option (list string) :=
  importNames <$> readImports (textFiles st) (sourceFiles E dname).

(** The names of the local packages that [ensureAllPackages] goes through. *)
Definition aggregated (st : State) : list string :=
  nameOf st <$> filter (fun p => p ≠ allPackagesPath E) (localPackages E).

(** [v] is the caret range of the version of the local package [k]: the
    spec that [ensureAllPackages] gives to a dependency that it adds. *)
Definition syncEntry (st : State) (k v : string) : Prop :=
  k ∈ aggregated st /\
  exists ref q, JsObject.get k (pkgData st) = Some ref /\
                require_cache st !! ref = Some q /\
                v = "^" +:+ version q.

(** Every spec of the manifest object [d] behind reference [ref] is the
    cached one, but for the dependencies that [ensureAllPackages] added to
    the manifest of the aggregator. *)
Definition consistent (st : State) (ref : string) (d : Package) : Prop :=
  (forall k v, devDependencies d ≫= JsObject.get k = Some v ->
               JsObject.get k (seenDeps st) = Some v) /\
  (forall k v, dependencies d ≫= JsObject.get k = Some v ->
               JsObject.get k (seenDeps st) = Some v
               \/ (ref = allPackageJson E /\ syncEntry st k v)).

(** The manifest of the top level package. *)
Definition topJson : string := path_join (basePath E) "package.json".

(** The spec that the package in directory [pkgPath] declares for the
    devDependency [k], and the spec of the last directory of a list whose
    package declares one. *)
Definition declared (st : State) (pkgPath k : string) : option string :=
  data ← JsObject.get (nameOf st pkgPath) (pkgData st);
  d ← require_cache st !! data;
  devDeps ← devDependencies d;
  JsObject.get k devDeps.

Fixpoint lastDeclared (st : State) (k : string) (ps : list string) : option string :=
  match ps with
  | [] => None
  | p :: ps' =>
      match lastDeclared st k ps' with
      | Some v => Some v
      | None => declared st p k
      end
  end.

(** The names of the manifests that can be loaded from a list of
    directories of a disk, in the order of the directories. *)
Definition manifestName (json : gmap string JsonFile) (pkgPath : string)
  : option string :=
  match json !! path_join pkgPath "package.json" with
  | Some (Manifest _ d) => Some (name d)
  | _ => None
  end.

(** The manifests of the lerna package directories of a disk are named:
    a [package.json] that can be parsed is a manifest with a name, and the
    name is not the name of a member of [Object.prototype]. *)
Definition wellNamed (json : gmap string JsonFile) : bool :=
  forallb (fun pkgPath =>
             match json !! path_join pkgPath "package.json" with
             | Some (Manifest _ d) => negb (Js.inherited (name d))
             | Some OtherJson => false
             | None => true
             end) (lernaPaths E).

(** The version cache holds only what [getDependency] gives. *)
Definition cache_sound (st : State) : Prop :=
  forall k v, JsObject.get k (seenDeps st) = Some v -> getDependency E k = Some v.

(** The package [pkgName] needs no change in state [st]: the specs of its
    manifest object are those of [getDependency], every import that is
    looked at has a spec that is not empty, every dependency is imported
    or to be ignored, and the manifest on disk is the text that is written
    for the object. *)
Definition settled (st : State) (pkgName : string) : Prop :=
  exists dname data d deps devDeps,
    JsObject.get pkgName (pkgPaths st) = Some dname /\
    JsObject.get pkgName (pkgData st) = Some data /\
    require_cache st !! data = Some d /\
    dependencies d = Some deps /\ devDependencies d = Some devDeps /\
    (forall k v, JsObject.get k deps = Some v -> getDependency E k = Some v) /\
    (forall k v, JsObject.get k devDeps = Some v -> getDependency E k = Some v) /\
    jsonFiles st !! path_join dname "package.json"
      = Some (JSON_stringify (sortPackageJson d)) /\
    (sourceFiles E dname ≠ [] ->
     exists names,
       importedNames st dname = Some names /\
       (forall k, k ∈ names -> checked pkgName k ->
                  Js.truthy (JsObject.get k deps) = true) /\
       (forall k, k ∈ deps.*1 -> ignored UNUSED pkgName k = true \/ k ∈ names)).

End Notions.


(** ** Example workspaces *)

Module Example.

(** A stand-in for the TypeScript parser on source files in which every
    import is a line that starts with the keyword, a blank and a quoted
    module specifier. *)
Fixpoint upTo (c : ascii) (s : string) : string :=
  match s with
  | EmptyString => EmptyString
  | String c' s' => if decide (c' = c) then EmptyString else String c' (upTo c s')
  end.

Definition parseLine (line : string) : list Node :=
  if String.prefix ("import " +:+ String DQUOTE EmptyString) line
  then [ImportDeclaration
          (upTo DQUOTE (String.substring 8 (String.length line) line)) []]
  else [].

Definition parse (text : string) : Node :=
  OtherKind (mjoin (parseLine <$> Js.split LF text)).

(** [glob.sync] and [getDependency] given by tables. *)
Definition glob (table : JsObject.t (list string)) (pattern : string) : list string :=
  default [] (JsObject.get pattern table).

Definition lookup (table : JsObject.t string) (dep : string) : option string :=
  JsObject.get dep table.

Definition manifest (n v : string) (deps devDeps : JsObject.t string) : JsonFile :=
  Manifest true (mkPackage n v (Some deps) (Some devDeps)).

(** The result and the final state of a computation that did not throw. *)
Definition value {A} (r : Result (A * State)) (a : A) : A :=
  match r with
  | Ok (x, _) => x
  | Throw _ => a
  end.

Definition state {A} (r : Result (A * State)) (st : State) : State :=
  match r with
  | Ok (_, st') => st'
  | Throw _ => st
  end.

(** The state of a process after it has picked up the packages. *)
Definition loaded (E : Env) (json : gmap string JsonFile) (text : gmap string string)
  : State :=
  match forEach (lernaPaths E) loadPackage (initial json text) with
  | Ok (_, st) => st
  | Throw _ => initial json text
  end.

(** Packages [A] and [B]: [A] imports [lodash] and a file of its own and
    declares nothing, [B] declares [left-pad] and imports nothing. *)
Module Two.
Definition E : Env :=
  mkEnv "/repo"
        (glob [("/repo/packages/*", ["/repo/packages/A"; "/repo/packages/B"]);
               ("/repo/packages/A/src/*.ts*", ["/repo/packages/A/src/index.ts"]);
               ("/repo/packages/A/src/**/*.ts*", ["/repo/packages/A/src/index.ts"]);
               ("/repo/packages/B/src/*.ts*", ["/repo/packages/B/src/index.ts"]);
               ("/repo/packages/B/src/**/*.ts*", ["/repo/packages/B/src/index.ts"])])
        ["packages/*"]
        (lookup [("lodash", "^4.17.4"); ("left-pad", "^1.1.3")])
        parse.

Definition json : gmap string JsonFile :=
  list_to_map
    [("/repo/package.json", manifest "top" "0.0.0" [] []);
     ("/repo/packages/A/package.json", manifest "A" "0.1.0" [] []);
     ("/repo/packages/B/package.json", manifest "B" "0.1.0" [("left-pad", "^1.1.3")] [])].

Definition text : gmap string string :=
  list_to_map
    [("/repo/packages/A/src/index.ts", importLine "lodash" +:+ importLine "./util");
     ("/repo/packages/B/src/index.ts", "export const x = 1;")].

Definition st0 : State := loaded E json text.
Definition runA : Result (list string * State) := ensurePackage E "A" st0.
Definition runB : Result (list string * State) := ensurePackage E "B" st0.
Definition run : Result (JsObject.t Finding * State) :=
  ensureIntegrity E (initial json text).

(** A second run, on the files that the first one left. *)
Definition json1 : gmap string JsonFile := jsonFiles (state run st0).
Definition text1 : gmap string string := textFiles (state run st0).
Definition second : Result (JsObject.t Finding * State) :=
  ensureIntegrity E (initial json1 text1).
End Two.

(** The aggregator and two packages [p] and [q], [p] depending on [q].
    The version lookup prefers tilde ranges for [q]. *)
Module Aggregate.
Definition E : Env :=
  mkEnv "/repo"
        (glob [("/repo/packages/*",
                ["/repo/packages/all-packages"; "/repo/packages/p"; "/repo/packages/q"]);
               ("/repo/packages/all-packages/src/*.ts*",
                ["/repo/packages/all-packages/src/index.ts"]);
               ("/repo/packages/all-packages/src/**/*.ts*",
                ["/repo/packages/all-packages/src/index.ts"])])
        ["packages/*"]
        (lookup [("q", "~0.1.0"); ("p", "~0.2.0")])
        parse.

Definition json : gmap string JsonFile :=
  list_to_map
    [("/repo/package.json", manifest "top" "0.0.0" [] []);
     ("/repo/packages/all-packages/package.json",
      manifest "@jupyterlab/all-packages" "0.1.0" [] []);
     ("/repo/packages/all-packages/tsconfig.json", OtherJson);
     ("/repo/packages/p/package.json", manifest "p" "0.2.0" [("q", "^0.0.9")] []);
     ("/repo/packages/q/package.json", manifest "q" "0.1.0" [] [])].

Definition index : string :=
  Js.join (String LF EmptyString)
          ["// Copyright"; "// Distributed"; EmptyString; importLine "p"; importLine "q"].

Definition text : gmap string string :=
  list_to_map [("/repo/packages/all-packages/src/index.ts", index)].

Definition st0 : State := loaded E json text.
Definition runAll : Result (list string * State) :=
  ensurePackage E "@jupyterlab/all-packages" st0.
Definition run : Result (JsObject.t Finding * State) :=
  ensureIntegrity E (initial json text).
Definition sync : Result (list string * State) := ensureAllPackages E st0.
End Aggregate.

(** A package that declares [left-pad] and has no source file. *)
Module Bare.
Definition E : Env :=
  mkEnv "/repo"
        (glob [("/repo/packages/*", ["/repo/packages/native"])])
        ["packages/*"]
        (lookup [("left-pad", "^1.1.3")])
        parse.

Definition json : gmap string JsonFile :=
  list_to_map
    [("/repo/package.json", manifest "top" "0.0.0" [] []);
     ("/repo/packages/native/package.json",
      manifest "native" "0.1.0" [("left-pad", "^1.0.0")] [])].

Definition text : gmap string string := ∅.

Definition st0 : State := loaded E json text.
Definition run : Result (list string * State) := ensurePackage E "native" st0.
End Bare.

(** A package with a devDependency whose declared spec is not the one of
    the version lookup. *)
Module Hoist.
Definition E : Env :=
  mkEnv "/repo"
        (glob [("/repo/packages/*", ["/repo/packages/p"])])
        ["packages/*"]
        (lookup [("typescript", "~2.4.1")])
        parse.

Definition json : gmap string JsonFile :=
  list_to_map
    [("/repo/package.json", manifest "top" "0.0.0" [] []);
     ("/repo/packages/p/package.json",
      manifest "p" "0.1.0" [] [("typescript", "^2.3.0")])].

Definition text : gmap string string := ∅.

Definition st0 : State := loaded E json text.
Definition top : Result (option string * State) := ensureTop E st0.
Definition st1 : State := state top st0.
Definition first : Result (JsObject.t Finding * State) :=
  ensureIntegrity E (initial json text).
Definition second : Result (JsObject.t Finding * State) :=
  ensureIntegrity E (initial (jsonFiles (state first st0)) (textFiles (state first st0))).
End Hoist.

(** The aggregator, a package under [packages] and one under [examples]. *)
Module Outside.
Definition E : Env :=
  mkEnv "/repo"
        (glob [("/repo/packages/*",
                ["/repo/packages/all-packages"; "/repo/packages/q"]);
               ("/repo/examples/*", ["/repo/examples/demo"]);
               ("/repo/packages/all-packages/src/*.ts*",
                ["/repo/packages/all-packages/src/index.ts"]);
               ("/repo/packages/all-packages/src/**/*.ts*",
                ["/repo/packages/all-packages/src/index.ts"])])
        ["packages/*"; "examples/*"]
        (lookup [("q", "^0.1.0")])
        parse.

Definition json : gmap string JsonFile :=
  list_to_map
    [("/repo/package.json", manifest "top" "0.0.0" [] []);
     ("/repo/packages/all-packages/package.json",
      manifest "@jupyterlab/all-packages" "0.1.0" [] []);
     ("/repo/packages/all-packages/tsconfig.json", OtherJson);
     ("/repo/packages/q/package.json", manifest "q" "0.1.0" [] []);
     ("/repo/examples/demo/package.json", manifest "demo" "0.1.0" [] [])].

Definition text : gmap string string :=
  list_to_map
    [("/repo/packages/all-packages/src/index.ts",
      Js.join (String LF EmptyString)
              ["// Copyright"; "// Distributed"; EmptyString; importLine "q"])].

Definition st0 : State := loaded E json text.
Definition sync : Result (list string * State) := ensureAllPackages E st0.
End Outside.

(** Two packages whose directories are not in the order of their names;
    both declare a spec that the validation replaces. *)
Module Order.
Definition E : Env :=
  mkEnv "/repo"
        (glob [("/repo/packages/*", ["/repo/packages/a"; "/repo/packages/b"])])
        ["packages/*"]
        (lookup [("left-pad", "^1.1.3")])
        parse.

Definition json : gmap string JsonFile :=
  list_to_map
    [("/repo/package.json", manifest "top" "0.0.0" [] []);
     ("/repo/packages/a/package.json",
      manifest "zebra" "0.1.0" [("left-pad", "^1.0.0")] []);
     ("/repo/packages/b/package.json",
      manifest "apple" "0.1.0" [("left-pad", "^1.0.0")] [])].

Definition text : gmap string string := ∅.

Definition st0 : State := loaded E json text.
Definition run : Result (JsObject.t Finding * State) :=
  ensureIntegrity E (initial json text).
End Order.

(** An aggregator that has a manifest and nothing else yet. *)
Module NoSources.
Definition E : Env :=
  mkEnv "/repo"
        (glob [("/repo/packages/*",
                ["/repo/packages/all-packages"; "/repo/packages/q"])])
        ["packages/*"]
        (lookup [("q", "^0.1.0")])
        parse.

Definition json : gmap string JsonFile :=
  list_to_map
    [("/repo/package.json", manifest "top" "0.0.0" [] []);
     ("/repo/packages/all-packages/package.json",
      manifest "@jupyterlab/all-packages" "0.1.0" [] []);
     ("/repo/packages/q/package.json", manifest "q" "0.1.0" [] [])].

Definition text : gmap string string := ∅.

Definition st0 : State := loaded E json text.
End NoSources.

(** A package [p] and a directory [docs] without a manifest, both under
    [packages]. *)
Module Stray.
Definition E : Env :=
  mkEnv "/repo"
        (glob [("/repo/packages/*", ["/repo/packages/p"; "/repo/packages/docs"])])
        ["packages/*"]
        (lookup [])
        parse.

Definition json : gmap string JsonFile :=
  list_to_map
    [("/repo/package.json", manifest "top" "0.0.0" [] []);
     ("/repo/packages/p/package.json", manifest "p" "0.1.0" [] [])].

Definition text : gmap string string := ∅.

Definition st0 : State := loaded E json text.
End Stray.

(** A package whose manifest has no [dependencies] member and one whose
    manifest has no [devDependencies] member. *)
Module Plain.
Definition E : Env :=
  mkEnv "/repo"
        (glob [("/repo/packages/*", ["/repo/packages/bare"; "/repo/packages/nodev"])])
        ["packages/*"]
        (lookup [("left-pad", "^1.1.3")])
        parse.

Definition json : gmap string JsonFile :=
  list_to_map
    [("/repo/package.json", manifest "top" "0.0.0" [] []);
     ("/repo/packages/bare/package.json",
      Manifest true (mkPackage "bare" "0.1.0" None (Some [])));
     ("/repo/packages/nodev/package.json",
      Manifest true (mkPackage "nodev" "0.1.0" (Some [("left-pad", "^1.0.0")]) None))].

Definition text : gmap string string := ∅.

Definition st0 : State := loaded E json text.
End Plain.

End Example.

(** ** Statements of the specification that the script does not satisfy as
    they stand *)

Module Stated.

(** Missing-detection completeness, for the validation of package
    [pkgName] in state [st]. *)
Definition missing_detection (E : Env) (st : State) (pkgName : string) : Prop :=
  forall msgs st', ensurePackage E pkgName st = Ok (msgs, st') ->
  forall dname data d deps names x,
    JsObject.get pkgName (pkgPaths st) = Some dname ->
    JsObject.get pkgName (pkgData st) = Some data ->
    require_cache st !! data = Some d ->
    dependencies d = Some deps ->
    importedNames E st dname = Some names ->
    x ∈ names -> x ∉ deps.*1 ->
    ignored MISSING pkgName x = false -> x ≠ "." -> x ≠ ".." ->
    occurrences (missingMsg x) msgs = 1 /\
    exists d', require_cache st' !! data = Some d' /\
               dependencies d' ≫= JsObject.get x = canonical E st x.

(** Unused-detection soundness, for the validation of package [pkgName]
    in state [st]. *)
Definition unused_detection (E : Env) (st : State) (pkgName : string) : Prop :=
  forall msgs st', ensurePackage E pkgName st = Ok (msgs, st') ->
  forall dname data d deps names k,
    JsObject.get pkgName (pkgPaths st) = Some dname ->
    JsObject.get pkgName (pkgData st) = Some data ->
    require_cache st !! data = Some d ->
    dependencies d = Some deps ->
    importedNames E st dname = Some names ->
    k ∈ deps.*1 ->
    exists d', require_cache st' !! data = Some d' /\
      (ignored UNUSED pkgName k = true -> is_Some (dependencies d' ≫= JsObject.get k)) /\
      (ignored UNUSED pkgName k = false -> k ∉ names ->
       dependencies d' ≫= JsObject.get k = None /\
       occurrences (unusedMsg k) msgs = 1).

(** Canonical-version uniqueness, for a run on the given disk. *)
Definition canonical_versions (E : Env) (json : gmap string JsonFile)
           (text : gmap string string) : Prop :=
  forall report st', ensureIntegrity E (initial json text) = Ok (report, st') ->
  forall n v, JsObject.get n (seenDeps st') = Some v ->
  forall pkg ref d v',
    JsObject.get pkg (pkgData st') = Some ref ->
    require_cache st' !! ref = Some d ->
    dependencies d ≫= JsObject.get n = Some v'
    \/ devDependencies d ≫= JsObject.get n = Some v' ->
    v' = v.

(** Aggregator completeness, for the aggregator step in state [st]. *)
Definition aggregator_complete (E : Env) (st : State) : Prop :=
  forall msgs st', ensureAllPackages E st = Ok (msgs, st') ->
  forall n ref q,
    JsObject.get n (pkgData st) = Some ref ->
    ref ≠ allPackageJson E ->
    require_cache st !! ref = Some q ->
    exists agg index,
      require_cache st' !! allPackageJson E = Some agg /\
      is_Some (dependencies agg ≫= JsObject.get (name q)) /\
      textFiles st' !! indexPath E = Some index /\
      references (name q) index = 1.

(** The devDependencies of the top level manifest after [ensureTop] in
    state [st]. *)
Definition top_canonical (E : Env) (st : State) : Prop :=
  forall m st', ensureTop E st = Ok (m, st') ->
  forall pkgPath data d devDeps k,
    pkgPath ∈ localPackages E ->
    JsObject.get (nameOf st pkgPath) (pkgData st) = Some data ->
    require_cache st !! data = Some d ->
    devDependencies d = Some devDeps ->
    k ∈ devDeps.*1 ->
    exists top, require_cache st' !! topJson E = Some top /\
                is_Some (devDependencies top ≫= JsObject.get k) /\
                devDependencies top ≫= JsObject.get k = canonical E st' k.

(** The packages are validated in ascending order of their names: the
    report, to which the findings of a package are added when it has been
    validated, lists the packages in this order. *)
Definition name_order (E : Env) (json : gmap string JsonFile)
           (text : gmap string string) : Prop :=
  forall report st', ensureIntegrity E (initial json text) = Ok (report, st') ->
  StronglySorted (fun a b => String.ltb a b = true)
                 (filter (fun k => k ≠ "top") report.*1).

(** What is said of a package without source files: the specs are made
    consistent and the manifest is written if it changed, nothing else. *)
Definition normalizeAndPersist (E : Env) (pkgName : string) : M (list string) :=
  (dname <- gets (fun st => JsObject.get pkgName (pkgPaths st)) ;;
   data <- gets (fun st => JsObject.get pkgName (pkgData st)) ;;
   data <- defined data ;;
   d <- load data ;;
   deps <- defined (dependencies d) ;;
   normalize E Dependencies data (JsObject.keys deps) ;;;
   devDeps <- defined (devDependencies d) ;;
   normalize E DevDependencies data (JsObject.keys devDeps) ;;;
   dname <- defined dname ;;
   changed <- ensurePackageData data (path_join dname "package.json") ;;
   ret (if changed then ["Package data changed"] else []))%js.

Definition no_sources (E : Env) (st : State) (pkgName : string) : Prop :=
  forall dname,
    JsObject.get pkgName (pkgPaths st) = Some dname ->
    sourceFiles E dname = [] ->
    ensurePackage E pkgName st = normalizeAndPersist E pkgName st.

(** Idempotence: a second run on the disk that a first run left reports
    nothing. *)
Definition idempotent (E : Env) (json : gmap string JsonFile)
           (text : gmap string string) : Prop :=
  forall report st', ensureIntegrity E (initial json text) = Ok (report, st') ->
  exists st'', ensureIntegrity E (initial (jsonFiles st') (textFiles st')) = Ok ([], st'').

End Stated.
(** * Properties *)

(** ** Strings and tables *)

Example split_scoped :
  Js.split "/" "@phosphor/widgets/lib/panel" = ["@phosphor"; "widgets"; "lib"; "panel"].
Proof. reflexivity. Qed.

Example split_trailing : Js.split "/" "a/" = ["a"; EmptyString].
Proof. reflexivity. Qed.

Example keys_order :
  JsObject.keys [("b", 1); ("10", 2); ("a", 3); ("9", 4); ("b", 5); ("01", 6)]
  = ["9"; "10"; "b"; "a"; "01"].
Proof. vm_compute. reflexivity. Qed.

Example sort_default : Js.sort ["b"; "a/c"; "B"; "a"] = ["B"; "a"; "a/c"; "b"].
Proof. vm_compute. reflexivity. Qed.

Module JsFacts.

Lemma elem_of_uniq_acc (l acc : list string) x :
  x ∈ fold_left (fun acc x => if decide (x ∈ acc) then acc else acc ++ [x]) l acc
  <-> x ∈ acc \/ x ∈ l.
Proof.
  revert acc. induction l as [|a l IH]; intros acc; simpl; [set_solver|].
  rewrite IH. destruct (decide (a ∈ acc)); set_solver.
Qed.

Lemma elem_of_uniq (l : list string) x : x ∈ Js.uniq l <-> x ∈ l.
Proof. unfold Js.uniq. rewrite elem_of_uniq_acc. set_solver. Qed.

Lemma NoDup_uniq_acc (l acc : list string) :
  NoDup acc ->
  NoDup (fold_left (fun acc x => if decide (x ∈ acc) then acc else acc ++ [x]) l acc).
Proof.
  revert acc. induction l as [|a l IH]; intros acc Hacc; simpl; [done|].
  apply IH. destruct (decide (a ∈ acc)); [done|].
  apply NoDup_app. split_and!; [done| |apply NoDup_singleton]. set_solver.
Qed.

Lemma NoDup_uniq (l : list string) : NoDup (Js.uniq l).
Proof. apply NoDup_uniq_acc. constructor. Qed.

Lemma ownKeys_Permutation (ks : list string) : Js.ownKeys ks ≡ₚ ks.
Proof.
  unfold Js.ownKeys. rewrite merge_sort_Permutation.
  induction ks as [|k ks IH]; [done|].
  rewrite !filter_cons.
  destruct (decide (Js.isIndex k = true)) as [Hk|Hk],
           (decide (Js.isIndex k = false)) as [Hk'|Hk']; simpl.
  - congruence.
  - by rewrite IH.
  - rewrite <- Permutation_middle. by rewrite IH.
  - by destruct (Js.isIndex k).
Qed.

Section table.
Context {V : Type}.
Implicit Types (o : JsObject.t V) (k : string) (v : V).

Lemma get_None o k : JsObject.get k o = None <-> k ∉ o.*1.
Proof.
  induction o as [|[k' v'] o IH]; simpl; [set_solver|].
  destruct (decide (k' = k)); [set_solver|]. rewrite IH. set_solver.
Qed.

Lemma get_Some_elem o k v : JsObject.get k o = Some v -> k ∈ o.*1.
Proof.
  intros H. destruct (decide (k ∈ o.*1)) as [|Hn]; [done|].
  apply get_None in Hn. congruence.
Qed.

Lemma elem_get_Some o k : k ∈ o.*1 -> exists v, JsObject.get k o = Some v.
Proof.
  intros H. destruct (JsObject.get k o) eqn:Hg; [eauto|].
  apply get_None in Hg. done.
Qed.

Lemma get_set_eq o k v : JsObject.get k (JsObject.set k v o) = Some v.
Proof.
  induction o as [|[k' v'] o IH]; simpl.
  - by rewrite decide_True.
  - destruct (decide (k' = k)); simpl.
    + by rewrite decide_True.
    + by rewrite decide_False.
Qed.

Lemma get_set_ne o k k' v :
  k ≠ k' -> JsObject.get k' (JsObject.set k v o) = JsObject.get k' o.
Proof.
  intros Hne. induction o as [|[k0 v0] o IH]; simpl.
  - by rewrite decide_False.
  - destruct (decide (k0 = k)) as [->|]; simpl.
    + by rewrite !decide_False.
    + destruct (decide (k0 = k')); [done|]. apply IH.
Qed.

Lemma get_set o k k' v :
  JsObject.get k' (JsObject.set k v o)
  = if decide (k = k') then Some v else JsObject.get k' o.
Proof.
  destruct (decide (k = k')) as [->|]; [apply get_set_eq|by apply get_set_ne].
Qed.

Lemma set_fst_elem o k v : k ∈ o.*1 -> (JsObject.set k v o).*1 = o.*1.
Proof.
  induction o as [|[k' v'] o IH]; simpl; [set_solver|].
  intros Hin. destruct (decide (k' = k)) as [->|Hne]; simpl; [done|].
  f_equal. apply IH. set_solver.
Qed.

Lemma set_fst_fresh o k v : k ∉ o.*1 -> (JsObject.set k v o).*1 = o.*1 ++ [k].
Proof.
  induction o as [|[k' v'] o IH]; simpl; [done|].
  intros Hin. destruct (decide (k' = k)) as [->|Hne]; simpl; [set_solver|].
  f_equal. apply IH. set_solver.
Qed.

Lemma set_same o k v : JsObject.get k o = Some v -> JsObject.set k v o = o.
Proof.
  induction o as [|[k' v'] o IH]; simpl; [done|].
  destruct (decide (k' = k)) as [->|Hne]; [by intros [= ->]|].
  intros H. by rewrite IH.
Qed.

Lemma get_delete o k k' :
  JsObject.get k' (JsObject.delete k o)
  = if decide (k = k') then None else JsObject.get k' o.
Proof.
  unfold JsObject.delete. induction o as [|[k0 v0] o IH].
  - simpl. by destruct (decide (k = k')).
  - rewrite filter_cons. cbn [fst]. destruct (decide (k0 ≠ k)) as [Hne|Heq].
    + cbn [JsObject.get].
      destruct (decide (k0 = k')) as [->|]; [by rewrite decide_False|]. apply IH.
    + apply dec_stable in Heq as ->. rewrite IH. cbn [JsObject.get].
      destruct (decide (k = k')); [done|]. done.
Qed.

Lemma elem_of_keys o k : k ∈ JsObject.keys o <-> k ∈ o.*1.
Proof.
  unfold JsObject.keys. rewrite ownKeys_Permutation. apply elem_of_uniq.
Qed.

Lemma NoDup_keys o : NoDup (JsObject.keys o).
Proof.
  unfold JsObject.keys. rewrite ownKeys_Permutation. apply NoDup_uniq.
Qed.

Lemma has_true o k : JsObject.has k o = true <-> k ∈ o.*1.
Proof.
  unfold JsObject.has. destruct (JsObject.get k o) eqn:Hg.
  - split; [|done]. intros _. by eapply get_Some_elem.
  - apply get_None in Hg. split; [done|]. intros; done.
Qed.
End table.

End JsFacts.

(** ** Computations *)

Lemma bind_Ok {A B} (m : M A) (f : A -> M B) st b st' :
  bind m f st = Ok (b, st') <->
  exists a st1, m st = Ok (a, st1) /\ f a st1 = Ok (b, st').
Proof.
  unfold bind. split.
  - destruct (m st) as [[a st1]|e]; [eauto|done].
  - intros (a & st1 & -> & H). done.
Qed.

Lemma ret_Ok {A} (a b : A) st st' : ret a st = Ok (b, st') <-> b = a /\ st' = st.
Proof. unfold ret. split; [by intros [= -> ->]|by intros [-> ->]]. Qed.

Lemma gets_Ok {A} (f : State -> A) b st st' :
  gets f st = Ok (b, st') <-> b = f st /\ st' = st.
Proof. unfold gets. split; [by intros [= <- <-]|by intros [-> ->]]. Qed.

Lemma modify_Ok (f : State -> State) u st st' :
  modify f st = Ok (u, st') <-> st' = f st.
Proof. unfold modify. destruct u. split; [by intros [= <-]|by intros ->]. Qed.

Lemma defined_Ok {A} (o : option A) a st st' :
  defined o st = Ok (a, st') <-> o = Some a /\ st' = st.
Proof.
  destruct o; simpl; unfold ret, throw; split; try done.
  - by intros [= -> ->].
  - by intros [[= ->] ->].
  - by intros [? _].
Qed.

Lemma load_Ok ref d st st' :
  load ref st = Ok (d, st') <-> require_cache st !! ref = Some d /\ st' = st.
Proof.
  unfold load. destruct (require_cache st !! ref); split; try done.
  - by intros [= -> ->].
  - by intros [[= ->] ->].
  - by intros [? _].
Qed.

Lemma store_Ok ref d u st st' :
  store ref d st = Ok (u, st') <-> st' = set_require_cache (insert ref d) st.
Proof. apply modify_Ok. Qed.

Lemma setField_Ok f data k v u st st' :
  setField f data k v st = Ok (u, st') <->
  exists d t, require_cache st !! data = Some d /\ field f d = Some t /\
    st' = set_require_cache
            (insert data (with_field f (Some (JsObject.set k v t)) d)) st.
Proof.
  unfold setField. rewrite bind_Ok. split.
  - intros (d & st1 & Hl & H). apply load_Ok in Hl as [Hl ->].
    apply bind_Ok in H as (t & st2 & Ht & H). apply defined_Ok in Ht as [Ht ->].
    apply store_Ok in H. eauto.
  - intros (d & t & Hd & Ht & ->). exists d, st. split; [by apply load_Ok|].
    apply bind_Ok. exists t, st. split; [by apply defined_Ok|]. by apply store_Ok.
Qed.

Lemma deleteDependency_Ok data k u st st' :
  deleteDependency data k st = Ok (u, st') <->
  exists d t, require_cache st !! data = Some d /\ dependencies d = Some t /\
    st' = set_require_cache
            (insert data (with_field Dependencies (Some (JsObject.delete k t)) d)) st.
Proof.
  unfold deleteDependency. rewrite bind_Ok. split.
  - intros (d & st1 & Hl & H). apply load_Ok in Hl as [Hl ->].
    apply bind_Ok in H as (t & st2 & Ht & H). apply defined_Ok in Ht as [Ht ->].
    apply store_Ok in H. eauto.
  - intros (d & t & Hd & Ht & ->). exists d, st. split; [by apply load_Ok|].
    apply bind_Ok. exists t, st. split; [by apply defined_Ok|]. by apply store_Ok.
Qed.

Lemma readFileSync_Ok file s st st' :
  readFileSync file st = Ok (s, st') <-> textFiles st !! file = Some s /\ st' = st.
Proof.
  unfold readFileSync. destruct (textFiles st !! file); split; try done.
  - by intros [= -> ->].
  - by intros [[= ->] ->].
  - by intros [? _].
Qed.

Lemma requireJson_Ok file u st st' :
  requireJson file st = Ok (u, st') <-> is_Some (jsonFiles st !! file) /\ st' = st.
Proof.
  unfold requireJson. destruct u. destruct (jsonFiles st !! file); split; try done.
  - intros [= <-]. eauto.
  - by intros [_ ->].
  - by intros [[? ?] _].
Qed.

Lemma require_Ok file ref st st' :
  require file st = Ok (ref, st') <->
  ref = file /\
  ((is_Some (require_cache st !! file) /\ st' = st) \/
   (require_cache st !! file = None /\
    exists r d, jsonFiles st !! file = Some (Manifest r d) /\
                st' = set_require_cache (insert file d) st)).
Proof.
  unfold require. destruct (require_cache st !! file) as [d|] eqn:Hc.
  - split.
    + intros [= <- <-]. split; [done|]. left. eauto.
    + intros [-> [[_ ->]|[? _]]]; done.
  - destruct (jsonFiles st !! file) as [[r d|]|] eqn:Hj; split; try done.
    + intros [= <- <-]. split; [done|]. right. eauto.
    + intros [-> [[[? ?] _]|[_ (r' & d' & [= <- <-] & ->)]]]; done.
    + intros [-> [[[? ?] _]|[_ (r' & d' & ? & ->)]]]; done.
    + intros [-> [[[? ?] _]|[_ (r' & d' & ? & ->)]]]; done.
Qed.

Lemma ensurePackageData_Ok data file b st st' :
  ensurePackageData data file st = Ok (b, st') <->
  exists d orig,
    require_cache st !! data = Some d /\ jsonFiles st !! file = Some orig /\
    ((b = false /\ JSON_stringify (sortPackageJson d) = orig /\ st' = st) \/
     (b = true /\ JSON_stringify (sortPackageJson d) ≠ orig /\
      st' = set_jsonFiles (insert file (JSON_stringify (sortPackageJson d))) st)).
Proof.
  unfold ensurePackageData. rewrite bind_Ok. split.
  - intros (d & st1 & Hl & H). apply load_Ok in Hl as [Hl ->].
    destruct (jsonFiles st !! file) as [orig|]; [|done].
    exists d, orig. split_and!; [done..|].
    destruct (decide _); injection H as <- <-; eauto.
  - intros (d & orig & Hd & Hf & H). exists d, st. split; [by apply load_Ok|].
    rewrite Hf. destruct H as [(-> & Heq & ->)|(-> & Hne & ->)].
    + by rewrite decide_True.
    + by rewrite decide_False.
Qed.

Section facts.
Variable E : Env.

Lemma seenDep_Ok k v st st' :
  seenDep E k st = Ok (v, st') <->
  (JsObject.get k (seenDeps st) = Some v /\ st' = st) \/
  (JsObject.get k (seenDeps st) = None /\ getDependency E k = Some v /\
   st' = set_seenDeps (JsObject.set k v) st).
Proof.
  unfold seenDep. destruct (JsObject.get k (seenDeps st)) as [v0|].
  - split; [intros [= -> ->]; by left|]. by intros [[[= ->] ->]|[? _]].
  - destruct (getDependency E k) as [v0|]; split; try done.
    + intros [= -> ->]. by right.
    + by intros [[? _]|(_ & [= ->] & ->)].
    + by intros [[? _]|(_ & ? & _)].
Qed.
End facts.

(** ** Frames *)

Section frames.
Variable E : Env.

Lemma cache_grows_refl st : cache_grows E st st.
Proof. intros k. destruct (JsObject.get k (seenDeps st)); auto. Qed.

Lemma cache_grows_trans st1 st2 st3 :
  cache_grows E st1 st2 -> cache_grows E st2 st3 -> cache_grows E st1 st3.
Proof.
  intros H12 H23 k. specialize (H12 k). specialize (H23 k).
  destruct (JsObject.get k (seenDeps st1)) as [v|].
  - by rewrite H12 in H23.
  - destruct H12 as [H12|H12].
    + by rewrite H12 in H23.
    + destruct (JsObject.get k (seenDeps st2)) as [v|]; [|done].
      right. congruence.
Qed.

Lemma cache_grows_get st st' k v :
  cache_grows E st st' ->
  JsObject.get k (seenDeps st) = Some v -> JsObject.get k (seenDeps st') = Some v.
Proof. intros H Hk. specialize (H k). by rewrite Hk in H. Qed.

Lemma cache_grows_canonical st st' k v :
  cache_grows E st st' ->
  JsObject.get k (seenDeps st') = Some v -> canonical E st k = Some v.
Proof.
  intros H Hk. specialize (H k). unfold canonical.
  destruct (JsObject.get k (seenDeps st)); [congruence|].
  destruct H; congruence.
Qed.

Lemma cache_grows_same st st' :
  seenDeps st' = seenDeps st -> cache_grows E st st'.
Proof. intros Heq k. rewrite Heq. destruct (JsObject.get k (seenDeps st)); auto. Qed.

Lemma same_tables_refl st : same_tables st st.
Proof. done. Qed.

Lemma same_tables_trans st1 st2 st3 :
  same_tables st1 st2 -> same_tables st2 st3 -> same_tables st1 st3.
Proof. unfold same_tables. intros (?&?&?) (?&?&?). split_and!; congruence. Qed.

Lemma same_disk_trans st1 st2 st3 :
  same_disk st1 st2 -> same_disk st2 st3 -> same_disk st1 st3.
Proof. unfold same_disk. intros (?&?) (?&?). split_and!; congruence. Qed.

Lemma seenDep_spec k v st st' :
  seenDep E k st = Ok (v, st') ->
  JsObject.get k (seenDeps st') = Some v /\ canonical E st k = Some v /\
  cache_grows E st st' /\ same_tables st st' /\ same_disk st st' /\
  require_cache st' = require_cache st.
Proof.
  intros [[Hk ->]|(Hk & Hg & ->)]%seenDep_Ok.
  - unfold canonical. rewrite Hk. split_and!; try done. apply cache_grows_refl.
  - unfold canonical. rewrite Hk. simpl. rewrite JsFacts.get_set_eq.
    split_and!; try done. intros k'. simpl. rewrite JsFacts.get_set.
    destruct (decide (k = k')) as [<-|].
    + rewrite Hk. right. done.
    + destruct (JsObject.get k' (seenDeps st)); auto.
Qed.

Lemma with_field_field f o d : field f (with_field f o d) = o.
Proof. by destruct f. Qed.

Lemma with_field_twice f o o' d :
  with_field f o' (with_field f o d) = with_field f o' d.
Proof. by destruct f. Qed.

Lemma with_field_same f d : with_field f (field f d) d = d.
Proof. by destruct f, d. Qed.

(** The loop that makes the specs of one table consistent: the keys stay,
    every key of the loop gets the cached spec. *)
Lemma normalize_spec f data ks st st' d t :
  normalize E f data ks st = Ok (tt, st') ->
  require_cache st !! data = Some d ->
  field f d = Some t ->
  ks ⊆ t.*1 ->
  exists t',
    require_cache st' = <[data := with_field f (Some t') d]> (require_cache st) /\
    t'.*1 = t.*1 /\
    (forall k, k ∈ ks -> exists v, JsObject.get k t' = Some v /\
                                   JsObject.get k (seenDeps st') = Some v) /\
    (forall k, k ∉ ks -> JsObject.get k t' = JsObject.get k t) /\
    cache_grows E st st' /\ same_tables st st' /\ same_disk st st'.
Proof.
  unfold normalize. revert st d t. induction ks as [|k ks IH]; intros st d t Hrun Hd Ht Hks.
  - apply ret_Ok in Hrun as [_ ->]. exists t. split_and!; try done.
    + rewrite <- Ht, with_field_same. by rewrite insert_id.
    + set_solver.
    + apply cache_grows_refl.
  - simpl in Hrun. apply bind_Ok in Hrun as ([] & st2 & Hstep & Hrun).
    apply bind_Ok in Hstep as (v & st1 & Hv & Hset).
    apply seenDep_spec in Hv as (Hv & _ & Hg1 & Ht1 & Hd1 & Hc1).
    apply setField_Ok in Hset as (d1 & t1 & Hd1' & Ht1' & ->).
    rewrite Hc1, Hd in Hd1'. injection Hd1' as <-. rewrite Ht in Ht1'. injection Ht1' as <-.
    eapply IH in Hrun as (t' & Hc & Hk & Hin & Hout & Hg & Htb & Hdk).
    2:{ simpl. apply lookup_insert_eq. }
    2:{ apply with_field_field. }
    2:{ rewrite JsFacts.set_fst_elem by set_solver. set_solver. }
    exists t'. split_and!.
    + rewrite Hc. simpl. rewrite with_field_twice, insert_insert_eq. by rewrite Hc1.
    + rewrite Hk. apply JsFacts.set_fst_elem. set_solver.
    + intros k' Hk'. destruct (decide (k' ∈ ks)) as [|Hn]; [by apply Hin|].
      assert (k' = k) as -> by set_solver.
      exists v. rewrite (Hout _ Hn), JsFacts.get_set_eq. split; [done|].
      eapply cache_grows_get; [exact Hg|]. done.
    + intros k' Hk'. rewrite Hout by set_solver. apply JsFacts.get_set_ne. set_solver.
    + eapply cache_grows_trans; [exact Hg1|]. done.
    + eapply same_tables_trans; [exact Ht1|]. done.
    + eapply same_disk_trans; [exact Hd1|]. done.
Qed.
End frames.

(** ** Findings *)

Lemma append_inj_r (s a b : string) : s +:+ a = s +:+ b -> a = b.
Proof. induction s as [|c s IH]; simpl; [done|]. intros [= H]. auto. Qed.

Lemma missingMsg_inj k k' : missingMsg k = missingMsg k' -> k = k'.
Proof. apply append_inj_r. Qed.

Lemma unusedMsg_inj k k' : unusedMsg k = unusedMsg k' -> k = k'.
Proof. apply append_inj_r. Qed.

Lemma missingMsg_unusedMsg k k' : missingMsg k ≠ unusedMsg k'.
Proof. done. Qed.

Lemma occurrences_app m l1 l2 :
  occurrences m (l1 ++ l2) = occurrences m l1 + occurrences m l2.
Proof. unfold occurrences. by rewrite filter_app, length_app. Qed.

Lemma occurrences_zero m l : m ∉ l <-> occurrences m l = 0.
Proof.
  unfold occurrences. induction l as [|x l IH]; [set_solver|].
  rewrite filter_cons. destruct (decide (x = m)) as [->|]; simpl.
  - split; [set_solver|done].
  - rewrite <- IH. set_solver.
Qed.

Lemma occurrences_pos m l : m ∈ l <-> 0 < occurrences m l.
Proof.
  destruct (decide (m ∈ l)) as [Hin|Hn].
  - split; [|done]. intros _. destruct (occurrences m l) eqn:Ho; [|lia].
    by apply occurrences_zero in Ho.
  - split; [done|]. apply occurrences_zero in Hn. lia.
Qed.

Lemma occurrences_singleton m x :
  occurrences m [x] = if decide (x = m) then 1 else 0.
Proof. unfold occurrences. rewrite filter_cons. by destruct (decide (x = m)). Qed.

Section missing.
Variable E : Env.

Lemma checked_dec pkgName k : Decision (checked pkgName k).
Proof. unfold checked. apply _. Defined.

Lemma missingStep_skip pkgName data messages k st :
  ~ checked pkgName k -> missingStep E pkgName data messages k st = Ok (messages, st).
Proof.
  unfold checked, missingStep. intros Hn.
  destruct (ignored MISSING pkgName k); [done|].
  rewrite bool_decide_true; [done|].
  destruct (decide (k = ".")), (decide (k = "..")); tauto.
Qed.

Lemma missingStep_checked pkgName data messages k st :
  checked pkgName k ->
  missingStep E pkgName data messages k st =
  (d <- load data ;;
   deps <- defined (dependencies d) ;;
   if Js.truthy (JsObject.get k deps) then ret messages
   else
     v <- seenDep E k ;;
     setDependency data k v ;;;
     ret (messages ++ [missingMsg k])) st.
Proof.
  unfold checked, missingStep. intros (-> & H1 & H2).
  rewrite bool_decide_false; [done|]. tauto.
Qed.

(** The loop that looks for imports with no dependencies. *)
Lemma missing_spec pkgName data names msgs0 msgs st st' d deps :
  foldM (missingStep E pkgName data) msgs0 names st = Ok (msgs, st') ->
  require_cache st !! data = Some d ->
  dependencies d = Some deps ->
  let wanted k := k ∈ names /\ checked pkgName k /\ Js.truthy (JsObject.get k deps) = false in
  exists deps' added,
    require_cache st' = <[data := with_field Dependencies (Some deps') d]> (require_cache st) /\
    msgs = msgs0 ++ added /\
    cache_grows E st st' /\ same_tables st st' /\ same_disk st st' /\
    (forall k, wanted k -> exists v, JsObject.get k deps' = Some v /\
                                     JsObject.get k (seenDeps st') = Some v) /\
    (forall k, ~ wanted k -> JsObject.get k deps' = JsObject.get k deps) /\
    (forall m, m ∈ added -> exists k, m = missingMsg k /\ wanted k) /\
    (forall k, wanted k ->
       missingMsg k ∈ added /\
       (Js.truthy (JsObject.get k (seenDeps st')) = true ->
        occurrences (missingMsg k) added = 1)).
Proof.
  revert msgs0 st d deps.
  induction names as [|x names IH]; intros msgs0 st d deps Hrun Hd Hdeps wanted.
  - apply ret_Ok in Hrun as [-> ->]. exists deps, []. split_and!; try done.
    + rewrite <- Hdeps. change (mkPackage _ _ _ _) with (with_field Dependencies (dependencies d) d).
      rewrite (with_field_same Dependencies). by rewrite insert_id.
    + by rewrite app_nil_r.
    + apply cache_grows_refl.
    + intros k (Hk & _). set_solver.
    + set_solver.
    + intros k (Hk & _). set_solver.
  - simpl in Hrun. apply bind_Ok in Hrun as (msgs1 & st1 & Hstep & Hrun).
    destruct (decide (checked pkgName x /\ Js.truthy (JsObject.get x deps) = false))
      as [[Hx Hfalsy]|Hskip].
    + (* a finding *)
      rewrite missingStep_checked in Hstep by done.
      apply bind_Ok in Hstep as (d0 & st0 & Hl & Hstep). apply load_Ok in Hl as [Hl ->].
      rewrite Hd in Hl. injection Hl as <-.
      apply bind_Ok in Hstep as (deps0 & st0 & Hl & Hstep). apply defined_Ok in Hl as [Hl ->].
      rewrite Hdeps in Hl. injection Hl as <-. rewrite Hfalsy in Hstep.
      apply bind_Ok in Hstep as (v & st2 & Hv & Hstep).
      apply seenDep_spec in Hv as (Hv & _ & Hg1 & Ht1 & Hd1 & Hc1).
      apply bind_Ok in Hstep as ([] & st3 & Hset & Hstep).
      apply ret_Ok in Hstep as [-> ->].
      apply setField_Ok in Hset as (d1 & t1 & Hd1' & Ht1' & ->).
      rewrite Hc1, Hd in Hd1'. injection Hd1' as <-. simpl in Ht1'.
      rewrite Hdeps in Ht1'. injection Ht1' as <-.
      eapply IH in Hrun as (deps' & added & Hc & -> & Hg & Htb & Hdk & Hin & Hout & Hmsg & Hcnt).
      2:{ simpl. apply lookup_insert_eq. }
      2:{ done. }
      assert (JsObject.get x (seenDeps st') = Some v) as Hxv
        by (eapply cache_grows_get; [exact Hg|done]).
      exists deps', (missingMsg x :: added). split_and!.
      * rewrite Hc. simpl. rewrite insert_insert_eq. by rewrite Hc1.
      * by rewrite <- app_assoc.
      * eapply cache_grows_trans; [exact Hg1|]. done.
      * eapply same_tables_trans; [exact Ht1|]. done.
      * eapply same_disk_trans; [exact Hd1|]. done.
      * intros k (Hk & Hck & Hf).
        destruct (decide (k ∈ names /\ Js.truthy (JsObject.get k (JsObject.set x v deps)) = false))
          as [[? ?]|Hn]; [by apply Hin|].
        rewrite Hout by tauto.
        destruct (decide (k = x)) as [->|Hne].
        -- exists v. by rewrite JsFacts.get_set_eq.
        -- rewrite JsFacts.get_set_ne in Hn by done.
           rewrite JsFacts.get_set_ne by done. set_solver.
      * intros k Hk. assert (k ≠ x) as Hne.
        { intros ->. apply Hk. split_and!; [set_solver|done..]. }
        rewrite Hout.
        -- by apply JsFacts.get_set_ne.
        -- rewrite JsFacts.get_set_ne by done. intros (? & ? & ?). apply Hk.
           split_and!; [set_solver|done..].
      * intros m [->|Hm]%elem_of_cons.
        -- exists x. split; [done|]. split_and!; [set_solver|done..].
        -- apply Hmsg in Hm as (k & -> & Hk & Hck & Hf). exists k. split; [done|].
           split_and!; [set_solver|done|].
           destruct (decide (k = x)) as [->|Hne]; [done|].
           by rewrite JsFacts.get_set_ne in Hf.
      * intros k (Hk & Hck & Hf). destruct (decide (k = x)) as [->|Hne].
        -- split; [set_solver|]. intros Htr. rewrite Hxv in Htr.
           change (missingMsg x :: added) with ([missingMsg x] ++ added).
           rewrite occurrences_app, occurrences_singleton, decide_True by done.
           assert (missingMsg x ∉ added) as Hnot.
           { intros (k & Heq%missingMsg_inj & _ & _ & Hf')%Hmsg. subst k.
             rewrite JsFacts.get_set_eq in Hf'. congruence. }
           apply occurrences_zero in Hnot. lia.
        -- destruct (Hcnt k) as [Hin' Hone].
           { rewrite JsFacts.get_set_ne by done. split_and!; [set_solver|done..]. }
           split; [set_solver|]. intros Htr.
           change (missingMsg x :: added) with ([missingMsg x] ++ added).
           rewrite occurrences_app, occurrences_singleton, decide_False.
           ++ by apply Hone.
           ++ intros ?%missingMsg_inj. done.
    + (* nothing to do *)
      assert (msgs1 = msgs0 /\ st1 = st) as [-> ->].
      { destruct (decide (checked pkgName x)) as [Hx|Hx].
        - rewrite missingStep_checked in Hstep by done.
          apply bind_Ok in Hstep as (d0 & st0 & Hl & Hstep). apply load_Ok in Hl as [Hl ->].
          rewrite Hd in Hl. injection Hl as <-.
          apply bind_Ok in Hstep as (deps0 & st0 & Hl & Hstep).
          apply defined_Ok in Hl as [Hl ->].
          rewrite Hdeps in Hl. injection Hl as <-.
          destruct (Js.truthy (JsObject.get x deps)) eqn:Htr; [|tauto].
          by apply ret_Ok in Hstep as [-> ->].
        - rewrite missingStep_skip in Hstep by done. by injection Hstep as <- <-. }
      eapply IH in Hrun as (deps' & added & Hc & -> & Hg & Htb & Hdk & Hin & Hout & Hmsg & Hcnt);
        [|done..].
      assert (forall k, wanted k <->
                k ∈ names /\ checked pkgName k /\ Js.truthy (JsObject.get k deps) = false)
        as Hw.
      { intros k. unfold wanted. split; [|set_solver].
        intros (Hk & Hck & Hf). split_and!; try done.
        apply elem_of_cons in Hk as [->|]; [tauto|done]. }
      exists deps', added. split_and!; try done.
      * intros k Hk%Hw. by apply Hin.
      * intros k Hk. apply Hout. by rewrite <- Hw.
      * intros m (k & -> & Hk)%Hmsg. exists k. by rewrite Hw.
      * intros k Hk%Hw. by apply Hcnt.
Qed.
End missing.

Lemma filter_all {A} (P : A -> Prop) `{!forall x, Decision (P x)} (l : list A) :
  (forall x, x ∈ l -> P x) -> filter P l = l.
Proof.
  induction l as [|a l IH]; intros Hall; [done|].
  rewrite filter_cons_True by set_solver. f_equal. apply IH. set_solver.
Qed.

Section unused.

(** The loop that looks for unused packages: it deletes the keys of the
    loop that are neither ignored nor imported, with one finding each. *)
Lemma unused_spec pkgName data names ks msgs0 msgs st st' d deps :
  foldM (unusedStep pkgName data names) msgs0 ks st = Ok (msgs, st') ->
  require_cache st !! data = Some d ->
  dependencies d = Some deps ->
  let removed k := ignored UNUSED pkgName k = false /\ k ∉ names in
  require_cache st' =
    <[data := with_field Dependencies
                (Some (filter (fun kv => ~ (kv.1 ∈ ks /\ removed kv.1)) deps)) d]>
      (require_cache st) /\
  msgs = msgs0 ++ (unusedMsg <$> filter removed ks) /\
  seenDeps st' = seenDeps st /\ same_tables st st' /\ same_disk st st'.
Proof.
  revert msgs0 st d deps.
  induction ks as [|x ks IH]; intros msgs0 st d deps Hrun Hd Hdeps removed.
  - apply ret_Ok in Hrun as [-> ->]. split_and!; try done.
    + rewrite filter_all by set_solver. rewrite <- Hdeps.
      change (with_field Dependencies (dependencies d) d) with
        (with_field Dependencies (field Dependencies d) d).
      rewrite with_field_same. by rewrite insert_id.
    + by rewrite app_nil_r.
  - simpl in Hrun. apply bind_Ok in Hrun as (msgs1 & st1 & Hstep & Hrun).
    unfold unusedStep in Hstep. rewrite filter_cons.
    destruct (decide (removed x)) as [[Hi Hn]|Hkeep].
    + rewrite Hi, bool_decide_false in Hstep by done.
      apply bind_Ok in Hstep as ([] & st2 & Hdel & Hstep).
      apply ret_Ok in Hstep as [-> ->].
      apply deleteDependency_Ok in Hdel as (d0 & t0 & Hd0 & Ht0 & ->).
      rewrite Hd in Hd0. injection Hd0 as <-. rewrite Hdeps in Ht0. injection Ht0 as <-.
      eapply IH in Hrun as (Hc & -> & Hs & Htb & Hdk).
      2:{ simpl. apply lookup_insert_eq. }
      2:{ done. }
      split_and!; try done.
      * rewrite Hc. simpl. rewrite insert_insert_eq. do 3 f_equal.
        unfold JsObject.delete. rewrite list_filter_filter.
        apply list_filter_iff. intros [k v]. simpl. fold (removed k).
        split.
        -- intros [Hk Hne] [[->|Hin]%elem_of_cons Hr]; [done|]. apply Hk. done.
        -- intros Hk. split.
           ++ intros [Hin Hr]. apply Hk. split; [set_solver|done].
           ++ intros ->. apply Hk. split; [set_solver|done].
      * by rewrite fmap_cons, <- app_assoc.
    + assert (msgs1 = msgs0 /\ st1 = st) as [-> ->].
      { destruct (ignored UNUSED pkgName x) eqn:Hi.
        - by apply ret_Ok in Hstep as [-> ->].
        - rewrite bool_decide_true in Hstep.
          + by apply ret_Ok in Hstep as [-> ->].
          + destruct (decide (x ∈ names)); [done|]. exfalso. by apply Hkeep. }
      eapply IH in Hrun as (Hc & -> & Hs & Htb & Hdk); [|done..].
      split_and!; try done.
      rewrite Hc. do 3 f_equal. apply list_filter_iff. intros [k v]. simpl.
      fold (removed k). split.
      * intros Hk [[->|Hin]%elem_of_cons Hr]; [done|]. apply Hk. done.
      * intros Hk [Hin Hr]. apply Hk. split; [set_solver|done].
Qed.

Lemma get_filter_key (P : string -> Prop) `{!forall k, Decision (P k)}
      (o : JsObject.t string) k :
  JsObject.get k (filter (fun kv => P kv.1) o)
  = if decide (P k) then JsObject.get k o else None.
Proof.
  induction o as [|[k0 v0] o IH]; simpl.
  - by destruct (decide (P k)).
  - rewrite filter_cons. simpl. destruct (decide (P k0)) as [Hk0|Hk0]; simpl.
    + destruct (decide (k0 = k)) as [->|]; [|done].
      rewrite decide_True; done.
    + rewrite IH. destruct (decide (k0 = k)) as [->|].
      * by destruct (decide (P k)).
      * done.
Qed.
End unused.

(** ** The aggregator *)

Section aggregator.
Variable E : Env.

Lemma writeFileSync_Ok file text u st st' :
  writeFileSync file text st = Ok (u, st') <->
  st' = set_textFiles (insert file text) st.
Proof. apply modify_Ok. Qed.

(** The loop of [ensureAllPackages] over package directories [ps]. *)
Lemma allPackagesStep_spec a index ps lines0 msgs0 lines msgs st st' agg :
  foldM (allPackagesStep E a index) (lines0, msgs0) ps st = Ok ((lines, msgs), st') ->
  require_cache st !! a = Some agg ->
  let names := nameOf st <$> filter (fun p => p ≠ allPackagesPath E) ps in
  let old k := dependencies agg ≫= JsObject.get k in
  exists deps' added,
    require_cache st' = <[a := with_field Dependencies deps' agg]> (require_cache st) /\
    lines = lines0 ++ (importLine <$> names) /\
    msgs = msgs0 ++ added /\
    (forall m, m ∈ added -> exists k, k ∈ names /\ m = "Updated: " +:+ k) /\
    (forall k, k ∈ names -> Js.truthy (old k) = false ->
               exists ref q, JsObject.get k (pkgData st) = Some ref /\
                             require_cache st !! ref = Some q /\
                             deps' ≫= JsObject.get k = Some ("^" +:+ version q)) /\
    (forall k, ~ (k ∈ names /\ Js.truthy (old k) = false) ->
               deps' ≫= JsObject.get k = old k) /\
    (forall k, k ∈ names -> Js.truthy (deps' ≫= JsObject.get k) = true) /\
    (is_Some (dependencies agg) -> is_Some deps') /\
    seenDeps st' = seenDeps st /\ same_tables st st' /\ same_disk st st'.
Proof.
  revert lines0 msgs0 st agg.
  induction ps as [|p ps IH]; intros lines0 msgs0 st agg Hrun Hagg names old; subst old.
  - apply ret_Ok in Hrun as [[= <- <-] ->]. exists (dependencies agg), [].
    split_and!; try done.
    + change (with_field Dependencies (dependencies agg) agg) with
        (with_field Dependencies (field Dependencies agg) agg).
      rewrite with_field_same. by rewrite insert_id.
    + by rewrite app_nil_r.
    + by rewrite app_nil_r.
    + set_solver.
    + subst names. set_solver.
    + subst names. set_solver.
  - simpl in Hrun. apply bind_Ok in Hrun as ([lines1 msgs1] & st1 & Hstep & Hrun).
    subst names. rewrite filter_cons.
    destruct (decide (p = allPackagesPath E)) as [Hp|Hp].
    + rewrite decide_False by tauto.
      apply ret_Ok in Hstep as [[= -> ->] ->]. by eapply IH.
    + rewrite decide_True by done. rewrite fmap_cons.
      set (name := nameOf st p) in *.
      set (names := nameOf st <$> filter (fun p => p ≠ allPackagesPath E) ps) in *.
      apply bind_Ok in Hstep as (name' & st0 & Hn & Hstep). apply gets_Ok in Hn as [-> ->].
      fold name in Hstep.
      apply bind_Ok in Hstep as (data & st0 & Hn & Hstep). apply gets_Ok in Hn as [-> ->].
      apply bind_Ok in Hstep as (agg' & st0 & Hn & Hstep). apply load_Ok in Hn as [Hn ->].
      rewrite Hagg in Hn. injection Hn as <-.
      apply bind_Ok in Hstep as (deps & st0 & Hdeps & Hstep).
      apply defined_Ok in Hdeps as [Hdeps ->].
      assert (forall k, dependencies agg ≫= JsObject.get k = JsObject.get k deps) as Hold0.
      { intros k. by rewrite Hdeps. }
      apply bind_Ok in Hstep as (valid & st2 & Hvalid & Hstep).
      apply ret_Ok in Hstep as [[= -> ->] ->].
      destruct (Js.truthy (JsObject.get name deps)) eqn:Htr.
      * (* already a dependency *)
        apply ret_Ok in Hvalid as [-> ->].
        eapply IH in Hrun
          as (deps' & added & Hc & -> & -> & Hmsg & Hnew & Hold & Hall & Hsome & Hs & Htb & Hdk);
          [|done..].
        fold names in Hmsg, Hnew, Hold, Hall.
        exists deps'.
        exists ((if (if Js.includes name index then true else false) then []
                 else ["Updated: " +:+ name]) ++ added).
        split_and!; try done.
        -- by rewrite <- app_assoc.
        -- rewrite app_assoc. f_equal. by destruct (Js.includes name index); rewrite ?app_nil_r.
        -- intros m [Hm|Hm]%elem_of_app.
           ++ destruct (Js.includes name index); [set_solver|].
              apply list_elem_of_singleton in Hm as ->. exists name. set_solver.
           ++ apply Hmsg in Hm as (k & ? & ?). exists k. set_solver.
        -- intros k [->|Hk]%elem_of_cons Hf; [rewrite Hold0 in Hf; congruence|].
           by apply Hnew.
        -- intros k Hk. apply Hold. intros [? ?]. apply Hk. set_solver.
        -- intros k [->|Hk]%elem_of_cons; [|by apply Hall].
           destruct (decide (name ∈ names)); [by apply Hall|].
           rewrite Hold, Hold0; [done|]. tauto.
      * (* added as a dependency *)
        apply bind_Ok in Hvalid as (ref & st0 & Hn & Hvalid). apply defined_Ok in Hn as [Hn ->].
        apply bind_Ok in Hvalid as (q & st0 & Hq & Hvalid). apply load_Ok in Hq as [Hq ->].
        apply bind_Ok in Hvalid as ([] & st3 & Hset & Hvalid).
        apply ret_Ok in Hvalid as [-> ->].
        apply setField_Ok in Hset as (agg' & t & Hagg' & Ht & ->).
        rewrite Hagg in Hagg'. injection Hagg' as <-. simpl in Ht.
        rewrite Hdeps in Ht. injection Ht as <-.
        eapply IH in Hrun
          as (deps' & added & Hc & -> & -> & Hmsg & Hnew & Hold & Hall & Hsome & Hs & Htb & Hdk).
        2:{ simpl. apply lookup_insert_eq. }
        change (nameOf (set_require_cache _ st)) with (nameOf st) in *.
        fold names in Hmsg, Hnew, Hold, Hall. simpl in *.
        exists deps', (("Updated: " +:+ name) :: added).
        split_and!; try done.
        -- rewrite Hc. by rewrite insert_insert_eq.
        -- by rewrite <- app_assoc.
        -- destruct (Js.includes name index); by rewrite <- app_assoc.
        -- intros m [->|Hm]%elem_of_cons.
           ++ exists name. set_solver.
           ++ apply Hmsg in Hm as (k & ? & ?). exists k. set_solver.
        -- intros k Hk Hf. rewrite Hold0 in Hf.
           destruct (decide (k ∈ names /\
                             Js.truthy (JsObject.get k (JsObject.set name ("^" +:+ version q) deps)) = false))
             as [[Hk' Hf']|Hn'].
           ++ destruct (Hnew k Hk' Hf') as (ref' & q' & Hr' & Hq' & Hg').
              exists ref'. destruct (decide (ref' = a)) as [->|Hne].
              ** rewrite lookup_insert_eq in Hq'. injection Hq' as <-.
                 exists agg. done.
              ** rewrite lookup_insert_ne in Hq' by done. exists q'. done.
           ++ rewrite Hold by done. destruct (decide (k = name)) as [->|Hne].
              ** exists ref, q. by rewrite JsFacts.get_set_eq.
              ** rewrite JsFacts.get_set_ne in Hn' by done. set_solver.
        -- intros k Hk. rewrite Hold0 in Hk. assert (k ≠ name) as Hne.
           { intros ->. apply Hk. set_solver. }
           rewrite Hold.
           ++ rewrite Hold0. by apply JsFacts.get_set_ne.
           ++ rewrite JsFacts.get_set_ne by done. intros [? ?]. apply Hk. set_solver.
        -- intros k [->|Hk]%elem_of_cons; [|by apply Hall].
           destruct (decide (name ∈ names)); [by apply Hall|].
           rewrite Hold, JsFacts.get_set_eq; [done|]. tauto.
        -- intros _. apply Hsome. eauto.
Qed.

(** [ensureAllPackages] as a whole. *)
Lemma ensureAllPackages_spec msgs st st' :
  ensureAllPackages E st = Ok (msgs, st') ->
  let a := allPackageJson E in
  let names := nameOf st <$> filter (fun p => p ≠ allPackagesPath E) (localPackages E) in
  exists agg deps' index,
    (require_cache st !! a = Some agg \/
     (require_cache st !! a = None /\ exists r, jsonFiles st !! a = Some (Manifest r agg))) /\
    textFiles st !! indexPath E = Some index /\
    require_cache st' = <[a := with_field Dependencies deps' agg]> (require_cache st) /\
    textFiles st' =
      <[indexPath E := Js.join (String LF EmptyString)
                         (take 3 (Js.split LF index) ++ (importLine <$> names))]>
        (textFiles st) /\
    (forall p, p ≠ a -> jsonFiles st' !! p = jsonFiles st !! p) /\
    jsonFiles st' !! a =
      Some (JSON_stringify (sortPackageJson (with_field Dependencies deps' agg))) /\
    (forall m, m ∈ msgs -> (exists k, k ∈ names /\ m = "Updated: " +:+ k)
                           \/ m = "Package data changed" \/ m = "Index changed") /\
    (forall k, k ∈ names -> Js.truthy (dependencies agg ≫= JsObject.get k) = false ->
               exists ref q, JsObject.get k (pkgData st) = Some ref /\
                             <[a := agg]> (require_cache st) !! ref = Some q /\
                             deps' ≫= JsObject.get k = Some ("^" +:+ version q)) /\
    (forall k, ~ (k ∈ names /\ Js.truthy (dependencies agg ≫= JsObject.get k) = false) ->
               deps' ≫= JsObject.get k = dependencies agg ≫= JsObject.get k) /\
    (forall k, k ∈ names -> Js.truthy (deps' ≫= JsObject.get k) = true) /\
    (is_Some (dependencies agg) -> is_Some deps') /\
    seenDeps st' = seenDeps st /\ same_tables st st'.
Proof.
  intros Hrun a names. unfold ensureAllPackages in Hrun. fold a in Hrun.
  apply bind_Ok in Hrun as (ref & st1 & Hreq & Hrun).
  apply require_Ok in Hreq as [-> Hreq].
  apply bind_Ok in Hrun as ([] & st2 & Hts & Hrun).
  apply requireJson_Ok in Hts as [_ ->].
  apply bind_Ok in Hrun as (index & st2 & Hidx & Hrun).
  apply readFileSync_Ok in Hidx as [Hidx ->].
  apply bind_Ok in Hrun as ([lines msgs1] & st2 & Hloop & Hrun).
  apply bind_Ok in Hrun as (changed & st3 & Hdata & Hrun).
  assert (exists agg,
    (require_cache st !! a = Some agg \/
     (require_cache st !! a = None /\ exists r, jsonFiles st !! a = Some (Manifest r agg))) /\
    require_cache st1 = <[a := agg]> (require_cache st) /\
    seenDeps st1 = seenDeps st /\ same_tables st st1 /\ same_disk st st1)
    as (agg & Hagg & Hc1 & Hs1 & Ht1 & Hd1).
  { destruct Hreq as [[[agg Hagg] ->]|(Hnone & r & agg & Hj & ->)].
    - exists agg. split_and!; try done; [by left|by rewrite insert_id].
    - exists agg. split_and!; try done. right. eauto. }
  eapply allPackagesStep_spec in Hloop
    as (deps' & added & Hc2 & -> & -> & Hmsg & Hnew & Hold & Hall & Hsome & Hs2 & Ht2 & Hd2).
  2:{ rewrite Hc1. apply lookup_insert_eq. }
  assert (nameOf st1 = nameOf st) as Hnm.
  { unfold nameOf. destruct Ht1 as (_ & _ & ->). done. }
  rewrite Hnm in *. fold names in Hmsg, Hnew, Hold, Hall |- *.
  rewrite Hc1, insert_insert_eq in Hc2.
  apply ensurePackageData_Ok in Hdata as (d & orig & Hd & Horig & Hdata).
  rewrite Hc2, lookup_insert_eq in Hd. injection Hd as <-.
  set (agg' := with_field Dependencies deps' agg) in *.
  assert (require_cache st3 = require_cache st2 /\ textFiles st3 = textFiles st2 /\
          seenDeps st3 = seenDeps st2 /\ same_tables st2 st3 /\
          (forall p, p ≠ a -> jsonFiles st3 !! p = jsonFiles st2 !! p) /\
          jsonFiles st3 !! a = Some (JSON_stringify (sortPackageJson agg')))
    as (Hc3 & Hx3 & Hs3 & Ht3 & Hj3 & Hja).
  { destruct Hdata as [(-> & Heq & ->)|(-> & Hne & ->)].
    - split_and!; try done. by rewrite Horig, <- Heq.
    - split_and!; try done.
      + intros p Hp. simpl. by rewrite lookup_insert_ne.
      + simpl. by rewrite lookup_insert_eq. }
  set (msgs2 := if changed then added ++ ["Package data changed"] else added) in *.
  assert (forall m, m ∈ msgs2 -> (exists k, k ∈ names /\ m = "Updated: " +:+ k)
                                 \/ m = "Package data changed") as Hmsg2.
  { intros m Hm. subst msgs2. destruct changed.
    - apply elem_of_app in Hm as [Hm|Hm%list_elem_of_singleton]; [left; by apply Hmsg|by right].
    - left. by apply Hmsg. }
  destruct Hd1 as [Hj1 Hx1]. destruct Hd2 as [Hj2 Hx2].
  exists agg, deps', index. rewrite Hx1 in Hidx.
  fold names in Hrun. destruct (decide _) as [Heq|Hne] in Hrun.
  - apply ret_Ok in Hrun as [-> ->]. split_and!; try done.
    + by rewrite Hc3, Hc2.
    + rewrite Hx3, Hx2, Hx1. rewrite Heq. by rewrite insert_id.
    + intros p Hp. rewrite Hj3 by done. congruence.
    + intros m Hm. simpl in Hm. apply Hmsg2 in Hm as [?|?]; auto.
    + intros k Hk Hf. destruct (Hnew k Hk Hf) as (ref & q & Hr & Hq & Hg).
      exists ref, q. split_and!; try done.
      * destruct Ht1 as (<- & _). done.
      * by rewrite <- Hc1.
    + congruence.
    + eapply same_tables_trans; [exact Ht1|]. eapply same_tables_trans; [exact Ht2|]. done.
  - apply bind_Ok in Hrun as ([] & st4 & Hw & Hrun). apply ret_Ok in Hrun as [-> ->].
    apply writeFileSync_Ok in Hw as ->. simpl. split_and!; try done.
    + by rewrite Hc3, Hc2.
    + rewrite Hx3, Hx2, Hx1. done.
    + intros p Hp. rewrite Hj3 by done. congruence.
    + intros m Hm. simpl in Hm.
      apply elem_of_app in Hm as [Hm|Hm%list_elem_of_singleton]; [|auto].
      apply Hmsg2 in Hm as [?|?]; auto.
    + intros k Hk Hf. destruct (Hnew k Hk Hf) as (ref & q & Hr & Hq & Hg).
      exists ref, q. split_and!; try done.
      * destruct Ht1 as (<- & _). done.
      * by rewrite <- Hc1.
    + congruence.
    + eapply same_tables_trans; [exact Ht1|]. eapply same_tables_trans; [exact Ht2|]. done.
Qed.

End aggregator.

(** ** The validator, stage by stage *)

Section validator.
Variable E : Env.

Lemma collectImports_acc filenames acc imports st st' :
  foldM (fun imports fileName =>
           text <- readFileSync fileName ;;
           match getImports (createSourceFile E text) with
           | Ok found => ret (imports ++ found)
           | Throw e => throw e
           end) acc filenames st = Ok (imports, st') <->
  st' = st /\ exists l, mapM (fileImports E (textFiles st)) filenames = Some l /\
                        imports = acc ++ mjoin l.
Proof.
  revert acc. induction filenames as [|f fs IH]; intros acc; simpl.
  - rewrite ret_Ok. split.
    + intros [-> ->]. split; [done|]. exists []. by rewrite app_nil_r.
    + intros (-> & l & [= <-] & ->). by rewrite app_nil_r.
  - rewrite bind_Ok. split.
    + intros (imports1 & st1 & Hstep & Hrun).
      apply bind_Ok in Hstep as (text & st0 & Hread & Hstep).
      apply readFileSync_Ok in Hread as [Hread ->].
      destruct (getImports (createSourceFile E text)) as [found|] eqn:Hfound; [|done].
      apply ret_Ok in Hstep as [-> ->].
      apply IH in Hrun as (-> & l & Hl & ->). split; [done|].
      exists (found :: l).
      assert (fileImports E (textFiles st) f = Some found) as ->
        by (unfold fileImports; by rewrite Hread, Hfound).
      simpl. rewrite Hl. simpl. by rewrite app_assoc.
    + intros (-> & l & Hl & ->).
      destruct (fileImports E (textFiles st) f) as [found|] eqn:Hf; [|done].
      unfold fileImports in Hf.
      destruct (textFiles st !! f) as [text|] eqn:Hread; [|done].
      destruct (getImports (createSourceFile E text)) as [found'|] eqn:Hfound; [|done].
      injection Hf as ->. simpl in Hl.
      destruct (mapM (fileImports E (textFiles st)) fs) as [l'|] eqn:Hl'; [|done].
      injection Hl as <-. exists (acc ++ found), st. split.
      * apply bind_Ok. exists text, st. split; [by apply readFileSync_Ok|].
        by rewrite Hfound.
      * apply IH. split; [done|]. exists l'. split; [done|]. simpl. by rewrite app_assoc.
Qed.

Lemma collectImports_Ok filenames imports st st' :
  collectImports E filenames st = Ok (imports, st') <->
  st' = st /\ readImports E (textFiles st) filenames = Some imports.
Proof.
  unfold collectImports. rewrite collectImports_acc. unfold readImports. split.
  - intros (-> & l & -> & ->). done.
  - intros (-> & H). split; [done|].
    destruct (mapM _ _) as [l|]; [|done]. injection H as <-. eauto.
Qed.

(** What a successful call of [ensurePackage] went through. *)
Lemma ensurePackage_Ok pkgName msgs st st' :
  ensurePackage E pkgName st = Ok (msgs, st') ->
  exists dname data d deps devDeps st1 st2 st3 msgs0,
    JsObject.get pkgName (pkgPaths st) = Some dname /\
    JsObject.get pkgName (pkgData st) = Some data /\
    require_cache st !! data = Some d /\
    dependencies d = Some deps /\
    devDependencies d = Some devDeps /\
    normalize E Dependencies data (JsObject.keys deps) st = Ok (tt, st1) /\
    normalize E DevDependencies data (JsObject.keys devDeps) st1 = Ok (tt, st2) /\
    (if decide (pkgName = "@jupyterlab/all-packages")
     then ensureAllPackages E st2 = Ok (msgs0, st3)
     else msgs0 = [] /\ st3 = st2) /\
    ((sourceFiles E dname = [] /\
      exists changed,
        ensurePackageData data (path_join dname "package.json") st3 = Ok (changed, st') /\
        msgs = if changed then msgs0 ++ ["Package data changed"] else msgs0)
     \/
     (sourceFiles E dname ≠ [] /\
      exists names msgs1 st4 d4 deps4 msgs2 st5 changed,
        importedNames E st3 dname = Some names /\
        foldM (missingStep E pkgName data) msgs0 names st3 = Ok (msgs1, st4) /\
        require_cache st4 !! data = Some d4 /\
        dependencies d4 = Some deps4 /\
        foldM (unusedStep pkgName data names) msgs1 (JsObject.keys deps4) st4
          = Ok (msgs2, st5) /\
        ensurePackageData data (path_join dname "package.json") st5 = Ok (changed, st') /\
        msgs = if changed then msgs2 ++ ["Package data changed"] else msgs2)).
Proof.
  intros Hrun. unfold ensurePackage in Hrun.
  apply bind_Ok in Hrun as (odname & st0 & H & Hrun). apply gets_Ok in H as [-> ->].
  apply bind_Ok in Hrun as (odata & st0 & H & Hrun). apply gets_Ok in H as [-> ->].
  apply bind_Ok in Hrun as (data & st0 & Hdata & Hrun). apply defined_Ok in Hdata as [Hdata ->].
  apply bind_Ok in Hrun as (d & st0 & Hd & Hrun). apply load_Ok in Hd as [Hd ->].
  apply bind_Ok in Hrun as (deps & st0 & Hdeps & Hrun). apply defined_Ok in Hdeps as [Hdeps ->].
  apply bind_Ok in Hrun as ([] & st1 & Hn1 & Hrun).
  apply bind_Ok in Hrun as (devDeps & st0 & Hdev & Hrun). apply defined_Ok in Hdev as [Hdev ->].
  apply bind_Ok in Hrun as ([] & st2 & Hn2 & Hrun).
  apply bind_Ok in Hrun as (msgs0 & st3 & Hagg & Hrun).
  apply bind_Ok in Hrun as (dname & st0 & Hdname & Hrun).
  apply defined_Ok in Hdname as [Hdname ->].
  exists dname, data, d, deps, devDeps, st1, st2, st3, msgs0.
  split_and!; try done.
  - destruct (decide (pkgName = _)); [done|]. by apply ret_Ok in Hagg as [-> ->].
  - destruct (decide (List.length (sourceFiles E dname) = 0)) as [Hlen|Hlen].
    + left. split; [by apply nil_length_inv|].
      apply bind_Ok in Hrun as (changed & st4 & Hch & Hrun).
      apply ret_Ok in Hrun as [-> ->]. eauto.
    + right. split; [by intros Heq; rewrite Heq in Hlen|].
      apply bind_Ok in Hrun as (imports & st4 & Himp & Hrun).
      apply collectImports_Ok in Himp as [-> Himp].
      apply bind_Ok in Hrun as (msgs1 & st4 & Hmiss & Hrun).
      apply bind_Ok in Hrun as (d4 & st0 & Hd4 & Hrun). apply load_Ok in Hd4 as [Hd4 ->].
      apply bind_Ok in Hrun as (deps4 & st0 & Hdeps4 & Hrun).
      apply defined_Ok in Hdeps4 as [Hdeps4 ->].
      apply bind_Ok in Hrun as (msgs2 & st5 & Hun & Hrun).
      apply bind_Ok in Hrun as (changed & st6 & Hch & Hrun).
      apply ret_Ok in Hrun as [-> ->].
      exists (importNames imports), msgs1, st4, d4, deps4, msgs2, st5, changed.
      split_and!; try done. unfold importedNames. by rewrite Himp.
Qed.
End validator.

Lemma get_filter (Q : string * string -> Prop) `{!forall kv, Decision (Q kv)}
      (P : string -> Prop) (o : JsObject.t string) k :
  (forall kv, Q kv <-> P kv.1) ->
  (P k -> JsObject.get k (filter Q o) = JsObject.get k o) /\
  (~ P k -> JsObject.get k (filter Q o) = None).
Proof.
  intros HQ. induction o as [|[k0 v0] o [IH1 IH2]]; [done|].
  rewrite filter_cons. destruct (decide (Q (k0, v0))) as [Hq|Hq]; simpl.
  - apply HQ in Hq. simpl in Hq.
    destruct (decide (k0 = k)) as [->|]; [|done]. split; [done|]. intros; done.
  - rewrite HQ in Hq. simpl in Hq.
    destruct (decide (k0 = k)) as [->|]; [|done]. split; [done|]. apply IH2.
Qed.

Section stages.
Variable E : Env.

(** The two loops at the start of [ensurePackage]. *)
Lemma prepare_spec data d deps devDeps st st1 st2 :
  require_cache st !! data = Some d ->
  dependencies d = Some deps ->
  devDependencies d = Some devDeps ->
  normalize E Dependencies data (JsObject.keys deps) st = Ok (tt, st1) ->
  normalize E DevDependencies data (JsObject.keys devDeps) st1 = Ok (tt, st2) ->
  exists t1 t2,
    require_cache st2 =
      <[data := mkPackage (name d) (version d) (Some t1) (Some t2)]> (require_cache st) /\
    t1.*1 = deps.*1 /\ t2.*1 = devDeps.*1 /\
    (forall k v, JsObject.get k t1 = Some v -> JsObject.get k (seenDeps st2) = Some v) /\
    (forall k v, JsObject.get k t2 = Some v -> JsObject.get k (seenDeps st2) = Some v) /\
    cache_grows E st st2 /\ same_tables st st2 /\ same_disk st st2.
Proof.
  intros Hd Hdeps Hdev Hn1 Hn2.
  eapply normalize_spec in Hn1 as (t1 & Hc1 & Hk1 & Hin1 & _ & Hg1 & Ht1 & Hd1); [|done..|].
  2:{ intros k Hk. by apply JsFacts.elem_of_keys in Hk. }
  eapply normalize_spec in Hn2 as (t2 & Hc2 & Hk2 & Hin2 & _ & Hg2 & Ht2 & Hd2).
  2:{ rewrite Hc1. apply lookup_insert_eq. }
  2:{ simpl. exact Hdev. }
  2:{ intros k Hk. by apply JsFacts.elem_of_keys in Hk. }
  exists t1, t2. split_and!; try done.
  - rewrite Hc2, Hc1. simpl. by rewrite insert_insert_eq.
  - intros k v Hkv. destruct (Hin1 k) as (v' & Hv' & Hs).
    { apply JsFacts.elem_of_keys. rewrite <- Hk1. by eapply JsFacts.get_Some_elem. }
    rewrite Hkv in Hv'. injection Hv' as <-. by eapply cache_grows_get.
  - intros k v Hkv. destruct (Hin2 k) as (v' & Hv' & Hs).
    { apply JsFacts.elem_of_keys. rewrite <- Hk2. by eapply JsFacts.get_Some_elem. }
    rewrite Hkv in Hv'. by injection Hv' as <-.
  - by eapply cache_grows_trans.
  - by eapply same_tables_trans.
  - by eapply same_disk_trans.
Qed.

(** The end of [ensurePackage]: the two import checks, when the package
    has sources, and the write of the manifest. *)
Lemma finish_spec pkgName dname data msgs0 msgs st3 st' d3 deps3 :
  require_cache st3 !! data = Some d3 ->
  dependencies d3 = Some deps3 ->
  ((sourceFiles E dname = [] /\
    exists changed,
      ensurePackageData data (path_join dname "package.json") st3 = Ok (changed, st') /\
      msgs = if changed then msgs0 ++ ["Package data changed"] else msgs0)
   \/
   (sourceFiles E dname ≠ [] /\
    exists names msgs1 st4 d4 deps4 msgs2 st5 changed,
      importedNames E st3 dname = Some names /\
      foldM (missingStep E pkgName data) msgs0 names st3 = Ok (msgs1, st4) /\
      require_cache st4 !! data = Some d4 /\
      dependencies d4 = Some deps4 /\
      foldM (unusedStep pkgName data names) msgs1 (JsObject.keys deps4) st4
        = Ok (msgs2, st5) /\
      ensurePackageData data (path_join dname "package.json") st5 = Ok (changed, st') /\
      msgs = if changed then msgs2 ++ ["Package data changed"] else msgs2)) ->
  exists depsF found,
    require_cache st' = <[data := with_field Dependencies (Some depsF) d3]> (require_cache st3) /\
    (forall k v, JsObject.get k depsF = Some v ->
                 JsObject.get k deps3 = Some v \/ JsObject.get k (seenDeps st') = Some v) /\
    msgs = msgs0 ++ found /\
    (forall m, m ∈ found ->
               (exists k, m = missingMsg k /\ checked pkgName k) \/
               (exists k, m = unusedMsg k /\ ignored UNUSED pkgName k = false) \/
               m = "Package data changed") /\
    (sourceFiles E dname = [] -> depsF = deps3 /\ forall m, m ∈ found -> m = "Package data changed") /\
    cache_grows E st3 st' /\ same_tables st3 st' /\
    textFiles st' = textFiles st3 /\
    (forall p, p ≠ path_join dname "package.json" -> jsonFiles st' !! p = jsonFiles st3 !! p) /\
    jsonFiles st' !! path_join dname "package.json" =
      Some (JSON_stringify (sortPackageJson (with_field Dependencies (Some depsF) d3))).
Proof.
  intros Hd3 Hdeps3 Hfin.
  assert (forall data file changed st5 st' d5,
            ensurePackageData data file st5 = Ok (changed, st') ->
            require_cache st5 !! data = Some d5 ->
            require_cache st' = require_cache st5 /\ seenDeps st' = seenDeps st5 /\
            same_tables st5 st' /\ textFiles st' = textFiles st5 /\
            (forall p, p ≠ file -> jsonFiles st' !! p = jsonFiles st5 !! p) /\
            jsonFiles st' !! file = Some (JSON_stringify (sortPackageJson d5))) as Hpersist.
  { clear. intros data file changed st5 st' d5 (d & orig & Hd & Horig & H)%ensurePackageData_Ok Hd5.
    rewrite Hd5 in Hd. injection Hd as <-.
    destruct H as [(-> & Heq & ->)|(-> & Hne & ->)].
    - split_and!; try done. by rewrite Horig, <- Heq.
    - split_and!; try done.
      + intros p Hp. simpl. by rewrite lookup_insert_ne.
      + simpl. by rewrite lookup_insert_eq. }
  destruct Hfin as [(Hnil & changed & Hch & ->)
                   |(Hsrc & names & msgs1 & st4 & d4 & deps4 & msgs2 & st5 & changed &
                     Hnames & Hmiss & Hd4 & Hdeps4 & Hun & Hch & ->)].
  - eapply Hpersist in Hch as (Hc & Hs & Ht & Hx & Hj & Hja); [|done].
    exists deps3, (if changed then ["Package data changed"] else []).
    assert (with_field Dependencies (Some deps3) d3 = d3) as Hsame.
    { rewrite <- Hdeps3. apply (with_field_same Dependencies). }
    rewrite Hsame. split_and!; try done.
    + rewrite Hc. by rewrite insert_id.
    + auto.
    + destruct changed; [done|by rewrite app_nil_r].
    + intros m Hm. right. right. destruct changed; set_solver.
    + intros _. split; [done|]. intros m Hm. destruct changed; set_solver.
    + by apply cache_grows_same.
  - eapply missing_spec in Hmiss
      as (deps4' & added & Hc4 & -> & Hg4 & Ht4 & [Hj4 Hx4] & Hin & Hout & Hmsg & _); [|done..].
    rewrite Hc4, lookup_insert_eq in Hd4. injection Hd4 as <-.
    simpl in Hdeps4. injection Hdeps4 as ->.
    eapply unused_spec in Hun as (Hc5 & -> & Hs5 & Ht5 & [Hj5 Hx5]).
    2:{ rewrite Hc4. apply lookup_insert_eq. }
    2:{ done. }
    simpl in Hc5. rewrite Hc4, insert_insert_eq in Hc5.
    set (removed := fun k => ignored UNUSED pkgName k = false /\ k ∉ names) in *.
    set (depsF := filter (fun kv : string * string =>
                            ~ (kv.1 ∈ JsObject.keys deps4 /\ removed kv.1)) deps4) in *.
    eapply Hpersist in Hch as (Hc & Hs & Ht & Hx & Hj & Hja).
    2:{ rewrite Hc5. apply lookup_insert_eq. }
    exists depsF.
    exists (added ++ (unusedMsg <$> filter removed (JsObject.keys deps4))
                  ++ (if changed then ["Package data changed"] else [])).
    split_and!.
    + by rewrite Hc, Hc5.
    + intros k v Hkv. subst depsF.
      destruct (get_filter (fun kv : string * string =>
                              ~ (kv.1 ∈ JsObject.keys deps4 /\ removed kv.1))
                  (fun k => ~ (k ∈ JsObject.keys deps4 /\ removed k)) deps4 k) as [Hkeep Hdrop];
        [done|].
      destruct (decide (k ∈ JsObject.keys deps4 /\ removed k)) as [Hr|Hr];
        [rewrite Hdrop in Hkv by tauto; done|].
      rewrite Hkeep in Hkv by done.
      destruct (decide (k ∈ names /\ checked pkgName k /\
                        Js.truthy (JsObject.get k deps3) = false)) as [Hw|Hw].
      * right. destruct (Hin k Hw) as (v' & Hv' & Hsv). rewrite Hkv in Hv'.
        injection Hv' as <-. rewrite Hs, Hs5. done.
      * left. by rewrite <- (Hout k Hw).
    + destruct changed; rewrite <- ?app_assoc; [done|]. by rewrite app_nil_r.
    + intros m [Hm|[Hm|Hm]%elem_of_app]%elem_of_app.
      * left. apply Hmsg in Hm as (k & -> & _ & Hck & _). eauto.
      * right. left. apply list_elem_of_fmap in Hm as (k & -> & Hk).
        apply list_elem_of_filter in Hk as [[Hi _] _]. eauto.
      * right. right. destruct changed; set_solver.
    + done.
    + eapply cache_grows_trans; [exact Hg4|]. apply cache_grows_same. congruence.
    + eapply same_tables_trans; [exact Ht4|]. eapply same_tables_trans; [exact Ht5|]. done.
    + congruence.
    + intros p Hp. rewrite Hj by done. congruence.
    + by rewrite Hja.
Qed.
End stages.

(** ** The validator as a whole *)

Lemma same_shape_refl d : same_shape d d.
Proof. done. Qed.

Lemma same_shape_trans d1 d2 d3 : same_shape d1 d2 -> same_shape d2 d3 -> same_shape d1 d3.
Proof. unfold same_shape. intros (?&?&?) (?&?&?). split_and!; congruence. Qed.

Lemma same_shape_deps d o : same_shape d (with_field Dependencies o d).
Proof. done. Qed.

Lemma objects_kept_refl st : objects_kept st st.
Proof. intros ref d Hd. eauto using same_shape_refl. Qed.

Lemma objects_kept_trans st1 st2 st3 :
  objects_kept st1 st2 -> objects_kept st2 st3 -> objects_kept st1 st3.
Proof.
  intros H12 H23 ref d Hd. apply H12 in Hd as (d2 & Hd2 & Hs2).
  apply H23 in Hd2 as (d3 & Hd3 & Hs3). eauto using same_shape_trans.
Qed.

Lemma objects_kept_same st st' :
  require_cache st' = require_cache st -> objects_kept st st'.
Proof. intros Heq ref d Hd. rewrite Heq. eauto using same_shape_refl. Qed.

Lemma objects_kept_insert st st' ref d' :
  require_cache st' = <[ref := d']> (require_cache st) ->
  (forall d, require_cache st !! ref = Some d -> same_shape d d') ->
  objects_kept st st'.
Proof.
  intros Heq Hshape r d Hd. rewrite Heq. destruct (decide (r = ref)) as [->|Hne].
  - rewrite lookup_insert_eq. eauto.
  - rewrite lookup_insert_ne by done. eauto using same_shape_refl.
Qed.

Section package.
Variable E : Env.

Lemma aggregated_same st st' : same_tables st st' -> aggregated E st' = aggregated E st.
Proof. intros (_ & _ & Hn). unfold aggregated, nameOf. by rewrite Hn. Qed.

Lemma syncEntry_mono st st' k v :
  same_tables st st' -> objects_kept st st' ->
  syncEntry E st k v -> syncEntry E st' k v.
Proof.
  intros Ht Hk (Hin & ref & q & Href & Hq & ->). split.
  - by rewrite (aggregated_same st st').
  - apply Hk in Hq as (q' & Hq' & _ & Hv & _). exists ref, q'.
    destruct Ht as (-> & _). split_and!; [done..|]. by rewrite Hv.
Qed.

Lemma consistent_mono st st' ref d :
  same_tables st st' -> objects_kept st st' -> cache_grows E st st' ->
  consistent E st ref d -> consistent E st' ref d.
Proof.
  intros Ht Hk Hg [Hdev Hdeps]. split.
  - intros k v Hkv. eapply cache_grows_get; eauto.
  - intros k v Hkv. destruct (Hdeps k v Hkv) as [Hc|[-> Hs]].
    + left. eapply cache_grows_get; eauto.
    + right. split; [done|]. by eapply syncEntry_mono.
Qed.

(** The aggregator step of [ensurePackage], seen from the package [data]
    that is being validated; [d2] is its manifest after the two loops that
    make the specs consistent. *)
Lemma aggregate_spec pkgName data d2 t1 msgs0 st2 st3 :
  require_cache st2 !! data = Some d2 ->
  dependencies d2 = Some t1 ->
  (if decide (pkgName = "@jupyterlab/all-packages")
   then ensureAllPackages E st2 = Ok (msgs0, st3)
   else msgs0 = [] /\ st3 = st2) ->
  exists d3 deps3,
    require_cache st3 !! data = Some d3 /\ dependencies d3 = Some deps3 /\
    devDependencies d3 = devDependencies d2 /\ same_shape d2 d3 /\
    same_tables st2 st3 /\ seenDeps st3 = seenDeps st2 /\ objects_kept st2 st3 /\
    (forall k v, JsObject.get k deps3 = Some v ->
                 JsObject.get k t1 = Some v
                 \/ (data = allPackageJson E /\ syncEntry E st3 k v)) /\
    (forall k, is_Some (JsObject.get k t1) -> is_Some (JsObject.get k deps3)) /\
    (pkgName ≠ "@jupyterlab/all-packages" -> st3 = st2 /\ d3 = d2 /\ deps3 = t1 /\ msgs0 = []) /\
    (forall m, m ∈ msgs0 ->
               (exists k, m = "Updated: " +:+ k) \/ m = "Package data changed"
               \/ m = "Index changed") /\
    (forall ref, ref ≠ data ->
                 ref ≠ allPackageJson E \/ pkgName ≠ "@jupyterlab/all-packages" ->
                 require_cache st3 !! ref = require_cache st2 !! ref) /\
    (forall agg, data ≠ allPackageJson E ->
                 require_cache st2 !! allPackageJson E = Some agg ->
                 exists agg', require_cache st3 !! allPackageJson E = Some agg' /\
                              devDependencies agg' = devDependencies agg /\
                              forall k v, dependencies agg' ≫= JsObject.get k = Some v ->
                                          dependencies agg ≫= JsObject.get k = Some v
                                          \/ syncEntry E st3 k v).
Proof.
  intros Hd2 Hdeps2 Hagg.
  destruct (decide (pkgName = "@jupyterlab/all-packages")) as [Hname|Hname].
  - apply ensureAllPackages_spec in Hagg
      as (agg & deps' & index & Hload & Hidx & Hc3 & Hx3 & Hj3 & Hja & Hmsg & Hnew & Hold &
          Hall & Hsome & Hs3 & Ht3).
    set (a := allPackageJson E) in *.
    set (agg' := with_field Dependencies deps' agg) in *.
    assert (objects_kept st2 st3) as Ho3.
    { eapply objects_kept_insert; [exact Hc3|]. intros d0 Hd0.
      destruct Hload as [Hl|[Hl _]]; [|congruence].
      rewrite Hl in Hd0. injection Hd0 as <-. apply same_shape_deps. }
    assert (forall k v, deps' ≫= JsObject.get k = Some v ->
                        dependencies agg ≫= JsObject.get k = Some v \/ syncEntry E st3 k v)
      as Hentries.
    { intros k v Hkv.
      destruct (decide (k ∈ aggregated E st2 /\
                        Js.truthy (dependencies agg ≫= JsObject.get k) = false)) as [[Hk Hf]|Hn].
      - right. destruct (Hnew k Hk Hf) as (ref & q & Href & Hq & Hg).
        rewrite Hkv in Hg. injection Hg as ->. split.
        + by rewrite (aggregated_same st2 st3).
        + destruct Ht3 as (Hpd & _). rewrite Hpd.
          destruct (decide (ref = a)) as [->|Hne].
          * rewrite lookup_insert_eq in Hq. injection Hq as <-.
            exists a, agg'. rewrite Hc3, lookup_insert_eq. done.
          * rewrite lookup_insert_ne in Hq by done.
            exists ref, q. rewrite Hc3, lookup_insert_ne by done. done.
      - left. by rewrite <- (Hold k Hn). }
    assert (forall m, m ∈ msgs0 ->
               (exists k, m = "Updated: " +:+ k) \/ m = "Package data changed"
               \/ m = "Index changed") as Hmsg'.
    { intros m Hm. apply Hmsg in Hm as [(k & _ & ->)|[->| ->]]; eauto. }
    destruct (decide (data = a)) as [Hda|Hda].
    + assert (agg = d2) as ->.
      { destruct Hload as [Hl|[Hl _]]; rewrite <- Hda in Hl; congruence. }
      destruct Hsome as [deps3 ->]; [by eexists|].
      exists agg', deps3. split_and!; try done.
      * rewrite Hc3, <- Hda. apply lookup_insert_eq.
      * intros k v Hkv. destruct (Hentries k v Hkv) as [Hold'|?]; [|auto].
        left. by rewrite Hdeps2 in Hold'.
      * intros k [v Hkv].
        destruct (decide (k ∈ aggregated E st2 /\
                          Js.truthy (dependencies d2 ≫= JsObject.get k) = false)) as [[Hk Hf]|Hn].
        -- destruct (Hnew k Hk Hf) as (ref & q & _ & _ & Hg). simpl in Hg. eauto.
        -- specialize (Hold k Hn). simpl in Hold. rewrite Hold, Hdeps2. simpl. eauto.
      * intros ref Hne [Hne'|?]; [|done]. rewrite Hc3. by rewrite lookup_insert_ne.
    + exists d2, t1. split_and!; try done.
      * rewrite Hc3, lookup_insert_ne by done. done.
      * auto.
      * intros ref Hne [Hne'|?]; [|done]. rewrite Hc3. by rewrite lookup_insert_ne.
      * intros agg0 _ Hagg0. destruct Hload as [Hl|[Hl _]]; [|congruence].
        rewrite Hl in Hagg0. injection Hagg0 as <-.
        exists agg'. rewrite Hc3, lookup_insert_eq. split_and!; try done.
  - destruct Hagg as [-> ->]. exists d2, t1. split_and!; try done.
    + apply objects_kept_refl.
    + auto.
    + set_solver.
    + intros agg _ Hagg. exists agg. split_and!; auto.
Qed.

(** What [ensurePackage] does to the manifest objects and the tables. *)
Lemma ensurePackage_spec pkgName msgs st st' :
  ensurePackage E pkgName st = Ok (msgs, st') ->
  exists data d d',
    JsObject.get pkgName (pkgData st) = Some data /\
    require_cache st !! data = Some d /\
    require_cache st' !! data = Some d' /\
    same_tables st st' /\ cache_grows E st st' /\ objects_kept st st' /\
    consistent E st' data d' /\
    (forall ref, ref ≠ data ->
                 ref ≠ allPackageJson E \/ pkgName ≠ "@jupyterlab/all-packages" ->
                 require_cache st' !! ref = require_cache st !! ref) /\
    (forall agg, data ≠ allPackageJson E ->
                 require_cache st !! allPackageJson E = Some agg ->
                 exists agg', require_cache st' !! allPackageJson E = Some agg' /\
                              devDependencies agg' = devDependencies agg /\
                              forall k v, dependencies agg' ≫= JsObject.get k = Some v ->
                                          dependencies agg ≫= JsObject.get k = Some v
                                          \/ syncEntry E st' k v).
Proof.
  intros Hrun.
  apply ensurePackage_Ok in Hrun
    as (dname & data & d & deps & devDeps & st1 & st2 & st3 & msgs0 &
        Hdname & Hdata & Hd & Hdeps & Hdev & Hn1 & Hn2 & Hagg & Hfin).
  destruct (prepare_spec E data d deps devDeps st st1 st2 Hd Hdeps Hdev Hn1 Hn2)
    as (t1 & t2 & Hc2 & Hk1 & Hk2 & Hv1 & Hv2 & Hg2 & Ht2 & Hd2).
  set (d2 := mkPackage (name d) (version d) (Some t1) (Some t2)) in *.
  assert (objects_kept st st2) as Ho2.
  { eapply objects_kept_insert; [exact Hc2|]. intros d0 Hd0.
    rewrite Hd in Hd0. injection Hd0 as <-. split_and!; try done. simpl.
    rewrite Hdev. simpl. by rewrite Hk2. }
  destruct (aggregate_spec pkgName data d2 t1 msgs0 st2 st3)
    as (d3 & deps3 & Hd3 & Hdeps3 & Hdev3 & Hsh3 & Ht3 & Hs3 & Ho3 & Hold3 & _ & _ & _ &
        Hother3 & Hagg3); [by rewrite Hc2, lookup_insert_eq|done..|].
  eapply finish_spec in Hfin
    as (depsF & found & Hc & HdF & -> & Hmsg & _ & Hg & Ht & Hx & Hj & Hja); [|done..].
  set (d' := with_field Dependencies (Some depsF) d3) in *.
  assert (objects_kept st3 st') as Ho.
  { eapply objects_kept_insert; [exact Hc|]. intros d0 Hd0.
    rewrite Hd3 in Hd0. injection Hd0 as <-. apply same_shape_deps. }
  assert (cache_grows E st2 st') as Hg2'.
  { eapply cache_grows_trans; [|exact Hg]. by apply cache_grows_same. }
  exists data, d, d'. split_and!; try done.
  - rewrite Hc. apply lookup_insert_eq.
  - eapply same_tables_trans; [exact Ht2|]. eapply same_tables_trans; [exact Ht3|]. done.
  - by eapply cache_grows_trans.
  - eapply objects_kept_trans; [exact Ho2|]. eapply objects_kept_trans; [exact Ho3|]. done.
  - split.
    + intros k v Hkv. simpl in Hkv. rewrite Hdev3 in Hkv. simpl in Hkv.
      eapply cache_grows_get; [exact Hg2'|]. by apply Hv2.
    + intros k v Hkv. simpl in Hkv. destruct (HdF k v Hkv) as [H3|?]; [|by left].
      destruct (Hold3 k v H3) as [H1|[-> Hs]].
      * left. eapply cache_grows_get; [exact Hg2'|]. by apply Hv1.
      * right. split; [done|]. eapply syncEntry_mono; [exact Ht|exact Ho|done].
  - intros ref Hne Hor. rewrite Hc, lookup_insert_ne by done.
    rewrite Hother3 by done. rewrite Hc2. by rewrite lookup_insert_ne.
  - intros agg Hne Hagg0.
    destruct (Hagg3 agg Hne) as (agg' & Hagg' & Hdevs & Hents).
    { rewrite Hc2. by rewrite lookup_insert_ne. }
    exists agg'. split_and!; try done.
    + rewrite Hc. by rewrite lookup_insert_ne.
    + intros k v Hkv. destruct (Hents k v Hkv) as [?|Hs]; [by left|].
      right. eapply syncEntry_mono; [exact Ht|exact Ho|done].
Qed.
End package.

(** ** The run *)

Section run.
Variable E : Env.

(** The findings that [ensurePackage] can report. *)
Lemma ensurePackage_messages pkgName msgs st st' m :
  ensurePackage E pkgName st = Ok (msgs, st') ->
  m ∈ msgs ->
  (pkgName = "@jupyterlab/all-packages" /\
   ((exists k, m = "Updated: " +:+ k) \/ m = "Index changed")) \/
  m = "Package data changed" \/
  (exists k dname, m = missingMsg k /\ checked pkgName k /\
                   JsObject.get pkgName (pkgPaths st) = Some dname /\
                   sourceFiles E dname ≠ []) \/
  (exists k dname, m = unusedMsg k /\ ignored UNUSED pkgName k = false /\
                   JsObject.get pkgName (pkgPaths st) = Some dname /\
                   sourceFiles E dname ≠ []).
Proof.
  intros Hrun Hm.
  apply ensurePackage_Ok in Hrun
    as (dname & data & d & deps & devDeps & st1 & st2 & st3 & msgs0 &
        Hdname & Hdata & Hd & Hdeps & Hdev & Hn1 & Hn2 & Hagg & Hfin).
  destruct (prepare_spec E data d deps devDeps st st1 st2 Hd Hdeps Hdev Hn1 Hn2)
    as (t1 & t2 & Hc2 & Hk1 & Hk2 & Hv1 & Hv2 & Hg2 & Ht2 & Hd2).
  assert (forall m, m ∈ msgs0 ->
            pkgName = "@jupyterlab/all-packages" /\
            ((exists k, m = "Updated: " +:+ k) \/ m = "Package data changed"
             \/ m = "Index changed")) as Hmsgs0.
  { destruct (decide (pkgName = _)) as [Hname|Hname].
    - apply ensureAllPackages_spec in Hagg
        as (agg & deps' & index & _ & _ & _ & _ & _ & _ & Hmsg & _).
      intros m' Hm'. split; [done|]. apply Hmsg in Hm' as [(k & _ & ->)|[->| ->]]; eauto.
    - destruct Hagg as [-> _]. set_solver. }
  assert (exists found,
            msgs = msgs0 ++ found /\
            forall m, m ∈ found ->
              (exists k, m = missingMsg k /\ checked pkgName k /\ sourceFiles E dname ≠ []) \/
              (exists k, m = unusedMsg k /\ ignored UNUSED pkgName k = false /\
                         sourceFiles E dname ≠ []) \/
              m = "Package data changed") as (found & -> & Hfound).
  { destruct Hfin as [(Hnil & changed & Hch & ->)|Hfin].
    - exists (if changed then ["Package data changed"] else []). split.
      + destruct changed; [done|by rewrite app_nil_r].
      + intros m' Hm'. right. right. destruct changed; set_solver.
    - assert (sourceFiles E dname ≠ []) as Hsrc by (by destruct Hfin as [? _]).
      destruct Hfin as (_ & names & msgs1 & st4 & d4 & deps4 & msgs2 & st5 & changed &
                        Hnames & Hmiss & Hd4 & Hdeps4 & Hun & Hch & ->).
      assert (exists d3 deps3, require_cache st3 !! data = Some d3 /\
                               dependencies d3 = Some deps3) as (d3 & deps3 & Hd3 & Hdeps3).
      { assert (exists d3, require_cache st3 !! data = Some d3 /\
                           is_Some (dependencies d3)) as (d3 & ? & [? ?]); [|eauto].
        destruct (decide (pkgName = "@jupyterlab/all-packages")) as [Hname|Hname].
        - apply ensureAllPackages_spec in Hagg
            as (agg & deps' & index & Hload & _ & Hc3 & _ & _ & _ & _ & _ & _ & _ &
                Hsome & _).
          destruct (decide (data = allPackageJson E)) as [->|Hne].
          + rewrite Hc3, lookup_insert_eq. eexists. split; [done|]. simpl.
            apply Hsome. destruct Hload as [Hl|[Hl _]];
              rewrite Hc2, lookup_insert_eq in Hl; [|done].
            injection Hl as <-. simpl. eauto.
          + rewrite Hc3, lookup_insert_ne, Hc2, lookup_insert_eq by done.
            eexists. split; [done|]. simpl. eauto.
        - destruct Hagg as [_ ->]. rewrite Hc2, lookup_insert_eq.
          eexists. split; [done|]. simpl. eauto. }
      eapply missing_spec in Hmiss
        as (deps4' & added & Hc4 & -> & _ & _ & _ & _ & _ & Hmsg & _); [|done..].
      eapply unused_spec in Hun as (_ & -> & _); [|done..].
      exists (added ++ (unusedMsg <$> filter (fun k => ignored UNUSED pkgName k = false /\ k ∉ names)
                                              (JsObject.keys deps4))
                    ++ (if changed then ["Package data changed"] else [])).
      split.
      + destruct changed; rewrite <- ?app_assoc; [done|]. by rewrite app_nil_r.
      + intros m' [Hm'|[Hm'|Hm']%elem_of_app]%elem_of_app.
        * left. apply Hmsg in Hm' as (k & -> & _ & Hck & _). eauto.
        * right. left. apply list_elem_of_fmap in Hm' as (k & -> & Hk).
          apply list_elem_of_filter in Hk as [[Hi _] _]. eauto.
        * right. right. destruct changed; set_solver. }
  apply elem_of_app in Hm as [Hm|Hm].
  - apply Hmsgs0 in Hm as [Hname [?|[?|?]]]; auto.
  - apply Hfound in Hm as [(k & ? & ? & ?)|[(k & ? & ? & ?)|?]]; eauto 10.
Qed.
End run.

Section validate.
Variable E : Env.

(** A manifest object that is consistent stays so when a package is
    validated. *)
Lemma ensurePackage_keeps_consistent pkgName msgs st st' ref d :
  ensurePackage E pkgName st = Ok (msgs, st') ->
  require_cache st !! ref = Some d ->
  consistent E st ref d ->
  exists d', require_cache st' !! ref = Some d' /\ consistent E st' ref d'.
Proof.
  intros Hrun Hd Hcons.
  apply ensurePackage_spec in Hrun
    as (data & d0 & d0' & Hdata & Hd0 & Hd0' & Ht & Hg & Ho & Hcons' & Hother & Hagg).
  destruct (decide (ref = data)) as [->|Hne]; [eauto|].
  destruct (decide (ref = allPackageJson E)) as [->|Hna].
  - destruct (Hagg d) as (agg' & Hagg' & Hdev & Hents); [done..|].
    exists agg'. split; [done|]. destruct Hcons as [Hc1 Hc2]. split.
    + intros k v Hkv. rewrite Hdev in Hkv. eapply cache_grows_get; eauto.
    + intros k v Hkv. destruct (Hents k v Hkv) as [Hold|Hs]; [|by right].
      destruct (Hc2 k v Hold) as [?|[_ Hs]].
      * left. eapply cache_grows_get; eauto.
      * right. split; [done|]. by eapply syncEntry_mono.
  - exists d. rewrite Hother by auto. split; [done|]. by eapply consistent_mono.
Qed.

(** The loop over the packages. *)
Lemma validate_fold_spec names messages report st st' :
  foldM (validateStep E) messages names st = Ok (report, st') ->
  same_tables st st' /\ cache_grows E st st' /\ objects_kept st st' /\
  (forall ref d, require_cache st !! ref = Some d -> consistent E st ref d ->
                 exists d', require_cache st' !! ref = Some d' /\ consistent E st' ref d') /\
  (forall n, n ∈ names ->
             exists data d', JsObject.get n (pkgData st) = Some data /\
                             require_cache st' !! data = Some d' /\
                             consistent E st' data d').
Proof.
  revert messages st. induction names as [|n names IH]; intros messages st Hrun.
  - apply ret_Ok in Hrun as [-> ->]. split_and!; try done.
    + apply cache_grows_refl.
    + apply objects_kept_refl.
    + eauto.
    + set_solver.
  - simpl in Hrun. apply bind_Ok in Hrun as (messages1 & st1 & Hstep & Hrun).
    apply bind_Ok in Hstep as (pkgMessages & st1' & Hpkg & Hret).
    apply ret_Ok in Hret as [_ <-].
    apply IH in Hrun as (Ht & Hg & Ho & Hkeep & Hall).
    pose proof (ensurePackage_spec E n pkgMessages st st1 Hpkg)
      as (data & d0 & d0' & Hdata & Hd0 & Hd0' & Ht1 & Hg1 & Ho1 & Hcons1 & _).
    split_and!.
    + by eapply same_tables_trans.
    + by eapply cache_grows_trans.
    + by eapply objects_kept_trans.
    + intros ref d Hd Hcons.
      destruct (ensurePackage_keeps_consistent n pkgMessages st st1 ref d Hpkg Hd Hcons)
        as (d1 & Hd1 & Hcons'). eauto.
    + intros n' [->|Hn']%elem_of_cons.
      * destruct (Hkeep data d0' Hd0' Hcons1) as (d' & Hd' & Hcons'). eauto.
      * destruct (Hall n' Hn') as (data' & d' & Hdata' & Hd' & Hcons').
        destruct Ht1 as (Hpd & _). rewrite Hpd in Hdata'. eauto.
Qed.

Lemma validatePackages_spec messages report st st' :
  validatePackages E messages st = Ok (report, st') ->
  same_tables st st' /\ cache_grows E st st' /\ objects_kept st st' /\
  (forall n data, JsObject.get n (pkgData st) = Some data ->
                  exists d', require_cache st' !! data = Some d' /\
                             consistent E st' data d').
Proof.
  intros Hrun. unfold validatePackages in Hrun.
  apply bind_Ok in Hrun as (names & st0 & Hnames & Hrun).
  apply gets_Ok in Hnames as [-> ->].
  apply validate_fold_spec in Hrun as (Ht & Hg & Ho & _ & Hall).
  split_and!; try done. intros n data Hn.
  destruct (Hall n) as (data' & d' & Hdata' & Hd' & Hcons).
  { apply JsFacts.elem_of_keys. by eapply JsFacts.get_Some_elem. }
  rewrite Hn in Hdata'. injection Hdata' as <-. eauto.
Qed.
End validate.

(** ** The top level package *)

Section top.
Variable E : Env.

(** The inner loop of [ensureTop]: the devDependencies of one package are
    copied into the top level manifest. *)
Lemma hoistKeys_spec localData (devDeps : JsObject.t string) ks st st' root :
  forEach ks (fun name => match JsObject.get name devDeps with
                          | Some v => setDevDependency localData name v
                          | None => ret tt
                          end) st = Ok (tt, st') ->
  require_cache st !! localData = Some root ->
  exists rd',
    require_cache st' = <[localData := with_field DevDependencies rd' root]> (require_cache st) /\
    (forall k v, k ∈ ks -> JsObject.get k devDeps = Some v -> rd' ≫= JsObject.get k = Some v) /\
    (forall k, ~ (k ∈ ks /\ is_Some (JsObject.get k devDeps)) ->
               rd' ≫= JsObject.get k = devDependencies root ≫= JsObject.get k) /\
    seenDeps st' = seenDeps st /\ same_tables st st' /\ same_disk st st'.
Proof.
  revert st root. induction ks as [|x ks IH]; intros st root Hrun Hroot.
  - apply ret_Ok in Hrun as [_ ->]. exists (devDependencies root). split_and!; try done.
    + change (devDependencies root) with (field DevDependencies root).
      rewrite with_field_same. by rewrite insert_id.
    + set_solver.
  - simpl in Hrun. apply bind_Ok in Hrun as ([] & st1 & Hstep & Hrun).
    destruct (JsObject.get x devDeps) as [v|] eqn:Hx.
    + apply setField_Ok in Hstep as (root0 & rd & Hroot0 & Hrd & ->).
      rewrite Hroot in Hroot0. injection Hroot0 as <-. simpl in Hrd.
      eapply IH in Hrun as (rd' & Hc & Hin & Hout & Hs & Ht & Hd).
      2:{ simpl. apply lookup_insert_eq. }
      exists rd'. split_and!; try done.
      * rewrite Hc. simpl. by rewrite insert_insert_eq.
      * intros k v' [->|Hk]%elem_of_cons Hkv; [|by eapply Hin].
        destruct (decide (x ∈ ks)); [by eapply Hin|].
        rewrite Hout by tauto. simpl. rewrite JsFacts.get_set_eq. congruence.
      * intros k Hk. rewrite Hout.
        -- simpl. rewrite Hrd. simpl. apply JsFacts.get_set_ne.
           intros ->. apply Hk. split; [set_solver|eauto].
        -- intros [? ?]. apply Hk. split; [set_solver|done].
    + apply ret_Ok in Hstep as [_ ->].
      eapply IH in Hrun as (rd' & Hc & Hin & Hout & Hs & Ht & Hd); [|done].
      exists rd'. split_and!; try done.
      * intros k v' [->|Hk]%elem_of_cons Hkv; [congruence|by eapply Hin].
      * intros k Hk. apply Hout. intros [? ?]. apply Hk. split; [set_solver|done].
Qed.

(** One round of the loop of [ensureTop]. *)
Lemma hoistStep_spec localData pkgPath st st' root :
  hoistStep localData pkgPath st = Ok (tt, st') ->
  require_cache st !! localData = Some root ->
  exists rd',
    require_cache st' = <[localData := with_field DevDependencies rd' root]> (require_cache st) /\
    (forall k, rd' ≫= JsObject.get k =
               match declared st pkgPath k with
               | Some v => Some v
               | None => devDependencies root ≫= JsObject.get k
               end) /\
    seenDeps st' = seenDeps st /\ same_tables st st' /\ same_disk st st'.
Proof.
  intros Hrun Hroot. unfold hoistStep in Hrun.
  apply bind_Ok in Hrun as (name & st0 & H & Hrun). apply gets_Ok in H as [-> ->].
  apply bind_Ok in Hrun as (odata & st0 & H & Hrun). apply gets_Ok in H as [-> ->].
  apply bind_Ok in Hrun as (data & st0 & Hdata & Hrun). apply defined_Ok in Hdata as [Hdata ->].
  apply bind_Ok in Hrun as (d & st0 & Hd & Hrun). apply load_Ok in Hd as [Hd ->].
  eapply hoistKeys_spec in Hrun as (rd' & Hc & Hin & Hout & Hs & Ht & Hdk); [|done].
  exists rd'. split_and!; try done. intros k. unfold declared.
  rewrite Hdata. simpl. rewrite Hd. simpl.
  destruct (devDependencies d) as [devDeps|] eqn:Hdev; simpl in *.
  - destruct (JsObject.get k devDeps) as [v|] eqn:Hk.
    + eapply Hin; [|done]. apply JsFacts.elem_of_keys. by eapply JsFacts.get_Some_elem.
    + apply Hout. intros [_ [? ?]]. congruence.
  - apply Hout. intros [_ [? ?]]. done.
Qed.

(** The loop of [ensureTop] over package directories none of which holds
    the top level manifest itself. *)
Lemma hoistLoop_spec localData ps st st' root :
  forEach ps (hoistStep localData) st = Ok (tt, st') ->
  require_cache st !! localData = Some root ->
  (forall p, p ∈ ps -> JsObject.get (nameOf st p) (pkgData st) ≠ Some localData) ->
  exists rd',
    require_cache st' = <[localData := with_field DevDependencies rd' root]> (require_cache st) /\
    (forall k, rd' ≫= JsObject.get k =
               match lastDeclared st k ps with
               | Some v => Some v
               | None => devDependencies root ≫= JsObject.get k
               end) /\
    seenDeps st' = seenDeps st /\ same_tables st st' /\ same_disk st st'.
Proof.
  revert st root. induction ps as [|p ps IH]; intros st root Hrun Hroot Halias.
  - apply ret_Ok in Hrun as [_ ->]. exists (devDependencies root). split_and!; try done.
    change (devDependencies root) with (field DevDependencies root).
    rewrite with_field_same. by rewrite insert_id.
  - simpl in Hrun. apply bind_Ok in Hrun as ([] & st1 & Hstep & Hrun).
    eapply hoistStep_spec in Hstep as (rd1 & Hc1 & Hrd1 & Hs1 & Ht1 & Hd1); [|done].
    assert (forall p' k, p' ∈ ps -> declared st1 p' k = declared st p' k) as Hdecl.
    { intros p' k Hp'. unfold declared, nameOf. destruct Ht1 as (-> & _ & ->).
      destruct (JsObject.get _ (pkgData st)) as [data|] eqn:Hdata; [|done]. simpl.
      rewrite Hc1, lookup_insert_ne; [done|]. intros <-.
      apply (Halias p'); [set_solver|]. done. }
    eapply IH in Hrun as (rd' & Hc & Hrd & Hs & Ht & Hd).
    2:{ rewrite Hc1. apply lookup_insert_eq. }
    2:{ intros p' Hp'. unfold nameOf. destruct Ht1 as (-> & _ & ->).
        apply Halias. set_solver. }
    exists rd'. split_and!.
    + rewrite Hc, Hc1. rewrite with_field_twice. by rewrite insert_insert_eq.
    + intros k. rewrite Hrd. simpl.
      assert (lastDeclared st1 k ps = lastDeclared st k ps) as ->.
      { clear -Hdecl. induction ps as [|p' ps IH]; [done|]. simpl.
        rewrite IH by set_solver. rewrite Hdecl by set_solver. done. }
      destruct (lastDeclared st k ps); [done|]. simpl. apply Hrd1.
    + congruence.
    + by eapply same_tables_trans.
    + by eapply same_disk_trans.
Qed.

(** The parts of the state that [ensureTop] leaves alone. *)
Lemma hoistLoop_frame localData ps st st' :
  forEach ps (hoistStep localData) st = Ok (tt, st') ->
  is_Some (require_cache st !! localData) ->
  seenDeps st' = seenDeps st /\ same_tables st st' /\ same_disk st st' /\
  (forall ref, ref ≠ localData -> require_cache st' !! ref = require_cache st !! ref) /\
  (forall ref, is_Some (require_cache st !! ref) -> is_Some (require_cache st' !! ref)).
Proof.
  revert st. induction ps as [|p ps IH]; intros st Hrun [root Hroot].
  - apply ret_Ok in Hrun as [_ ->]. done.
  - simpl in Hrun. apply bind_Ok in Hrun as ([] & st1 & Hstep & Hrun).
    eapply hoistStep_spec in Hstep as (rd1 & Hc1 & Hrd1 & Hs1 & Ht1 & Hd1); [|done].
    eapply IH in Hrun as (Hs & Ht & Hd & Hother & Hkeep).
    2:{ rewrite Hc1, lookup_insert_eq. eauto. }
    split_and!.
    + congruence.
    + by eapply same_tables_trans.
    + by eapply same_disk_trans.
    + intros ref Hne. rewrite Hother by done. rewrite Hc1. by rewrite lookup_insert_ne.
    + intros ref Href. apply Hkeep. rewrite Hc1.
      destruct (decide (ref = localData)) as [->|Hne].
      * rewrite lookup_insert_eq. eauto.
      * by rewrite lookup_insert_ne.
Qed.

Lemma ensureTop_frame m st st' :
  ensureTop E st = Ok (m, st') ->
  seenDeps st' = seenDeps st /\ same_tables st st' /\ textFiles st' = textFiles st /\
  (forall ref, is_Some (require_cache st !! ref) -> is_Some (require_cache st' !! ref)).
Proof.
  intros Hrun. unfold ensureTop in Hrun.
  apply bind_Ok in Hrun as (localData & st1 & Hreq & Hrun).
  apply require_Ok in Hreq as [-> Hreq].
  apply bind_Ok in Hrun as ([] & st2 & Hloop & Hrun).
  apply bind_Ok in Hrun as (changed & st3 & Hdata & Hrun).
  apply ret_Ok in Hrun as [_ ->].
  assert (is_Some (require_cache st1 !! path_join (basePath E) "package.json") /\
          seenDeps st1 = seenDeps st /\ same_tables st st1 /\ same_disk st st1 /\
          (forall ref, is_Some (require_cache st !! ref) -> is_Some (require_cache st1 !! ref)))
    as (Hroot & Hs1 & Ht1 & Hd1 & Hk1).
  { destruct Hreq as [[Hroot ->]|(Hnone & r & d & Hj & ->)]; [done|].
    simpl. split_and!; try done.
    - rewrite lookup_insert_eq. eauto.
    - intros ref Href.
      destruct (decide (ref = path_join (basePath E) "package.json")) as [->|Hne].
      + rewrite lookup_insert_eq. eauto.
      + by rewrite lookup_insert_ne. }
  apply hoistLoop_frame in Hloop as (Hs2 & Ht2 & Hd2 & _ & Hk2); [|done].
  apply ensurePackageData_Ok in Hdata as (d & orig & _ & _ & Hdata).
  destruct Hd1 as [_ Hx1]. destruct Hd2 as [_ Hx2].
  assert (seenDeps st3 = seenDeps st2 /\ same_tables st2 st3 /\
          textFiles st3 = textFiles st2 /\ require_cache st3 = require_cache st2)
    as (Hs3 & Ht3 & Hx3 & Hc3).
  { destruct Hdata as [(_ & _ & ->)|(_ & _ & ->)]; done. }
  split_and!.
  - congruence.
  - eapply same_tables_trans; [exact Ht1|]. by eapply same_tables_trans.
  - congruence.
  - intros ref Href. rewrite Hc3. auto.
Qed.
End top.

(** ** Loading the packages *)

Section load.

Lemma set_fst {V} (o : JsObject.t V) k v :
  (JsObject.set k v o).*1 = if decide (k ∈ o.*1) then o.*1 else o.*1 ++ [k].
Proof.
  destruct (decide (k ∈ o.*1)).
  - by apply JsFacts.set_fst_elem.
  - by apply JsFacts.set_fst_fresh.
Qed.

Lemma loadPackage_spec pkgPath st st' :
  loadPackage pkgPath st = Ok (tt, st') ->
  cache_ok st ->
  seenDeps st' = seenDeps st /\ same_disk st st' /\ cache_ok st' /\
  objects_kept st st' /\
  match manifestName (jsonFiles st) pkgPath with
  | None => st' = st
  | Some n =>
      exists d, require_cache st' !! path_join pkgPath "package.json" = Some d /\
                name d = n /\
                pkgData st' = JsObject.set n (path_join pkgPath "package.json") (pkgData st) /\
                pkgPaths st' = JsObject.set n pkgPath (pkgPaths st) /\
                pkgNames st' = JsObject.set pkgPath n (pkgNames st)
  end.
Proof.
  intros Hrun Hok. unfold loadPackage in Hrun. unfold manifestName.
  set (file := path_join pkgPath "package.json") in *.
  destruct (require file st) as [[ref st1]|e] eqn:Hreq.
  - apply require_Ok in Hreq as [-> Hreq].
    apply bind_Ok in Hrun as (d & st0 & Hd & Hrun). apply load_Ok in Hd as [Hd ->].
    apply bind_Ok in Hrun as ([] & st2 & H2 & Hrun). apply modify_Ok in H2 as ->.
    apply bind_Ok in Hrun as ([] & st3 & H3 & Hrun). apply modify_Ok in H3 as ->.
    apply modify_Ok in Hrun as ->. simpl.
    destruct Hreq as [[[d' Hd'] ->]|(Hnone & r & d' & Hj & ->)].
    + rewrite Hd' in Hd. injection Hd as ->.
      destruct (Hok _ _ Hd') as (r & d0 & Hj & Hname). rewrite Hj.
      split_and!; try done; [by apply objects_kept_same|]. exists d. by rewrite Hname.
    + simpl in *. rewrite lookup_insert_eq in Hd. injection Hd as ->. rewrite Hj.
      split_and!; try done.
      * intros ref d0 Hd0. simpl in *. destruct (decide (ref = file)) as [->|Hne].
        -- rewrite lookup_insert_eq in Hd0. injection Hd0 as <-. eauto.
        -- rewrite lookup_insert_ne in Hd0 by done. by apply Hok.
      * intros ref d0 Hd0. simpl. rewrite lookup_insert_ne by congruence.
        eauto using same_shape_refl.
      * exists d. by rewrite lookup_insert_eq.
  - injection Hrun as <-.
    assert (match jsonFiles st !! file with Some (Manifest _ d) => Some (name d) | _ => None end
            = None) as ->.
    { unfold require in Hreq. destruct (require_cache st !! file) as [d|] eqn:Hc; [done|].
      by destruct (jsonFiles st !! file) as [[r d|]|]. }
    split_and!; try done. apply objects_kept_refl.
Qed.

(** The loop that picks up the packages. *)
Lemma loadPackages_spec ps st st' :
  forEach ps loadPackage st = Ok (tt, st') ->
  cache_ok st -> tables_ok st ->
  seenDeps st' = seenDeps st /\ same_disk st st' /\ cache_ok st' /\ tables_ok st' /\
  objects_kept st st' /\
  (pkgData st').*1 =
    fold_left (fun acc x => if decide (x ∈ acc) then acc else acc ++ [x])
              (omap (manifestName (jsonFiles st)) ps) ((pkgData st).*1).
Proof.
  revert st. induction ps as [|p ps IH]; intros st Hrun Hcok Htok.
  - apply ret_Ok in Hrun as [_ ->]. split_and!; try done. apply objects_kept_refl.
  - simpl in Hrun. apply bind_Ok in Hrun as ([] & st1 & Hstep & Hrun).
    apply loadPackage_spec in Hstep as (Hs1 & Hd1 & Hcok1 & Ho1 & Hload); [|done].
    assert (tables_ok st1) as Htok1.
    { destruct (manifestName (jsonFiles st) p) as [n|]; [|by subst].
      destruct Hload as (d & Hd & Hname & Hpd & Hpp & Hpn).
      intros n' ref Hn'. rewrite Hpd, JsFacts.get_set in Hn'. rewrite Hpp, JsFacts.get_set.
      destruct (decide (n = n')) as [->|Hne].
      - injection Hn' as <-. exists p, d. split_and!; done.
      - destruct (Htok n' ref Hn') as (dname & d0 & Hdn & -> & Hd0 & Hn0).
        apply Ho1 in Hd0 as (d1 & Hd1' & Hn1 & _). exists dname, d1.
        split_and!; try done. congruence. }
    apply IH in Hrun as (Hs & Hd & Hcok' & Htok' & Ho & Hkeys); [|done..].
    split_and!; try done.
    + congruence.
    + by eapply same_disk_trans.
    + by eapply objects_kept_trans.
    + rewrite Hkeys. destruct Hd1 as [-> _]. simpl.
      destruct (manifestName (jsonFiles st) p) as [n|]; [|by subst].
      destruct Hload as (d & _ & _ & -> & _). simpl. by rewrite set_fst.
Qed.
End load.

(** ** Manifests that are written and read again *)

Lemma leb_trans a b c :
  String.leb a b = true -> String.leb b c = true -> String.leb a c = true.
Proof.
  assert (forall a b c, String.compare a b ≠ Gt -> String.compare b c ≠ Gt ->
                        String.compare a c ≠ Gt) as Hcmp.
  { clear. induction a as [|x a IH]; intros [|y b] [|z c]; simpl; try done.
    unfold Ascii.compare.
    destruct (N.compare_spec (N_of_ascii x) (N_of_ascii y)) as [Hxy|Hxy|Hxy]; [| |done];
      destruct (N.compare_spec (N_of_ascii y) (N_of_ascii z)) as [Hyz|Hyz|Hyz]; try done;
      destruct (N.compare_spec (N_of_ascii x) (N_of_ascii z)) as [Hxz|Hxz|Hxz];
      try done; try lia.
    apply IH. }
  unfold String.leb. intros Hab Hbc. specialize (Hcmp a b c).
  destruct (String.compare a b), (String.compare b c), (String.compare a c);
    try done; exfalso; by apply Hcmp.
Qed.

#[global] Instance str_le_total : Total Js.str_le.
Proof. intros a b. apply String.leb_total. Qed.

#[global] Instance str_le_trans : Transitive Js.str_le.
Proof. intros a b c. apply leb_trans. Qed.

#[global] Instance str_le_antisym : AntiSymm (=) Js.str_le.
Proof. intros a b. apply String.leb_antisym. Qed.

Section reload.

(** The order of the list that is sorted does not matter. *)
Lemma sort_Permutation l1 l2 : l1 ≡ₚ l2 -> Js.sort l1 = Js.sort l2.
Proof.
  intros Hp. apply (Sorted_unique Js.str_le); try apply Sorted_merge_sort; try apply _.
  unfold Js.sort. by rewrite !merge_sort_Permutation.
Qed.

Lemma sort_sorted l : Sorted Js.str_le l -> Js.sort l = l.
Proof.
  intros Hs. apply (Sorted_unique Js.str_le); try apply _; [|done|].
  - apply Sorted_merge_sort. apply _.
  - apply merge_sort_Permutation.
Qed.

(** A table rebuilt from a list of keys. *)
Lemma get_rebuilt (o : JsObject.t string) ks k :
  (k ∈ ks -> JsObject.get k (omap (fun k => pair k <$> JsObject.get k o) ks)
             = JsObject.get k o) /\
  (k ∉ ks -> JsObject.get k (omap (fun k => pair k <$> JsObject.get k o) ks) = None).
Proof.
  induction ks as [|k0 ks [IH1 IH2]]; [split; [set_solver|done]|].
  cbn [omap list_omap]. destruct (decide (k0 = k)) as [->|Hne].
  - split; [intros _|intros Hn; destruct Hn; constructor].
    destruct (JsObject.get k o) as [v|] eqn:Hk; simpl.
    + by rewrite decide_True.
    + destruct (decide (k ∈ ks)); [by rewrite IH1|by rewrite IH2].
  - assert (JsObject.get k (omap (fun k => pair k <$> JsObject.get k o) (k0 :: ks))
            = JsObject.get k (omap (fun k => pair k <$> JsObject.get k o) ks)) as Heq.
    { cbn [omap list_omap]. destruct (JsObject.get k0 o) as [v|]; simpl; [|done].
      by rewrite decide_False. }
    cbn [omap list_omap] in Heq. rewrite Heq. split.
    + intros Hin. apply IH1. set_solver.
    + intros Hin. apply IH2. set_solver.
Qed.

Lemma get_keys (o : JsObject.t string) ks k :
  (forall k, k ∈ ks <-> k ∈ JsObject.keys o) ->
  JsObject.get k (omap (fun k => pair k <$> JsObject.get k o) ks) = JsObject.get k o.
Proof.
  intros Hks. destruct (get_rebuilt o ks k) as [H1 H2].
  destruct (decide (k ∈ ks)) as [|Hn]; [by apply H1|].
  rewrite H2 by done.
  symmetry. apply JsFacts.get_None. by rewrite <- JsFacts.elem_of_keys, <- Hks.
Qed.

(** Sorting a table and listing its entries keep what is behind a key. *)
Lemma get_sortObject o k : JsObject.get k (sortObject o) = JsObject.get k o.
Proof.
  apply get_keys. intros k'. unfold Js.sort. by rewrite merge_sort_Permutation.
Qed.

Lemma get_entries (o : JsObject.t string) k :
  JsObject.get k (JsObject.entries o) = JsObject.get k o.
Proof. by apply get_keys. Qed.

Lemma elem_of_get (o : JsObject.t string) k : k ∈ o.*1 <-> is_Some (JsObject.get k o).
Proof.
  split.
  - intros (v & Hv)%JsFacts.elem_get_Some. eauto.
  - intros [v Hv]. by eapply JsFacts.get_Some_elem.
Qed.

(** Tables with the same entries have the same keys, up to their order. *)
Lemma keys_Permutation (o o' : JsObject.t string) :
  (forall k, JsObject.get k o' = JsObject.get k o) ->
  JsObject.keys o' ≡ₚ JsObject.keys o.
Proof.
  intros Hget. apply NoDup_Permutation; try apply JsFacts.NoDup_keys.
  intros k. rewrite !JsFacts.elem_of_keys, !elem_of_get. by rewrite Hget.
Qed.

Lemma rebuilt_ext (o o' : JsObject.t string) (ks : list string) :
  (forall k, JsObject.get k o' = JsObject.get k o) ->
  omap (fun k => pair k <$> JsObject.get k o') ks
  = omap (fun k => pair k <$> JsObject.get k o) ks.
Proof.
  intros Hget. induction ks as [|k ks IH]; [done|].
  cbn [omap list_omap]. rewrite Hget.
  destruct (pair k <$> JsObject.get k o); [f_equal|]; exact IH.
Qed.

(** The sorted table depends only on what is behind every key. *)
Lemma sortObject_ext o o' :
  (forall k, JsObject.get k o' = JsObject.get k o) -> sortObject o' = sortObject o.
Proof.
  intros Hget. unfold sortObject.
  rewrite (sort_Permutation _ _ (keys_Permutation o o' Hget)).
  by apply rebuilt_ext.
Qed.

(** The text written for a manifest is the text written for the manifest
    that this text denotes. *)
Lemma rendered_again o :
  JsObject.entries (sortObject (JsObject.entries (sortObject o)))
  = JsObject.entries (sortObject o).
Proof.
  f_equal. rewrite (sortObject_ext (sortObject o)) by apply get_entries.
  apply sortObject_ext. apply get_sortObject.
Qed.

Lemma stringify_reloaded d r d' :
  JSON_stringify (sortPackageJson d) = Manifest r d' ->
  JSON_stringify (sortPackageJson d') = Manifest r d'.
Proof.
  unfold JSON_stringify, sortPackageJson. simpl. intros [= <- <-]. simpl.
  f_equal. f_equal.
  - destruct (dependencies d); simpl; [|done]. by rewrite rendered_again.
  - destruct (devDependencies d); simpl; [|done]. by rewrite rendered_again.
Qed.

End reload.

(** ** A package whose manifest needs no change *)

Section settled.
Variable E : Env.

(** A step of a computation that is known. *)
Lemma bind_eq {A B} (m : M A) (f : A -> M B) st a st1 :
  m st = Ok (a, st1) -> bind m f st = f a st1.
Proof. unfold bind. by intros ->. Qed.

Lemma cache_sound_grows st st' : cache_sound E st -> cache_grows E st st' -> cache_sound E st'.
Proof.
  intros Hs Hg k v Hk. specialize (Hg k).
  destruct (JsObject.get k (seenDeps st)) as [v0|] eqn:Hk0.
  - apply Hs. congruence.
  - destruct Hg as [Hg|Hg]; congruence.
Qed.

(** The specs of a table are already those of [getDependency]: the loop
    that makes them consistent leaves the manifest object as it is. *)
Lemma normalize_fixed f data ks st d t :
  require_cache st !! data = Some d ->
  field f d = Some t ->
  (forall k, k ∈ ks -> exists v, JsObject.get k t = Some v /\ getDependency E k = Some v) ->
  cache_sound E st ->
  exists st', normalize E f data ks st = Ok (tt, st') /\
              require_cache st' = require_cache st /\
              same_tables st st' /\ same_disk st st' /\ cache_sound E st'.
Proof.
  unfold normalize. revert st. induction ks as [|k ks IH]; intros st Hd Ht Hks Hs.
  - exists st. done.
  - destruct (Hks k) as (v & Hv & Hget); [set_solver|].
    assert (exists st1, seenDep E k st = Ok (v, st1) /\
                        require_cache st1 = require_cache st /\
                        same_tables st st1 /\ same_disk st st1 /\ cache_sound E st1)
      as (st1 & Hseen & Hc1 & Ht1 & Hd1 & Hs1).
    { unfold seenDep. destruct (JsObject.get k (seenDeps st)) as [v0|] eqn:Hk.
      - apply Hs in Hk as Hk'. rewrite Hget in Hk'. injection Hk' as <-. exists st. done.
      - rewrite Hget. eexists. split; [done|]. split_and!; try done.
        intros k' v'. simpl. rewrite JsFacts.get_set.
        destruct (decide (k = k')) as [<-|]; [by intros [= <-]|]. apply Hs. }
    assert (setField f data k v st1 = Ok (tt, set_require_cache (insert data d) st1)) as Hset.
    { apply setField_Ok. exists d, t. rewrite Hc1. split; [done|]. split; [done|].
      rewrite (JsFacts.set_same t k v Hv), <- Ht, with_field_same. done. }
    destruct (IH (set_require_cache (insert data d) st1)) as (st' & Hrun & Hc & Htb & Hdk & Hs').
    + simpl. apply lookup_insert_eq.
    + done.
    + intros k' Hk'. apply Hks. set_solver.
    + exact Hs1.
    + exists st'. split.
      * simpl. rewrite (bind_eq _ _ st tt (set_require_cache (insert data d) st1)); [done|].
        rewrite (bind_eq _ _ st v st1 Hseen). exact Hset.
      * split_and!.
        -- rewrite Hc. simpl. rewrite Hc1. by apply insert_id.
        -- eapply same_tables_trans; [exact Ht1|]. exact Htb.
        -- eapply same_disk_trans; [exact Hd1|]. exact Hdk.
        -- exact Hs'.
Qed.

(** Every import that is looked at has a spec: nothing is missing. *)
Lemma missing_none pkgName data names msgs st d deps :
  require_cache st !! data = Some d ->
  dependencies d = Some deps ->
  (forall k, k ∈ names -> checked pkgName k -> Js.truthy (JsObject.get k deps) = true) ->
  foldM (missingStep E pkgName data) msgs names st = Ok (msgs, st).
Proof.
  intros Hd Hdeps Hall. induction names as [|x names IH]; [done|].
  simpl. rewrite (bind_eq _ _ st msgs st); [apply IH; intros; apply Hall; set_solver|].
  unfold missingStep.
  destruct (ignored MISSING pkgName x) eqn:Hi; [done|].
  destruct (bool_decide (x = "." \/ x = "..")) eqn:Hrel; [done|].
  apply bool_decide_eq_false in Hrel.
  rewrite (bind_eq _ _ st d st) by (by apply load_Ok).
  rewrite (bind_eq _ _ st deps st) by (by apply defined_Ok).
  rewrite Hall; [done|set_solver|]. split_and!; [done|tauto..].
Qed.

(** Every dependency is imported or to be ignored: nothing is unused. *)
Lemma unused_none pkgName data names ks msgs st :
  (forall k, k ∈ ks -> ignored UNUSED pkgName k = true \/ k ∈ names) ->
  foldM (unusedStep pkgName data names) msgs ks st = Ok (msgs, st).
Proof.
  intros Hall. induction ks as [|x ks IH]; [done|].
  simpl. rewrite (bind_eq _ _ st msgs st); [apply IH; intros; apply Hall; set_solver|].
  unfold unusedStep. destruct (ignored UNUSED pkgName x) eqn:Hi; [done|].
  rewrite bool_decide_true; [done|]. destruct (Hall x) as [?|?]; [set_solver|congruence|done].
Qed.

(** The imports of a list of files depend on these files only. *)
Lemma readImports_ext files files' filenames :
  (forall f, f ∈ filenames -> files' !! f = files !! f) ->
  readImports E files' filenames = readImports E files filenames.
Proof.
  intros Hsame. unfold readImports. f_equal.
  induction filenames as [|f fs IH]; [done|].
  assert (fileImports E files' f = fileImports E files f) as Hf.
  { unfold fileImports. rewrite Hsame by set_solver. done. }
  simpl. rewrite Hf, IH; [done|]. intros; apply Hsame; set_solver.
Qed.

End settled.

Section revalidation.
Variable E : Env.

(** A package that needs no change is validated without a finding and
    without a write. *)
Lemma settled_no_findings pkgName st :
  pkgName ≠ "@jupyterlab/all-packages" ->
  cache_sound E st ->
  settled E st pkgName ->
  exists st', ensurePackage E pkgName st = Ok ([], st') /\
              require_cache st' = require_cache st /\
              same_tables st st' /\ same_disk st st' /\ cache_sound E st'.
Proof.
  intros Hname Hs (dname & data & d & deps & devDeps & Hdname & Hdata & Hd & Hdeps & Hdev &
                   Hv1 & Hv2 & Hfile & Hsrc).
  destruct (normalize_fixed E Dependencies data (JsObject.keys deps) st d deps)
    as (st1 & Hn1 & Hc1 & Ht1 & Hk1 & Hs1); [done..| |done|].
  { intros k (v & Hv)%JsFacts.elem_of_keys%JsFacts.elem_get_Some. eauto. }
  destruct (normalize_fixed E DevDependencies data (JsObject.keys devDeps) st1 d devDeps)
    as (st2 & Hn2 & Hc2 & Ht2 & Hk2 & Hs2); [by rewrite Hc1|done| |done|].
  { intros k (v & Hv)%JsFacts.elem_of_keys%JsFacts.elem_get_Some. eauto. }
  assert (require_cache st2 !! data = Some d) as Hd2 by (by rewrite Hc2, Hc1).
  assert (same_disk st st2) as [Hj Hx] by (by eapply same_disk_trans).
  assert (ensurePackageData data (path_join dname "package.json") st2 = Ok (false, st2))
    as Hwrite.
  { apply ensurePackageData_Ok. exists d, (JSON_stringify (sortPackageJson d)).
    split; [done|]. split; [by rewrite Hj|]. left. done. }
  exists st2. split.
  - unfold ensurePackage.
    unfold bind at 1. unfold gets at 1. unfold bind at 1. unfold gets at 1.
    rewrite Hdname, Hdata.
    unfold bind at 1. unfold defined at 1. unfold ret at 1.
    rewrite (bind_eq _ _ st d st) by (by apply load_Ok).
    rewrite (bind_eq _ _ st deps st) by (by apply defined_Ok).
    rewrite (bind_eq _ _ st tt st1) by exact Hn1.
    rewrite (bind_eq _ _ st1 devDeps st1) by (by apply defined_Ok).
    rewrite (bind_eq _ _ st1 tt st2) by exact Hn2.
    rewrite decide_False by done.
    unfold bind at 1. unfold ret at 1.
    unfold bind at 1. unfold defined at 1. unfold ret at 1.
    cbv zeta.
    destruct (decide (List.length (sourceFiles E dname) = 0)) as [Hlen|Hlen].
    + rewrite (bind_eq _ _ st2 false st2) by exact Hwrite. done.
    + destruct Hsrc as (names & Hnames & Hmiss & Hunused).
      { intros Hnil. by rewrite Hnil in Hlen. }
      unfold importedNames in Hnames.
      destruct (readImports E (textFiles st) (sourceFiles E dname)) as [imports|] eqn:Himp;
        [|done].
      injection Hnames as <-.
      rewrite (bind_eq _ _ st2 imports st2).
      2:{ apply collectImports_Ok. split; [done|]. by rewrite Hx. }
      rewrite (bind_eq _ _ st2 [] st2) by (by eapply missing_none).
      rewrite (bind_eq _ _ st2 d st2) by (by apply load_Ok).
      rewrite (bind_eq _ _ st2 deps st2) by (by apply defined_Ok).
      rewrite (bind_eq _ _ st2 [] st2).
      2:{ apply unused_none. intros k Hk%JsFacts.elem_of_keys. by apply Hunused. }
      rewrite (bind_eq _ _ st2 false st2) by exact Hwrite. done.
  - split_and!; try done.
    + congruence.
    + by eapply same_tables_trans.
Qed.

(** What a validation leaves on disk for a package other than the
    aggregator: the manifest that is written, and what holds of it. *)
Lemma validation_spec pkgName dname msgs st st' :
  pkgName ≠ "@jupyterlab/all-packages" ->
  (forall k v, getDependency E k = Some v -> v ≠ EmptyString) ->
  cache_sound E st ->
  JsObject.get pkgName (pkgPaths st) = Some dname ->
  ensurePackage E pkgName st = Ok (msgs, st') ->
  exists dF depsF devF,
    jsonFiles st' !! path_join dname "package.json"
      = Some (JSON_stringify (sortPackageJson dF)) /\
    dependencies dF = Some depsF /\ devDependencies dF = Some devF /\
    (forall k v, JsObject.get k depsF = Some v -> getDependency E k = Some v) /\
    (forall k v, JsObject.get k devF = Some v -> getDependency E k = Some v) /\
    textFiles st' = textFiles st /\
    (sourceFiles E dname ≠ [] ->
     exists names,
       importedNames E st dname = Some names /\
       (forall k, k ∈ names -> checked pkgName k ->
                  Js.truthy (JsObject.get k depsF) = true) /\
       (forall k, k ∈ depsF.*1 -> ignored UNUSED pkgName k = true \/ k ∈ names)).
Proof.
  intros Hname Hne Hs Hdname Hrun.
  apply ensurePackage_Ok in Hrun
    as (dname' & data & d & deps & devDeps & st1 & st2 & st3 & msgs0 &
        Hdname' & Hdata & Hd & Hdeps & Hdev & Hn1 & Hn2 & Hagg & Hfin).
  rewrite Hdname in Hdname'. injection Hdname' as <-.
  destruct (prepare_spec E data d deps devDeps st st1 st2 Hd Hdeps Hdev Hn1 Hn2)
    as (t1 & t2 & Hc2 & Hk1 & Hk2 & Hv1 & Hv2 & Hg2 & Ht2 & [Hj2 Hx2]).
  rewrite decide_False in Hagg by done. destruct Hagg as [-> ->].
  assert (cache_sound E st2) as Hs2 by (by eapply cache_sound_grows).
  assert (forall data file changed st5 st' d5,
            ensurePackageData data file st5 = Ok (changed, st') ->
            require_cache st5 !! data = Some d5 ->
            textFiles st' = textFiles st5 /\
            jsonFiles st' !! file = Some (JSON_stringify (sortPackageJson d5))) as Hpersist.
  { clear. intros data file changed st5 st' d5 (d & orig & Hd & Horig & H)%ensurePackageData_Ok Hd5.
    rewrite Hd5 in Hd. injection Hd as <-.
    destruct H as [(-> & Heq & ->)|(-> & Hne & ->)].
    - split; [done|]. by rewrite Horig, <- Heq.
    - split; [done|]. simpl. by rewrite lookup_insert_eq. }
  destruct Hfin as [(Hnil & changed & Hch & ->)
                   |(Hsrc & names & msgs1 & st4 & d4 & deps4 & msgs2 & st5 & changed &
                     Hnames & Hmiss & Hd4 & Hdeps4 & Hun & Hch & ->)].
  - eapply Hpersist in Hch as [Hx Hfile]; [|by rewrite Hc2, lookup_insert_eq].
    eexists _, t1, t2. split; [exact Hfile|]. split_and!; try done.
    + intros k v Hk. apply Hs2. by apply Hv1.
    + intros k v Hk. apply Hs2. by apply Hv2.
    + congruence.
  - eapply missing_spec in Hmiss
      as (deps4' & added & Hc4 & -> & Hg4 & Ht4 & [Hj4 Hx4] & Hin & Hout & Hmsg & _).
    2:{ rewrite Hc2. apply lookup_insert_eq. }
    2:{ done. }
    rewrite Hc4, lookup_insert_eq in Hd4. injection Hd4 as <-.
    simpl in Hdeps4. injection Hdeps4 as ->.
    assert (cache_sound E st4) as Hs4 by (by eapply cache_sound_grows).
    eapply unused_spec in Hun as (Hc5 & -> & Hs5 & Ht5 & [Hj5 Hx5]).
    2:{ rewrite Hc4. apply lookup_insert_eq. }
    2:{ done. }
    simpl in Hc5.
    set (removed := fun k => ignored UNUSED pkgName k = false /\ k ∉ names) in *.
    set (depsF := filter (fun kv : string * string =>
                            ~ (kv.1 ∈ JsObject.keys deps4 /\ removed kv.1)) deps4) in *.
    eapply Hpersist in Hch as [Hx Hfile].
    2:{ rewrite Hc5. apply lookup_insert_eq. }
    assert (forall k,
              (~ (k ∈ JsObject.keys deps4 /\ removed k) ->
               JsObject.get k depsF = JsObject.get k deps4) /\
              (k ∈ JsObject.keys deps4 /\ removed k -> JsObject.get k depsF = None))
      as Hfilter.
    { intros k. subst depsF.
      destruct (get_filter (fun kv : string * string =>
                              ~ (kv.1 ∈ JsObject.keys deps4 /\ removed kv.1))
                  (fun k => ~ (k ∈ JsObject.keys deps4 /\ removed k)) deps4 k) as [Hkeep Hdrop];
        [done|].
      split; [exact Hkeep|]. intros Hr. apply Hdrop. tauto. }
    assert (forall k v, JsObject.get k deps4 = Some v ->
                        getDependency E k = Some v) as Hcanon.
    { intros k v Hk.
      destruct (decide (k ∈ names /\ checked pkgName k /\
                        Js.truthy (JsObject.get k t1) = false)) as [Hw|Hw].
      - destruct (Hin k Hw) as (v' & Hv' & Hsv). rewrite Hk in Hv'. injection Hv' as <-.
        by apply Hs4.
      - rewrite (Hout k Hw) in Hk. apply Hs2. by apply Hv1. }
    eexists _, depsF, t2. split; [exact Hfile|]. split_and!; try done.
    + intros k v Hk.
      destruct (decide (k ∈ JsObject.keys deps4 /\ removed k)) as [Hr|Hr].
      * destruct (Hfilter k) as [_ Hdrop]. rewrite Hdrop in Hk by done. done.
      * destruct (Hfilter k) as [Hkeep _]. rewrite Hkeep in Hk by done. by apply Hcanon.
    + intros k v Hk. apply Hs2. by apply Hv2.
    + congruence.
    + intros _. exists names. split; [|split].
      * unfold importedNames in *. by rewrite <- Hx2.
      * intros k Hk Hck.
        destruct (Hfilter k) as [Hkeep _]. rewrite Hkeep.
        2:{ intros [_ [_ Hn]]. done. }
        destruct (Js.truthy (JsObject.get k t1)) eqn:Htr.
        -- rewrite Hout; [done|]. intros (_ & _ & Hf). congruence.
        -- destruct (Hin k) as (v & Hv & Hsv); [done|]. rewrite Hv.
           apply Hs4 in Hsv. apply Hne in Hsv. simpl.
           by rewrite bool_decide_false.
      * intros k (v & Hk)%JsFacts.elem_get_Some.
        destruct (decide (k ∈ JsObject.keys deps4 /\ removed k)) as [Hr|Hr].
        -- destruct (Hfilter k) as [_ Hdrop]. rewrite Hdrop in Hk by done. done.
        -- destruct (Hfilter k) as [Hkeep _]. rewrite Hkeep in Hk by done.
           assert (k ∈ JsObject.keys deps4) as Hkeys.
           { apply JsFacts.elem_of_keys. by eapply JsFacts.get_Some_elem. }
           destruct (ignored UNUSED pkgName k) eqn:Hi; [by left|]. right.
           destruct (decide (k ∈ names)) as [|Hn]; [done|]. destruct Hr. done.
Qed.

(** A process that has loaded the manifest that a validation left finds
    the package in need of no change. *)
Lemma reloaded_settled pkgName dname data2 msgs st st' s2 :
  pkgName ≠ "@jupyterlab/all-packages" ->
  (forall k v, getDependency E k = Some v -> v ≠ EmptyString) ->
  cache_sound E st ->
  JsObject.get pkgName (pkgPaths st) = Some dname ->
  ensurePackage E pkgName st = Ok (msgs, st') ->
  JsObject.get pkgName (pkgPaths s2) = Some dname ->
  JsObject.get pkgName (pkgData s2) = Some data2 ->
  (exists r d2,
     jsonFiles st' !! path_join dname "package.json" = Some (Manifest r d2) /\
     jsonFiles s2 !! path_join dname "package.json" = Some (Manifest r d2) /\
     require_cache s2 !! data2 = Some d2) ->
  (forall f, f ∈ sourceFiles E dname -> textFiles s2 !! f = textFiles st' !! f) ->
  settled E s2 pkgName.
Proof.
  intros Hname Hne Hs Hdname Hrun Hdname2 Hdata2 (r & d2 & Hfile' & Hfile2 & Hd2) Htext.
  destruct (validation_spec pkgName dname msgs st st' Hname Hne Hs Hdname Hrun)
    as (dF & depsF & devF & Hfile & HdepsF & HdevF & Hv1 & Hv2 & Hx & Hsrc).
  assert (JSON_stringify (sortPackageJson dF) = Manifest r d2) as Hd2F by congruence.
  pose proof (stringify_reloaded dF r d2 Hd2F) as Hagain.
  unfold JSON_stringify, sortPackageJson in Hd2F. simpl in Hd2F.
  rewrite HdepsF, HdevF in Hd2F. simpl in Hd2F. injection Hd2F as <- <-.
  exists dname, data2. eexists _, _, _.
  split; [exact Hdname2|]. split; [exact Hdata2|]. split; [exact Hd2|].
  split; [reflexivity|]. split; [reflexivity|]. split_and!.
  - intros k v. rewrite get_entries, get_sortObject. apply Hv1.
  - intros k v. rewrite get_entries, get_sortObject. apply Hv2.
  - by rewrite Hfile2, Hagain.
  - intros Hne'. destruct (Hsrc Hne') as (names & Hnames & Hmiss & Hunused).
    exists names. split_and!.
    + unfold importedNames in *. rewrite <- Hnames. f_equal.
      apply readImports_ext. intros f Hf. rewrite Htext by done. by rewrite Hx.
    + intros k Hk Hck. rewrite get_entries, get_sortObject. by apply Hmiss.
    + intros k Hk. apply Hunused. apply elem_of_get. apply elem_of_get in Hk.
      by rewrite get_entries, get_sortObject in Hk.
Qed.

End revalidation.

(** ** The run as a whole *)

Lemma ensureIntegrity_Ok E report st st' :
  ensureIntegrity E st = Ok (report, st') ->
  exists st1 top st2,
    forEach (lernaPaths E) loadPackage st = Ok (tt, st1) /\
    ensureTop E st1 = Ok (top, st2) /\
    validatePackages E (match top with
                        | Some m => [("top", TopMessage m)]
                        | None => []
                        end) st2 = Ok (report, st').
Proof.
  intros Hrun. unfold ensureIntegrity in Hrun.
  apply bind_Ok in Hrun as ([] & st1 & Hload & Hrun).
  apply bind_Ok in Hrun as (top & st2 & Htop & Hrun). eauto 10.
Qed.

Lemma initial_ok json text : cache_ok (initial json text) /\ tables_ok (initial json text).
Proof. split; intros ? ? H; simpl in H; done. Qed.

(** C1 (amended): after a run, every spec that is cached is the one that
    [getDependency] gives, and every package holds the cached spec for each
    of its dependencies and devDependencies whose name is not the name of a
    member of [Object.prototype], but for the dependencies that the
    aggregator step added to the manifest of the aggregator: these hold the
    caret range of the version of the local package. *)
Theorem canonical_versions E json text report st' :
  ensureIntegrity E (initial json text) = Ok (report, st') ->
  (forall n v, JsObject.get n (seenDeps st') = Some v -> getDependency E n = Some v) /\
  forall pkg ref, JsObject.get pkg (pkgData st') = Some ref ->
    exists d, require_cache st' !! ref = Some d /\
      (forall k v, Js.inherited k = false ->
                   devDependencies d ≫= JsObject.get k = Some v ->
                   JsObject.get k (seenDeps st') = Some v /\
                   getDependency E k = Some v) /\
      (forall k v, Js.inherited k = false ->
                   dependencies d ≫= JsObject.get k = Some v ->
                   (JsObject.get k (seenDeps st') = Some v /\
                    getDependency E k = Some v)
                   \/ (ref = allPackageJson E /\ syncEntry E st' k v)).
Proof.
  intros Hrun. apply ensureIntegrity_Ok in Hrun as (st1 & top & st2 & Hload & Htop & Hval).
  destruct (initial_ok json text) as [Hcok Htok].
  apply loadPackages_spec in Hload as (Hs1 & _); [|done..].
  apply ensureTop_frame in Htop as (Hs2 & Ht2 & _).
  apply validatePackages_spec in Hval as (Ht & Hg & Ho & Hall).
  assert (forall n v, JsObject.get n (seenDeps st') = Some v ->
                      getDependency E n = Some v) as Hsound.
  { intros n v Hn. eapply cache_grows_canonical in Hn; [|exact Hg].
    unfold canonical in Hn. rewrite Hs2, Hs1 in Hn. done. }
  split; [exact Hsound|].
  intros pkg ref Hpkg. destruct Ht as (Hpd & _). rewrite Hpd in Hpkg.
  destruct (Hall pkg ref Hpkg) as (d & Hd & Hdev & Hdeps).
  exists d. split; [exact Hd|]. split.
  - intros k v _ Hk. split; [|apply Hsound]; apply Hdev; exact Hk.
  - intros k v _ Hk. destruct (Hdeps k v Hk) as [Hc|Hs]; [left|right; exact Hs].
    split; [|apply Hsound]; exact Hc.
Qed.

Lemma canonical_versions_witness :
  Example.Two.run
  = Ok (Example.value Example.Two.run [], Example.state Example.Two.run Example.Two.st0) /\
  getDependency Example.Two.E "lodash" = Some "^4.17.4" /\
  exists d, require_cache (Example.state Example.Two.run Example.Two.st0)
              !! "/repo/packages/A/package.json" = Some d.
Proof.
  assert (Example.Two.run
          = Ok (Example.value Example.Two.run [],
                Example.state Example.Two.run Example.Two.st0)) as Hrun
    by (vm_compute; reflexivity).
  split; [exact Hrun|].
  destruct (canonical_versions Example.Two.E Example.Two.json Example.Two.text _ _ Hrun)
    as [Hcache Hpkgs].
  split.
  - apply Hcache. vm_compute; reflexivity.
  - destruct (Hpkgs "A" "/repo/packages/A/package.json") as (d & Hd & _).
    + vm_compute; reflexivity.
    + exists d. exact Hd.
Defined.

(** Package [p] depends on the local package [q], for which the version
    lookup gives a tilde range; the aggregator step gives the aggregator the
    caret range of the version of [q]. *)
Lemma canonical_versions_aggregator :
  ~ Stated.canonical_versions Example.Aggregate.E Example.Aggregate.json
      Example.Aggregate.text.
Proof.
  intros H.
  assert (Example.Aggregate.run
          = Ok (Example.value Example.Aggregate.run [],
                Example.state Example.Aggregate.run Example.Aggregate.st0)) as Hrun
    by (vm_compute; reflexivity).
  specialize (H _ _ Hrun "q" "~0.1.0").
  assert ("^0.1.0" = "~0.1.0") as Heq; [|discriminate Heq].
  apply (H ltac:(vm_compute; reflexivity)
           "@jupyterlab/all-packages" "/repo/packages/all-packages/package.json"
           (mkPackage "@jupyterlab/all-packages" "0.1.0"
                      (Some [("p", "^0.2.0"); ("q", "^0.1.0")]) (Some []))).
  - vm_compute; reflexivity.
  - vm_compute; reflexivity.
  - left. reflexivity.
Qed.

(** ** A second validation *)

(** C2 (amended): a package other than the aggregator that has been
    validated is validated again without a finding and without a write, by a
    process that has loaded the manifest that the first validation left and
    finds the sources as they were, provided no spec that [getDependency]
    gives is empty.  The full pass can report again all the same: the top
    level manifest is updated from the specs that the packages declare before
    these are made consistent. *)
Theorem revalidation_no_findings E pkgName dname data2 msgs st st' s2 :
  pkgName ≠ "@jupyterlab/all-packages" ->
  (forall k v, getDependency E k = Some v -> v ≠ EmptyString) ->
  cache_sound E st ->
  JsObject.get pkgName (pkgPaths st) = Some dname ->
  ensurePackage E pkgName st = Ok (msgs, st') ->
  cache_sound E s2 ->
  JsObject.get pkgName (pkgPaths s2) = Some dname ->
  JsObject.get pkgName (pkgData s2) = Some data2 ->
  (exists r d2,
     jsonFiles st' !! path_join dname "package.json" = Some (Manifest r d2) /\
     jsonFiles s2 !! path_join dname "package.json" = Some (Manifest r d2) /\
     require_cache s2 !! data2 = Some d2) ->
  (forall f, f ∈ sourceFiles E dname -> textFiles s2 !! f = textFiles st' !! f) ->
  exists s2', ensurePackage E pkgName s2 = Ok ([], s2') /\
              jsonFiles s2' = jsonFiles s2 /\ textFiles s2' = textFiles s2.
Proof.
  intros Hname Hne Hs Hdname Hrun Hs2 Hdname2 Hdata2 Hfile Htext.
  destruct (settled_no_findings E pkgName s2 Hname Hs2) as (s2' & Hrun2 & _ & _ & [Hj Hx] & _).
  - by apply (reloaded_settled E pkgName dname data2 msgs st st' s2).
  - exists s2'. done.
Qed.

Lemma revalidation_no_findings_witness :
  Example.value Example.Two.runA [] = ["Missing dependency: lodash"; "Package data changed"] /\
  exists s2',
    ensurePackage Example.Two.E "A"
      (Example.loaded Example.Two.E
         (jsonFiles (Example.state Example.Two.runA Example.Two.st0))
         (textFiles (Example.state Example.Two.runA Example.Two.st0)))
    = Ok ([], s2').
Proof.
  split; [vm_compute; reflexivity|].
  assert (Example.Two.runA
          = Ok (Example.value Example.Two.runA [],
                Example.state Example.Two.runA Example.Two.st0)) as Hrun
    by (vm_compute; reflexivity).
  destruct (revalidation_no_findings Example.Two.E "A" "/repo/packages/A"
              "/repo/packages/A/package.json"
              (Example.value Example.Two.runA []) Example.Two.st0
              (Example.state Example.Two.runA Example.Two.st0)
              (Example.loaded Example.Two.E
                 (jsonFiles (Example.state Example.Two.runA Example.Two.st0))
                 (textFiles (Example.state Example.Two.runA Example.Two.st0))))
    as (s2' & Hrun2 & _);
    [..|exists s2'; exact Hrun2].
  - discriminate.
  - intros k v. unfold Example.Two.E, getDependency, Example.lookup. simpl.
    repeat (destruct (decide _); [intros [= <-]; discriminate|]). discriminate.
  - intros k v Hk. vm_compute in Hk. discriminate.
  - vm_compute; reflexivity.
  - exact Hrun.
  - intros k v Hk. vm_compute in Hk. discriminate.
  - vm_compute; reflexivity.
  - vm_compute; reflexivity.
  - eexists _, _. split_and!; vm_compute; reflexivity.
  - intros f Hf. vm_compute; reflexivity.
Defined.

(** A package declares a devDependency with a spec that is not the one of
    [getDependency]: the first run copies the declared spec to the top level
    manifest and then makes the package consistent, the second run copies the
    consistent spec and reports that the top level manifest was updated. *)
Lemma second_run_reports :
  ~ Stated.idempotent Example.Hoist.E Example.Hoist.json Example.Hoist.text.
Proof.
  intros H.
  assert (Example.Hoist.first
          = Ok (Example.value Example.Hoist.first [],
                Example.state Example.Hoist.first Example.Hoist.st0)) as Hfirst
    by (vm_compute; reflexivity).
  destruct (H _ _ Hfirst) as [st'' Hsecond].
  assert (Example.value Example.Hoist.second [] = [("top", TopMessage "updated")]) as Hrep
    by (vm_compute; reflexivity).
  unfold Example.Hoist.second in Hrep. rewrite Hsecond in Hrep. discriminate Hrep.
Qed.

(** ** Missing and unused dependencies *)

Lemma occurrences_fmap_other (f : string -> string) m l :
  (forall k, f k ≠ m) -> occurrences m (f <$> l) = 0.
Proof.
  intros Hf. apply occurrences_zero. intros (k & ? & _)%list_elem_of_fmap.
  by eapply Hf.
Qed.

Lemma occurrences_fmap_once (f : string -> string) x l :
  (forall a b, f a = f b -> a = b) -> NoDup l -> x ∈ l ->
  occurrences (f x) (f <$> l) = 1.
Proof.
  intros Hinj Hnd Hin. induction Hnd as [|a l Hna Hnd IH]; [set_solver|].
  rewrite fmap_cons. change (f a :: (f <$> l)) with ([f a] ++ (f <$> l)).
  rewrite occurrences_app, occurrences_singleton.
  apply elem_of_cons in Hin as [->|Hin].
  - rewrite decide_True by done.
    assert (occurrences (f a) (f <$> l) = 0) as ->; [|done].
    apply occurrences_zero. intros (k & Hk%Hinj & ?)%list_elem_of_fmap. by subst.
  - rewrite decide_False; [by rewrite IH|].
    intros Heq%Hinj. by subst.
Qed.

Lemma importedNames_same_files E st st' dname :
  textFiles st' = textFiles st -> importedNames E st' dname = importedNames E st dname.
Proof. unfold importedNames. by intros ->. Qed.

Lemma importedNames_no_sources E st dname names :
  sourceFiles E dname = [] -> importedNames E st dname = Some names -> names = [].
Proof. unfold importedNames, readImports. intros ->. simpl. by intros [= <-]. Qed.

(** C3 (amended): for a package other than the aggregator, an imported
    package name [x] that is not a key of the dependencies, is not on the
    ignore list of the package and is not [.] or [..], and whose spec is not
    the empty string, is reported missing exactly once, and afterwards the
    dependencies hold the cached spec of [x]; neither [x] nor the name of
    the package is the name of a member of [Object.prototype]. *)
Theorem missing_dependency_added E pkgName msgs st st' dname data d deps names x :
  ensurePackage E pkgName st = Ok (msgs, st') ->
  pkgName ≠ "@jupyterlab/all-packages" ->
  JsObject.get pkgName (pkgPaths st) = Some dname ->
  JsObject.get pkgName (pkgData st) = Some data ->
  require_cache st !! data = Some d ->
  dependencies d = Some deps ->
  importedNames E st dname = Some names ->
  x ∈ names ->
  x ∉ deps.*1 ->
  Js.inherited x = false -> Js.inherited pkgName = false ->
  ignored MISSING pkgName x = false -> x ≠ "." -> x ≠ ".." ->
  canonical E st x ≠ Some EmptyString ->
  occurrences (missingMsg x) msgs = 1 /\
  exists d' v, require_cache st' !! data = Some d' /\
               dependencies d' ≫= JsObject.get x = Some v /\
               canonical E st x = Some v /\
               JsObject.get x (seenDeps st') = Some v.
Proof.
  intros Hrun Hname Hdname0 Hdata0 Hd0 Hdeps0 Hnames Hx Hfresh _ _
         Hign Hdot Hdotdot Hcanon.
  apply ensurePackage_Ok in Hrun
    as (dname' & data' & d' & deps' & devDeps & st1 & st2 & st3 & msgs0 &
        Hdname & Hdata & Hd & Hdeps & Hdev & Hn1 & Hn2 & Hagg & Hfin).
  rewrite Hdname0 in Hdname. injection Hdname as <-.
  rewrite Hdata0 in Hdata. injection Hdata as <-.
  rewrite Hd0 in Hd. injection Hd as <-. rewrite Hdeps0 in Hdeps. injection Hdeps as <-.
  destruct (prepare_spec E data d deps devDeps st st1 st2 Hd0 Hdeps0 Hdev Hn1 Hn2)
    as (t1 & t2 & Hc2 & Hk1 & Hk2 & Hv1 & Hv2 & Hg2 & Ht2 & [Hj2 Hx2]).
  rewrite decide_False in Hagg by done. destruct Hagg as [-> ->].
  assert (importedNames E st2 dname = Some names) as Hnames2.
  { by rewrite (importedNames_same_files E st st2). }
  destruct Hfin as [(Hnil & _)
                   |(Hsrc & names' & msgs1 & st4 & d4 & deps4 & msgs2 & st5 & changed &
                     Hnames' & Hmiss & Hd4 & Hdeps4 & Hun & Hch & ->)].
  { apply (importedNames_no_sources E st2 dname names) in Hnil; [|done]. set_solver. }
  rewrite Hnames2 in Hnames'. injection Hnames' as <-.
  eapply missing_spec in Hmiss
    as (deps4' & added & Hc4 & -> & Hg4 & Ht4 & Hdk4 & Hin & Hout & Hmsg & Hcnt).
  2:{ rewrite Hc2. apply lookup_insert_eq. }
  2:{ done. }
  rewrite Hc4, lookup_insert_eq in Hd4. injection Hd4 as <-.
  simpl in Hdeps4. injection Hdeps4 as ->.
  assert (x ∈ names /\ checked pkgName x /\ Js.truthy (JsObject.get x t1) = false) as Hwanted.
  { split_and!; try done. assert (JsObject.get x t1 = None) as ->; [|done].
    apply JsFacts.get_None. by rewrite Hk1. }
  destruct (Hin x Hwanted) as (v & Hv4 & Hsv4).
  destruct (Hcnt x Hwanted) as [_ Hone].
  assert (cache_grows E st st4) as Hg by (by eapply cache_grows_trans).
  assert (canonical E st x = Some v) as Hcv by (by eapply cache_grows_canonical).
  eapply unused_spec in Hun as (Hc5 & -> & Hs5 & Ht5 & Hdk5).
  2:{ rewrite Hc4. apply lookup_insert_eq. }
  2:{ done. }
  apply ensurePackageData_Ok in Hch as (d5 & orig & Hd5 & _ & Hch).
  assert (require_cache st' = require_cache st5 /\ seenDeps st' = seenDeps st5) as [Hc Hs].
  { destruct Hch as [(_ & _ & ->)|(_ & _ & ->)]; done. }
  split.
  - assert (forall l, occurrences (missingMsg x)
                        (if changed then l ++ ["Package data changed"] else l)
                      = occurrences (missingMsg x) l) as ->.
    { intros l. destruct changed; [|done]. rewrite occurrences_app. simpl.
      rewrite occurrences_singleton. rewrite decide_False by done. lia. }
    rewrite occurrences_app. simpl. rewrite occurrences_fmap_other.
    + rewrite Hone; [done|]. rewrite Hsv4. simpl. apply negb_true_iff.
      apply bool_decide_eq_false. congruence.
    + intros k. done.
  - eexists _, v. split_and!; try done.
    + rewrite Hc, Hc5. apply lookup_insert_eq.
    + simpl.
      destruct (get_filter
                  (fun kv : string * string =>
                     ~ (kv.1 ∈ JsObject.keys deps4 /\
                        (ignored UNUSED pkgName kv.1 = false /\ kv.1 ∉ names)))
                  (fun k => ~ (k ∈ JsObject.keys deps4 /\
                               (ignored UNUSED pkgName k = false /\ k ∉ names))) deps4 x)
        as [Hkeep _]; [done|].
      rewrite Hkeep; [done|]. tauto.
    + by rewrite Hs, Hs5.
Qed.

Lemma missing_dependency_added_witness :
  Example.Two.runA
  = Ok (Example.value Example.Two.runA [], Example.state Example.Two.runA Example.Two.st0) /\
  occurrences (missingMsg "lodash") (Example.value Example.Two.runA []) = 1 /\
  exists d' v,
    require_cache (Example.state Example.Two.runA Example.Two.st0)
      !! "/repo/packages/A/package.json" = Some d' /\
    dependencies d' ≫= JsObject.get "lodash" = Some v.
Proof.
  assert (Example.Two.runA
          = Ok (Example.value Example.Two.runA [],
                Example.state Example.Two.runA Example.Two.st0)) as Hrun
    by (vm_compute; reflexivity).
  split; [exact Hrun|].
  destruct (missing_dependency_added Example.Two.E "A"
              (Example.value Example.Two.runA []) Example.Two.st0
              (Example.state Example.Two.runA Example.Two.st0)
              "/repo/packages/A" "/repo/packages/A/package.json"
              (mkPackage "A" "0.1.0" (Some []) (Some [])) [] ["."; "lodash"] "lodash" Hrun)
    as (Hone & d' & v & Hd' & Hv & _).
  - discriminate.
  - vm_compute; reflexivity.
  - vm_compute; reflexivity.
  - vm_compute; reflexivity.
  - reflexivity.
  - vm_compute; reflexivity.
  - apply list_elem_of_further, list_elem_of_here.
  - apply not_elem_of_nil.
  - reflexivity.
  - reflexivity.
  - reflexivity.
  - discriminate.
  - discriminate.
  - vm_compute; discriminate.
  - split; [exact Hone|]. exists d', v. split; [exact Hd'|exact Hv].
Defined.

(** The aggregator imports the packages [p] and [q] and its manifest
    declares neither: they are added by the aggregator step, which reports
    them as updated, and no dependency is reported missing. *)
Lemma missing_detection_aggregator :
  ~ Stated.missing_detection Example.Aggregate.E Example.Aggregate.st0
      "@jupyterlab/all-packages".
Proof.
  intros H.
  assert (Example.Aggregate.runAll
          = Ok (Example.value Example.Aggregate.runAll [],
                Example.state Example.Aggregate.runAll Example.Aggregate.st0)) as Hrun
    by (vm_compute; reflexivity).
  destruct (H _ _ Hrun
              "/repo/packages/all-packages" "/repo/packages/all-packages/package.json"
              (mkPackage "@jupyterlab/all-packages" "0.1.0" (Some []) (Some []))
              [] ["p"; "q"] "q") as [Hone _].
  - vm_compute; reflexivity.
  - vm_compute; reflexivity.
  - vm_compute; reflexivity.
  - reflexivity.
  - vm_compute; reflexivity.
  - apply list_elem_of_further, list_elem_of_here.
  - apply not_elem_of_nil.
  - reflexivity.
  - discriminate.
  - discriminate.
  - revert Hone. vm_compute. discriminate.
Qed.

(** C4 (amended): let [k] be a key of the dependencies of a package.  If [k]
    is on the ignore list of unused dependencies of the package, it is still
    a key after the validation, whatever the sources import.  If it is not,
    and the package has at least one source file (a package without source
    files is not checked), and [k] is not among the package names that the
    sources import (those of the regenerated [index.ts], for the
    aggregator), then [k] is deleted and reported unused exactly once.  The
    sources of a package other than the aggregator are the same before and
    after. *)
Theorem unused_dependency_removed E pkgName msgs st st' dname data d deps k :
  ensurePackage E pkgName st = Ok (msgs, st') ->
  JsObject.get pkgName (pkgPaths st) = Some dname ->
  JsObject.get pkgName (pkgData st) = Some data ->
  require_cache st !! data = Some d ->
  dependencies d = Some deps ->
  k ∈ deps.*1 ->
  exists d',
    require_cache st' !! data = Some d' /\
    (ignored UNUSED pkgName k = true -> is_Some (dependencies d' ≫= JsObject.get k)) /\
    (ignored UNUSED pkgName k = false ->
     sourceFiles E dname ≠ [] ->
     forall names, importedNames E st' dname = Some names -> k ∉ names ->
       dependencies d' ≫= JsObject.get k = None /\
       occurrences (unusedMsg k) msgs = 1) /\
    (pkgName ≠ "@jupyterlab/all-packages" ->
     importedNames E st' dname = importedNames E st dname).
Proof.
  intros Hrun Hdname0 Hdata0 Hd0 Hdeps0 Hk.
  apply ensurePackage_Ok in Hrun
    as (dname' & data' & d' & deps' & devDeps & st1 & st2 & st3 & msgs0 &
        Hdname & Hdata & Hd & Hdeps & Hdev & Hn1 & Hn2 & Hagg & Hfin).
  rewrite Hdname0 in Hdname. injection Hdname as <-.
  rewrite Hdata0 in Hdata. injection Hdata as <-.
  rewrite Hd0 in Hd. injection Hd as <-. rewrite Hdeps0 in Hdeps. injection Hdeps as <-.
  destruct (prepare_spec E data d deps devDeps st st1 st2 Hd0 Hdeps0 Hdev Hn1 Hn2)
    as (t1 & t2 & Hc2 & Hk1 & Hk2 & Hv1 & Hv2 & Hg2 & Ht2 & [Hj2 Hx2]).
  set (d2 := mkPackage (name d) (version d) (Some t1) (Some t2)) in *.
  destruct (aggregate_spec E pkgName data d2 t1 msgs0 st2 st3)
    as (d3 & deps3 & Hd3 & Hdeps3 & Hdev3 & Hsh3 & Ht3 & Hs3 & Ho3 & Hold3 & Hkept3 & Hnoagg &
        Hmsgs0 & _); [by rewrite Hc2, lookup_insert_eq|done..|].
  assert (is_Some (JsObject.get k deps3)) as Hk3.
  { apply Hkept3. apply JsFacts.elem_get_Some. by rewrite Hk1. }
  assert (occurrences (unusedMsg k) msgs0 = 0) as Hcount0.
  { apply occurrences_zero. intros [(k' & Hk')|[Hk'|Hk']]%Hmsgs0; done. }
  destruct Hfin as [(Hnil & changed & Hch & ->)
                   |(Hsrc & names & msgs1 & st4 & d4 & deps4 & msgs2 & st5 & changed &
                     Hnames & Hmiss & Hd4 & Hdeps4 & Hun & Hch & ->)].
  - (* no source files *)
    apply ensurePackageData_Ok in Hch as (d5 & orig & Hd5 & _ & Hch).
    assert (require_cache st' = require_cache st3 /\ textFiles st' = textFiles st3) as [Hc Hx].
    { destruct Hch as [(_ & _ & ->)|(_ & _ & ->)]; done. }
    exists d3. rewrite Hc. split_and!; try done.
    + intros _. by rewrite Hdeps3.
    + intros Hname. destruct (Hnoagg Hname) as (-> & _). apply importedNames_same_files.
      congruence.
  - eapply missing_spec in Hmiss
      as (deps4' & added & Hc4 & -> & Hg4 & Ht4 & [Hj4 Hx4] & Hin & Hout & Hmsg & Hcnt);
      [|done..].
    rewrite Hc4, lookup_insert_eq in Hd4. injection Hd4 as <-.
    simpl in Hdeps4. injection Hdeps4 as ->.
    assert (is_Some (JsObject.get k deps4)) as Hk4.
    { destruct (decide (k ∈ names /\ checked pkgName k /\
                        Js.truthy (JsObject.get k deps3) = false)) as [Hw|Hw].
      - destruct (Hin k Hw) as (v & -> & _). eauto.
      - by rewrite (Hout k Hw). }
    eapply unused_spec in Hun as (Hc5 & -> & Hs5 & Ht5 & [Hj5 Hx5]).
    2:{ rewrite Hc4. apply lookup_insert_eq. }
    2:{ done. }
    apply ensurePackageData_Ok in Hch as (d5 & orig & Hd5 & _ & Hch).
    assert (require_cache st' = require_cache st5 /\ textFiles st' = textFiles st5) as [Hc Hx].
    { destruct Hch as [(_ & _ & ->)|(_ & _ & ->)]; done. }
    destruct (get_filter
                (fun kv : string * string =>
                   ~ (kv.1 ∈ JsObject.keys deps4 /\
                      (ignored UNUSED pkgName kv.1 = false /\ kv.1 ∉ names)))
                (fun k => ~ (k ∈ JsObject.keys deps4 /\
                             (ignored UNUSED pkgName k = false /\ k ∉ names))) deps4 k)
      as [Hkeep Hdrop]; [done|].
    eexists. split; [rewrite Hc, Hc5; apply lookup_insert_eq|]. simpl. split_and!.
    + intros Hi. rewrite Hkeep; [done|]. intros [_ [? _]]. congruence.
    + intros Hi _ names' Hnames' Hnot.
      assert (names' = names) as ->.
      { rewrite (importedNames_same_files E st3 st') in Hnames' by congruence. congruence. }
      assert (k ∈ JsObject.keys deps4) as Hkeys.
      { apply JsFacts.elem_of_keys. destruct Hk4 as [v Hv]. by eapply JsFacts.get_Some_elem. }
      split.
      * apply Hdrop. intros Hn. apply Hn. done.
      * assert (forall l, occurrences (unusedMsg k)
                            (if changed then l ++ ["Package data changed"] else l)
                          = occurrences (unusedMsg k) l) as ->.
        { intros l. destruct changed; [|done]. rewrite occurrences_app. simpl.
          rewrite occurrences_singleton. rewrite decide_False by done. lia. }
        rewrite !occurrences_app, Hcount0.
        assert (occurrences (unusedMsg k) added = 0) as ->.
        { apply occurrences_zero. intros (k' & Hk' & _)%Hmsg. done. }
        simpl. apply occurrences_fmap_once.
        -- apply unusedMsg_inj.
        -- apply NoDup_filter, JsFacts.NoDup_keys.
        -- apply list_elem_of_filter. done.
    + intros Hname. destruct (Hnoagg Hname) as (-> & _). apply importedNames_same_files.
      congruence.
Qed.

Lemma unused_dependency_removed_witness :
  Example.Two.runB
  = Ok (Example.value Example.Two.runB [], Example.state Example.Two.runB Example.Two.st0) /\
  exists d',
    require_cache (Example.state Example.Two.runB Example.Two.st0)
      !! "/repo/packages/B/package.json" = Some d' /\
    dependencies d' ≫= JsObject.get "left-pad" = None /\
    occurrences (unusedMsg "left-pad") (Example.value Example.Two.runB []) = 1.
Proof.
  assert (Example.Two.runB
          = Ok (Example.value Example.Two.runB [],
                Example.state Example.Two.runB Example.Two.st0)) as Hrun
    by (vm_compute; reflexivity).
  split; [exact Hrun|].
  destruct (unused_dependency_removed Example.Two.E "B"
              (Example.value Example.Two.runB []) Example.Two.st0
              (Example.state Example.Two.runB Example.Two.st0)
              "/repo/packages/B" "/repo/packages/B/package.json"
              (mkPackage "B" "0.1.0" (Some [("left-pad", "^1.1.3")]) (Some []))
              [("left-pad", "^1.1.3")] "left-pad" Hrun)
    as (d' & Hd' & _ & Hremoved & _).
  - vm_compute; reflexivity.
  - vm_compute; reflexivity.
  - vm_compute; reflexivity.
  - reflexivity.
  - apply list_elem_of_here.
  - exists d'. split; [exact Hd'|].
    apply (Hremoved eq_refl) with (names := []).
    + vm_compute; discriminate.
    + vm_compute; reflexivity.
    + apply not_elem_of_nil.
Defined.

(** A package without source files keeps a dependency that nothing
    imports. *)
Lemma unused_detection_no_sources :
  ~ Stated.unused_detection Example.Bare.E Example.Bare.st0 "native".
Proof.
  intros H.
  assert (Example.Bare.run
          = Ok (Example.value Example.Bare.run [],
                Example.state Example.Bare.run Example.Bare.st0)) as Hrun
    by (vm_compute; reflexivity).
  destruct (H _ _ Hrun "/repo/packages/native" "/repo/packages/native/package.json"
              (mkPackage "native" "0.1.0" (Some [("left-pad", "^1.0.0")]) (Some []))
              [("left-pad", "^1.0.0")] [] "left-pad")
    as (d' & Hd' & _ & Hremoved).
  - vm_compute; reflexivity.
  - vm_compute; reflexivity.
  - vm_compute; reflexivity.
  - reflexivity.
  - vm_compute; reflexivity.
  - apply list_elem_of_here.
  - destruct Hremoved as [Hgone _]; [reflexivity|apply not_elem_of_nil|].
    assert (require_cache (Example.state Example.Bare.run Example.Bare.st0)
              !! "/repo/packages/native/package.json"
            = Some (mkPackage "native" "0.1.0" (Some [("left-pad", "^1.1.3")]) (Some [])))
      as Hd'' by (vm_compute; reflexivity).
    rewrite Hd'' in Hd'. injection Hd' as <-. discriminate Hgone.
Qed.

(** ** Import specifiers *)

Lemma split_sep_l (sep : ascii) (a b : string) :
  ~ mentions sep a -> Js.split sep (a +:+ String sep b) = a :: Js.split sep b.
Proof.
  induction a as [|c a IH]; simpl; intros Hn.
  - by rewrite decide_True.
  - rewrite decide_False by tauto. rewrite IH by tauto. done.
Qed.


Lemma split_Forall (sep : ascii) (s : string) :
  Js.split sep s ≠ [] /\ Forall (fun x => ~ mentions sep x) (Js.split sep s).
Proof.
  induction s as [|c s [IHne IH]]; simpl.
  - split; [done|]. repeat constructor. tauto.
  - destruct (decide (c = sep)) as [->|Hne].
    + split; [done|]. constructor; [simpl; tauto|done].
    + destruct (Js.split sep s) as [|p ps]; [done|]. split; [done|].
      apply Forall_cons in IH as [Hp Hps]. constructor; [|done].
      simpl. intros [?|?]; [done|tauto].
Qed.

Lemma split_nosep (sep : ascii) (s : string) :
  ~ mentions sep s -> Js.split sep s = [s].
Proof.
  induction s as [|c s IH]; simpl; [done|]. intros Hn.
  rewrite decide_False by tauto. rewrite IH by tauto. done.
Qed.



(** ** The aggregator *)

Lemma length_append (a b : string) :
  String.length (a +:+ b) = String.length a + String.length b.
Proof. induction a as [|c a IH]; simpl; [done|]. by rewrite IH. Qed.

Lemma append_inj_l (a b s : string) : a +:+ s = b +:+ s -> a = b.
Proof.
  revert b. induction a as [|c a IH]; intros [|c' b] H; simpl in *.
  - done.
  - apply (f_equal String.length) in H.
    rewrite (length_append EmptyString s), (length_append (String c' b) s) in H.
    simpl in H. lia.
  - apply (f_equal String.length) in H.
    rewrite (length_append EmptyString s), (length_append (String c a) s) in H.
    simpl in H. lia.
  - change (String c (a +:+ s) = String c' (b +:+ s)) in H.
    injection H as -> H. f_equal. by apply IH.
Qed.

Lemma importLine_inj a b : importLine a = importLine b -> a = b.
Proof.
  unfold importLine. intros H%append_inj_r. injection H as H.
  by apply append_inj_l in H.
Qed.

Lemma append_assoc (a b c : string) : (a +:+ b) +:+ c = a +:+ (b +:+ c).
Proof.
  induction a as [|x a IH]; [reflexivity|].
  change (String x ((a +:+ b) +:+ c) = String x (a +:+ (b +:+ c))). by rewrite IH.
Qed.

Lemma importLine_statement k : importLine k = importStatement k +:+ String LF EmptyString.
Proof. unfold importLine, importStatement. rewrite !append_assoc. reflexivity. Qed.

Lemma importStatement_inj a b : importStatement a = importStatement b -> a = b.
Proof.
  intros H. apply importLine_inj. by rewrite !importLine_statement, H.
Qed.

Lemma mentions_append c (a b : string) :
  mentions c (a +:+ b) <-> mentions c a \/ mentions c b.
Proof. induction a as [|c' a IH]; simpl; [tauto|]. rewrite IH. tauto. Qed.

Lemma importStatement_line k : ~ mentions LF k -> ~ mentions LF (importStatement k).
Proof.
  intros Hk. unfold importStatement.
  rewrite mentions_append. intros [H|H].
  - simpl in H. repeat destruct H as [H|H]; done.
  - simpl in H. destruct H as [H|H]; [done|].
    apply mentions_append in H as [H|H]; [done|].
    simpl in H. repeat destruct H as [H|H]; done.
Qed.

Lemma split_app_sep (sep : ascii) (a b : string) :
  Js.split sep (a +:+ String sep b) = Js.split sep a ++ Js.split sep b.
Proof.
  induction a as [|c a IH]; simpl.
  - by rewrite decide_True.
  - destruct (decide (c = sep)) as [->|Hc]; [by rewrite IH|].
    rewrite IH. destruct (Js.split sep a) as [|p ps] eqn:Hs; [|done].
    by destruct (split_Forall sep a) as [? _].
Qed.

Lemma split_join (l : list string) :
  l ≠ [] ->
  Js.split LF (Js.join (String LF EmptyString) l) = mjoin (Js.split LF <$> l).
Proof.
  induction l as [|x [|y l] IH]; intros Hne; [done| |].
  - simpl. by rewrite app_nil_r.
  - change (Js.join (String LF EmptyString) (x :: y :: l))
      with (x +:+ String LF (Js.join (String LF EmptyString) (y :: l))).
    rewrite split_app_sep, IH by done. done.
Qed.

Lemma mjoin_cons {A} (x : list A) (l : list (list A)) : mjoin (x :: l) = x ++ mjoin l.
Proof. reflexivity. Qed.

Lemma split_lines (l : list string) :
  Forall (fun x => ~ mentions LF x) l -> mjoin (Js.split LF <$> l) = l.
Proof.
  induction 1 as [|x l Hx _ IH]; [done|].
  rewrite fmap_cons, mjoin_cons, IH, split_nosep by done. done.
Qed.

Lemma occurrences_generated k names :
  Forall (fun n => ~ mentions LF n) names ->
  occurrences (importStatement k) (mjoin (Js.split LF <$> (importLine <$> names)))
  = occurrences (importStatement k) (importStatement <$> names).
Proof.
  induction 1 as [|n names Hn _ IH]; [done|].
  rewrite !fmap_cons, mjoin_cons.
  rewrite importLine_statement, split_app_sep, split_nosep
    by (by apply importStatement_line).
  change (importStatement n :: (importStatement <$> names))
    with ([importStatement n] ++ (importStatement <$> names)).
  rewrite !occurrences_app, IH. simpl Js.split.
  rewrite !occurrences_singleton.
  rewrite (decide_False (P := EmptyString = importStatement k)) by done. lia.
Qed.

(** The number of lines of the regenerated [index.ts] that import [k]. *)
Lemma references_generated k hdr names :
  Forall (fun x => ~ mentions LF x) hdr ->
  Forall (fun n => ~ mentions LF n) names ->
  importStatement k ∉ hdr ->
  NoDup names -> k ∈ names ->
  references k (Js.join (String LF EmptyString) (hdr ++ (importLine <$> names))) = 1.
Proof.
  intros Hhdr Hnames Hk Hnd Hin.
  change (references k ?t) with (occurrences (importStatement k) (Js.split LF t)).
  rewrite split_join.
  2:{ destruct names; [set_solver|]. by destruct hdr. }
  rewrite fmap_app, join_app, occurrences_app, split_lines by done.
  rewrite occurrences_generated by done.
  rewrite (occurrences_fmap_once importStatement)
    by (done || apply importStatement_inj).
  apply occurrences_zero in Hk. lia.
Qed.

(** C6 (amended): after the aggregator step, the manifest of the aggregator
    depends on the package of every directory under [packages] other than
    its own whose name is not the name of a member of [Object.prototype],
    with a spec that is not empty: the one it had, or the caret range of the
    version of the package when it had none.  The regenerated [index.ts] is
    made of the first three lines of the former one followed by one generated
    import line for each of these directories, in their order; when the
    package names of these directories are distinct and have no line feed,
    the regenerated [index.ts] references each of them exactly once, unless
    one of the three lines kept is itself this import. *)
Theorem aggregator_synchronized E msgs st st' :
  ensureAllPackages E st = Ok (msgs, st') ->
  exists agg agg' index index',
    (require_cache st !! allPackageJson E = Some agg \/
     (require_cache st !! allPackageJson E = None /\
      exists r, jsonFiles st !! allPackageJson E = Some (Manifest r agg))) /\
    require_cache st' !! allPackageJson E = Some agg' /\
    textFiles st !! indexPath E = Some index /\
    textFiles st' !! indexPath E = Some index' /\
    index' = Js.join (String LF EmptyString)
                     (take 3 (Js.split LF index) ++ (importLine <$> aggregated E st)) /\
    (forall k, k ∈ aggregated E st -> Js.inherited k = false ->
       exists v, dependencies agg' ≫= JsObject.get k = Some v /\ v ≠ EmptyString /\
         (Js.truthy (dependencies agg ≫= JsObject.get k) = true ->
          dependencies agg ≫= JsObject.get k = Some v) /\
         (Js.truthy (dependencies agg ≫= JsObject.get k) = false ->
          exists ref q, JsObject.get k (pkgData st) = Some ref /\
                        require_cache st' !! ref = Some q /\
                        v = "^" +:+ version q)) /\
    (NoDup (aggregated E st) ->
     Forall (fun n => ~ mentions LF n) (aggregated E st) ->
     forall k, k ∈ aggregated E st ->
               importStatement k ∉ take 3 (Js.split LF index) ->
               references k index' = 1).
Proof.
  intros Hrun.
  apply ensureAllPackages_spec in Hrun
    as (agg & deps' & index & Hload & Hidx & Hc & Hx & Hj & Hja & Hmsg & Hnew & Hold &
        Hall & Hsome & Hs & Ht).
  fold (aggregated E st) in *.
  exists agg, (with_field Dependencies deps' agg), index,
    (Js.join (String LF EmptyString)
             (take 3 (Js.split LF index) ++ (importLine <$> aggregated E st))).
  split; [exact Hload|]. split; [rewrite Hc; apply lookup_insert_eq|].
  split; [exact Hidx|]. split; [rewrite Hx; apply lookup_insert_eq|].
  split; [reflexivity|]. split.
  - intros k Hk _. specialize (Hall k Hk). simpl.
    destruct (deps' ≫= JsObject.get k) as [v|] eqn:Hv; [|done].
    exists v. split_and!; try done.
    + intros ->. done.
    + intros Htr. rewrite <- Hv. symmetry. apply Hold. intros [_ ?]. congruence.
    + intros Hf. destruct (Hnew k Hk Hf) as (ref & q & Href & Hq & Hg).
      rewrite Hv in Hg. injection Hg as ->.
      destruct (decide (ref = allPackageJson E)) as [->|Hne].
      * rewrite lookup_insert_eq in Hq. injection Hq as <-.
        eexists _, _. split; [done|]. rewrite Hc, lookup_insert_eq. done.
      * rewrite lookup_insert_ne in Hq by done.
        exists ref, q. rewrite Hc, lookup_insert_ne by done. done.
  - intros Hnd Hlf k Hk Hhdr. apply references_generated; try done.
    apply Forall_take. by destruct (split_Forall LF index) as [_ ?].
Qed.

Lemma aggregator_synchronized_witness :
  Example.Aggregate.sync
  = Ok (Example.value Example.Aggregate.sync [],
        Example.state Example.Aggregate.sync Example.Aggregate.st0) /\
  exists agg' v,
    require_cache (Example.state Example.Aggregate.sync Example.Aggregate.st0)
      !! "/repo/packages/all-packages/package.json" = Some agg' /\
    dependencies agg' ≫= JsObject.get "q" = Some v /\ v ≠ EmptyString.
Proof.
  assert (Example.Aggregate.sync
          = Ok (Example.value Example.Aggregate.sync [],
                Example.state Example.Aggregate.sync Example.Aggregate.st0)) as Hrun
    by (vm_compute; reflexivity).
  split; [exact Hrun|].
  destruct (aggregator_synchronized Example.Aggregate.E _ _ _ Hrun)
    as (agg & agg' & index & index' & _ & Hagg' & _ & _ & _ & Hdeps & _).
  destruct (Hdeps "q") as (v & Hv & Hne & _).
  - vm_compute. apply list_elem_of_further, list_elem_of_here.
  - reflexivity.
  - exists agg', v. split; [exact Hagg'|]. split; [exact Hv|exact Hne].
Defined.

(** The package [demo] of the workspace is under [examples], not under
    [packages]: the aggregator step does not make it a dependency. *)
Lemma aggregator_complete_outside :
  ~ Stated.aggregator_complete Example.Outside.E Example.Outside.st0.
Proof.
  intros H.
  assert (Example.Outside.sync
          = Ok (Example.value Example.Outside.sync [],
                Example.state Example.Outside.sync Example.Outside.st0)) as Hrun
    by (vm_compute; reflexivity).
  destruct (H _ _ Hrun "demo" "/repo/examples/demo/package.json"
              (mkPackage "demo" "0.1.0" (Some []) (Some [])))
    as (agg & index & Hagg & Hdep & _).
  - vm_compute; reflexivity.
  - vm_compute. discriminate.
  - vm_compute; reflexivity.
  - assert (require_cache (Example.state Example.Outside.sync Example.Outside.st0)
              !! allPackageJson Example.Outside.E
            = Some (mkPackage "@jupyterlab/all-packages" "0.1.0"
                              (Some [("q", "^0.1.0")]) (Some []))) as Hagg'
      by (vm_compute; reflexivity).
    rewrite Hagg' in Hagg. injection Hagg as <-.
    destruct Hdep as [v Hv]. discriminate Hv.
Qed.

(** ** Packages without source files *)

Lemma same_keys_is_Some (t t' : JsObject.t string) k :
  t.*1 = t'.*1 -> is_Some (JsObject.get k t) <-> is_Some (JsObject.get k t').
Proof.
  intros Hk. rewrite <- !not_eq_None_Some, !JsFacts.get_None, Hk. done.
Qed.

(** C7 (amended): for a package without source files the validator makes
    the specs consistent, takes the aggregator step when the package is the
    aggregator, and writes the manifest if it changed; it reports no missing
    or unused dependency.  When the package is not the aggregator, it reports
    at most that the package data changed, which it does when it writes the
    manifest, it leaves the other files as they are, and the two tables of
    the package keep their keys and hold the cached spec for each of them;
    this is for the keys that are not the name of a member of
    [Object.prototype]. *)
Theorem no_source_files E pkgName dname st msgs st' :
  JsObject.get pkgName (pkgPaths st) = Some dname ->
  sourceFiles E dname = [] ->
  ensurePackage E pkgName st = Ok (msgs, st') ->
  (forall k, missingMsg k ∉ msgs /\ unusedMsg k ∉ msgs) /\
  exists data d deps devDeps st1 st2 st3 msgs0 changed,
    JsObject.get pkgName (pkgData st) = Some data /\
    require_cache st !! data = Some d /\
    dependencies d = Some deps /\ devDependencies d = Some devDeps /\
    normalize E Dependencies data (JsObject.keys deps) st = Ok (tt, st1) /\
    normalize E DevDependencies data (JsObject.keys devDeps) st1 = Ok (tt, st2) /\
    (if decide (pkgName = "@jupyterlab/all-packages")
     then ensureAllPackages E st2 = Ok (msgs0, st3)
     else msgs0 = [] /\ st3 = st2) /\
    ensurePackageData data (path_join dname "package.json") st3 = Ok (changed, st') /\
    msgs = (if changed then msgs0 ++ ["Package data changed"] else msgs0) /\
    (pkgName ≠ "@jupyterlab/all-packages" ->
     textFiles st' = textFiles st /\
     exists d',
       require_cache st' !! data = Some d' /\
       jsonFiles st' = (if changed
                        then <[path_join dname "package.json" :=
                                 JSON_stringify (sortPackageJson d')]> (jsonFiles st)
                        else jsonFiles st) /\
       forall k, Js.inherited k = false ->
         (is_Some (dependencies d' ≫= JsObject.get k)
          <-> is_Some (dependencies d ≫= JsObject.get k)) /\
         (is_Some (devDependencies d' ≫= JsObject.get k)
          <-> is_Some (devDependencies d ≫= JsObject.get k)) /\
         (forall v, dependencies d' ≫= JsObject.get k = Some v
                    \/ devDependencies d' ≫= JsObject.get k = Some v ->
                    JsObject.get k (seenDeps st') = Some v)).
Proof.
  intros Hdname Hsrc Hrun. split.
  - intros k. split; intros Hk.
    + eapply ensurePackage_messages in Hk
        as [[_ [[k' Hk']|Hk']]|[Hk'|[(k' & dname' & _ & _ & Hdn & Hne)
                                    |(k' & dname' & Hk' & _)]]];
        [done..| |done|exact Hrun].
      rewrite Hdname in Hdn. injection Hdn as <-. done.
    + eapply ensurePackage_messages in Hk
        as [[_ [[k' Hk']|Hk']]|[Hk'|[(k' & dname' & Hk' & _)
                                    |(k' & dname' & _ & _ & Hdn & Hne)]]];
        [done..| |exact Hrun].
      rewrite Hdname in Hdn. injection Hdn as <-. done.
  - apply ensurePackage_Ok in Hrun
      as (dname' & data & d & deps & devDeps & st1 & st2 & st3 & msgs0 &
          Hdname' & Hdata & Hd & Hdeps & Hdev & Hn1 & Hn2 & Hagg & Hfin).
    rewrite Hdname in Hdname'. injection Hdname' as <-.
    destruct Hfin as [(_ & changed & Hch & ->)|(Hne & _)]; [|done].
    exists data, d, deps, devDeps, st1, st2, st3, msgs0, changed.
    do 8 (split; [done|]). split; [done|].
    intros Hname.
    destruct (prepare_spec E data d deps devDeps st st1 st2 Hd Hdeps Hdev Hn1 Hn2)
      as (t1 & t2 & Hc2 & Hk1 & Hk2 & Hv1 & Hv2 & Hg2 & Ht2 & [Hj2 Hx2]).
    rewrite decide_False in Hagg by done. destruct Hagg as [-> ->].
    apply ensurePackageData_Ok in Hch as (d5 & orig & Hd5 & _ & Hch).
    rewrite Hc2, lookup_insert_eq in Hd5. injection Hd5 as <-.
    assert (require_cache st' = require_cache st2 /\ textFiles st' = textFiles st2 /\
            seenDeps st' = seenDeps st2) as (Hc & Hx & Hs).
    { destruct Hch as [(_ & _ & ->)|(_ & _ & ->)]; done. }
    split; [congruence|].
    eexists. split; [rewrite Hc, Hc2; apply lookup_insert_eq|]. split.
    + destruct Hch as [(-> & _ & ->)|(-> & _ & ->)]; [done|]. simpl. by rewrite Hj2.
    + intros k _. simpl. rewrite Hdeps, Hdev. simpl. split_and!.
      * by apply same_keys_is_Some.
      * by apply same_keys_is_Some.
      * rewrite Hs. intros v [Hv|Hv]; auto.
Qed.

Lemma no_source_files_witness :
  Example.Bare.run
  = Ok (Example.value Example.Bare.run [], Example.state Example.Bare.run Example.Bare.st0) /\
  Example.value Example.Bare.run [] = ["Package data changed"] /\
  forall k, missingMsg k ∉ Example.value Example.Bare.run [].
Proof.
  assert (Example.Bare.run
          = Ok (Example.value Example.Bare.run [],
                Example.state Example.Bare.run Example.Bare.st0)) as Hrun
    by (vm_compute; reflexivity).
  split; [exact Hrun|].
  destruct (no_source_files Example.Bare.E "native" "/repo/packages/native" Example.Bare.st0
              (Example.value Example.Bare.run [])
              (Example.state Example.Bare.run Example.Bare.st0))
    as [Hnone _].
  - vm_compute; reflexivity.
  - vm_compute; reflexivity.
  - exact Hrun.
  - split; [vm_compute; reflexivity|]. intros k. apply Hnone.
Defined.

(** The aggregator has no source file, nor a [tsconfig.json]: the aggregator
    step is taken all the same and throws, where making the specs consistent
    and writing the manifest would go through. *)
Lemma no_sources_aggregator :
  ~ Stated.no_sources Example.NoSources.E Example.NoSources.st0 "@jupyterlab/all-packages".
Proof.
  intros H.
  specialize (H "/repo/packages/all-packages"
                ltac:(vm_compute; reflexivity) ltac:(vm_compute; reflexivity)).
  assert (ensurePackage Example.NoSources.E "@jupyterlab/all-packages" Example.NoSources.st0
          = Throw (ModuleNotFound "/repo/packages/all-packages/tsconfig.json")) as Hthrow
    by (vm_compute; reflexivity).
  assert (Example.value
            (Stated.normalizeAndPersist Example.NoSources.E "@jupyterlab/all-packages"
                                        Example.NoSources.st0) ["none"]
          = []) as Hok by (vm_compute; reflexivity).
  rewrite <- H, Hthrow in Hok. discriminate Hok.
Qed.

(** ** The order of the validation *)

Lemma filter_ext_elem {A} (P1 P2 : A -> Prop)
      `{!forall x, Decision (P1 x), !forall x, Decision (P2 x)} (l : list A) :
  (forall x, x ∈ l -> P1 x <-> P2 x) -> filter P1 l = filter P2 l.
Proof.
  induction l as [|a l IH]; intros Hiff; [done|].
  rewrite !filter_cons. rewrite IH by set_solver.
  destruct (decide (P1 a)) as [H1|H1], (decide (P2 a)) as [H2|H2]; try done.
  - apply Hiff in H1; [done|set_solver].
  - apply Hiff in H2; [done|set_solver].
Qed.

Lemma uniq_acc_NoDup (l acc : list string) :
  NoDup l ->
  fold_left (fun acc x => if decide (x ∈ acc) then acc else acc ++ [x]) l acc
  = acc ++ filter (fun x => x ∉ acc) l.
Proof.
  revert acc. induction l as [|x l IH]; intros acc Hnd; simpl.
  - by rewrite app_nil_r.
  - apply NoDup_cons in Hnd as [Hx Hnd]. rewrite filter_cons.
    destruct (decide (x ∈ acc)) as [Hin|Hin].
    + rewrite decide_False by tauto. by apply IH.
    + rewrite decide_True by done. rewrite IH by done. rewrite <- app_assoc. simpl.
      do 2 f_equal. apply filter_ext_elem. intros y Hy. set_solver.
Qed.

Lemma uniq_NoDup (l : list string) : NoDup l -> Js.uniq l = l.
Proof.
  intros Hnd. unfold Js.uniq. rewrite uniq_acc_NoDup by done. simpl.
  apply filter_all. set_solver.
Qed.

Section order.
Variable E : Env.

(** The keys of the report: those of the initial report, then the packages
    with findings, in the order of the loop. *)
Lemma validate_fold_keys names messages report st st' :
  foldM (validateStep E) messages names st = Ok (report, st') ->
  exists found,
    sublist found names /\
    report.*1 = fold_left (fun acc x => if decide (x ∈ acc) then acc else acc ++ [x])
                          found (messages.*1).
Proof.
  revert messages st. induction names as [|n names IH]; intros messages st Hrun.
  - apply ret_Ok in Hrun as [-> ->]. exists []. done.
  - simpl in Hrun. apply bind_Ok in Hrun as (messages1 & st1 & Hstep & Hrun).
    apply bind_Ok in Hstep as (pkgMessages & st1' & Hpkg & Hret).
    apply ret_Ok in Hret as [-> <-].
    apply IH in Hrun as (found & Hsub & Hkeys).
    destruct (decide (0 < List.length pkgMessages)).
    + exists (n :: found). split; [by apply sublist_skip|].
      rewrite Hkeys. simpl. by rewrite set_fst.
    + exists found. split; [by apply sublist_cons|done].
Qed.

Lemma ownKeys_NoDup ks : NoDup ks -> NoDup (Js.ownKeys ks).
Proof. intros H. by rewrite JsFacts.ownKeys_Permutation. Qed.
End order.

(** C8 (amended): in a workspace whose package manifests are named, the
    packages are validated in the order in which the table of the packages
    enumerates their names: the names whose manifest could be loaded, in the
    order of the directories of the lerna configuration, each at its first
    occurrence (names that are array indices come first).  The keys of the
    report other than [top] follow this order. *)
Theorem validation_order E json text report st' :
  wellNamed E json = true ->
  ensureIntegrity E (initial json text) = Ok (report, st') ->
  let order := Js.ownKeys (Js.uniq (omap (manifestName json) (lernaPaths E))) in
  JsObject.keys (pkgData st') = order /\
  (exists top st2,
     (forEach (lernaPaths E) loadPackage ;;; ensureTop E) (initial json text) = Ok (top, st2) /\
     foldM (validateStep E)
           (match top with Some m => [("top", TopMessage m)] | None => [] end)
           order st2 = Ok (report, st')) /\
  sublist (filter (fun k => k ≠ "top") report.*1) order.
Proof.
  intros _ Hrun order.
  apply ensureIntegrity_Ok in Hrun as (st1 & top & st2 & Hload & Htop & Hval).
  destruct (initial_ok json text) as [Hcok Htok].
  pose proof Hload as Hload'.
  apply loadPackages_spec in Hload' as (_ & _ & _ & _ & _ & Hkeys); [|done..].
  simpl in Hkeys. fold (Js.uniq (omap (manifestName json) (lernaPaths E))) in Hkeys.
  pose proof Htop as Htop'. apply ensureTop_frame in Htop' as (_ & (Hpd2 & _) & _).
  assert (JsObject.keys (pkgData st2) = order) as Horder.
  { unfold JsObject.keys. rewrite Hpd2, Hkeys. rewrite uniq_NoDup; [done|].
    apply JsFacts.NoDup_uniq. }
  unfold validatePackages in Hval.
  apply bind_Ok in Hval as (names & st0 & Hnames & Hval).
  apply gets_Ok in Hnames as [-> ->]. rewrite Horder in Hval.
  pose proof Hval as Hval'.
  apply validate_fold_spec in Hval' as ((Hpd & _) & _).
  split_and!.
  - by rewrite Hpd.
  - exists top, st2. split; [|done]. apply bind_Ok. exists tt, st1. done.
  - apply validate_fold_keys in Hval as (found & Hsub & Hkeys').
    assert (NoDup found) as Hnd.
    { eapply sublist_NoDup; [|exact Hsub]. apply ownKeys_NoDup, JsFacts.NoDup_uniq. }
    rewrite Hkeys', uniq_acc_NoDup by done. rewrite filter_app.
    assert (filter (fun k : string => k ≠ "top")
                   (match top with Some m => [("top", TopMessage m)] | None => [] end).*1 = [])
      as -> by (by destruct top).
    simpl. etrans; [apply sublist_filter|]. etrans; [apply sublist_filter|]. done.
Qed.

Lemma validation_order_witness :
  Example.Order.run
  = Ok (Example.value Example.Order.run [],
        Example.state Example.Order.run Example.Order.st0) /\
  JsObject.keys (pkgData (Example.state Example.Order.run Example.Order.st0))
  = ["zebra"; "apple"].
Proof.
  assert (Example.Order.run
          = Ok (Example.value Example.Order.run [],
                Example.state Example.Order.run Example.Order.st0)) as Hrun
    by (vm_compute; reflexivity).
  split; [exact Hrun|].
  destruct (validation_order Example.Order.E Example.Order.json Example.Order.text _ _
              ltac:(vm_compute; reflexivity) Hrun)
    as (Hkeys & _).
  rewrite Hkeys. vm_compute. reflexivity.
Defined.

(** The directories [a] and [b] hold the packages [zebra] and [apple]:
    [zebra] is validated first. *)
Lemma name_order_directories :
  ~ Stated.name_order Example.Order.E Example.Order.json Example.Order.text.
Proof.
  intros H.
  assert (Example.Order.run
          = Ok (Example.value Example.Order.run [],
                Example.state Example.Order.run Example.Order.st0)) as Hrun
    by (vm_compute; reflexivity).
  specialize (H _ _ Hrun).
  assert (filter (fun k => k ≠ "top") (Example.value Example.Order.run []).*1
          = ["zebra"; "apple"]) as Hkeys by (vm_compute; reflexivity).
  rewrite Hkeys in H. apply StronglySorted_inv in H as [_ Hall].
  apply Forall_inv in Hall. discriminate Hall.
Qed.

(** ** The top level manifest *)

Lemma lastDeclared_is_Some st k ps p :
  p ∈ ps -> is_Some (declared st p k) -> is_Some (lastDeclared st k ps).
Proof.
  induction ps as [|p' ps IH]; [set_solver|]. intros Hp Hdecl. simpl.
  destruct (lastDeclared st k ps) eqn:Hl; [eauto|].
  apply elem_of_cons in Hp as [->|Hp]; [done|].
  destruct (IH Hp Hdecl) as [? ?]. done.
Qed.

(** C9 (amended): after [ensureTop], for every package of a directory under
    [packages] and every key of its devDependencies, the devDependencies of
    the top level manifest have this key, with the spec that the last of
    these packages that declares it gives, as it is declared (the specs have
    not been made consistent at this point).  The top level manifest is
    taken not to be one of these packages. *)
Theorem top_devDependencies E m st st' :
  ensureTop E st = Ok (m, st') ->
  (forall p, p ∈ localPackages E ->
             JsObject.get (nameOf st p) (pkgData st) ≠ Some (topJson E)) ->
  exists top,
    require_cache st' !! topJson E = Some top /\
    forall pkgPath data d devDeps k,
      pkgPath ∈ localPackages E ->
      JsObject.get (nameOf st pkgPath) (pkgData st) = Some data ->
      require_cache st !! data = Some d ->
      devDependencies d = Some devDeps ->
      k ∈ devDeps.*1 ->
      exists v, devDependencies top ≫= JsObject.get k = Some v /\
                lastDeclared st k (localPackages E) = Some v.
Proof.
  intros Hrun Halias. unfold ensureTop in Hrun. fold (topJson E) in Hrun.
  apply bind_Ok in Hrun as (localData & st1 & Hreq & Hrun).
  apply require_Ok in Hreq as [-> Hreq].
  apply bind_Ok in Hrun as ([] & st2 & Hloop & Hrun).
  apply bind_Ok in Hrun as (changed & st3 & Hdata & Hrun).
  apply ret_Ok in Hrun as [_ ->].
  assert (exists root, require_cache st1 = <[topJson E := root]> (require_cache st) /\
                       same_tables st st1) as (root & Hc1 & Ht1).
  { destruct Hreq as [[[root Hroot] ->]|(Hnone & r & root & Hj & ->)].
    - exists root. by rewrite insert_id.
    - exists root. done. }
  assert (forall p k, p ∈ localPackages E -> declared st1 p k = declared st p k) as Hdecl.
  { intros p k Hp. unfold declared, nameOf. destruct Ht1 as (-> & _ & ->).
    destruct (JsObject.get _ (pkgData st)) as [data|] eqn:Hget; [|done]. simpl.
    rewrite Hc1, lookup_insert_ne; [done|]. intros <-. by apply (Halias p). }
  eapply hoistLoop_spec in Hloop as (rd' & Hc2 & Hrd & Hs2 & Ht2 & Hd2).
  2:{ rewrite Hc1. apply lookup_insert_eq. }
  2:{ intros p Hp. unfold nameOf. destruct Ht1 as (-> & _ & ->). by apply Halias. }
  assert (require_cache st3 = require_cache st2) as Hc3.
  { apply ensurePackageData_Ok in Hdata as (d & orig & _ & _ & Hdata).
    destruct Hdata as [(_ & _ & ->)|(_ & _ & ->)]; done. }
  exists (with_field DevDependencies rd' root). split.
  - rewrite Hc3, Hc2. apply lookup_insert_eq.
  - intros pkgPath data d devDeps k Hp Hdata0 Hd Hdev Hk.
    assert (lastDeclared st1 k (localPackages E) = lastDeclared st k (localPackages E)) as Hlast.
    { clear -Hdecl. induction (localPackages E) as [|p ps IH]; [done|]. simpl.
      rewrite IH by set_solver. rewrite Hdecl by set_solver. done. }
    destruct (lastDeclared_is_Some st k (localPackages E) pkgPath Hp) as [v Hv].
    { unfold declared. rewrite Hdata0. simpl. rewrite Hd. simpl. rewrite Hdev. simpl.
      by apply JsFacts.elem_get_Some. }
    exists v. split; [|done]. simpl. rewrite Hrd, Hlast, Hv. done.
Qed.

Lemma top_devDependencies_witness :
  Example.Hoist.top
  = Ok (Example.value Example.Hoist.top None, Example.Hoist.st1) /\
  exists top v,
    require_cache Example.Hoist.st1 !! "/repo/package.json" = Some top /\
    devDependencies top ≫= JsObject.get "typescript" = Some v /\
    lastDeclared Example.Hoist.st0 "typescript" (localPackages Example.Hoist.E) = Some v.
Proof.
  assert (Example.Hoist.top = Ok (Example.value Example.Hoist.top None, Example.Hoist.st1))
    as Hrun by (vm_compute; reflexivity).
  split; [exact Hrun|].
  destruct (top_devDependencies Example.Hoist.E _ _ _ Hrun) as (top & Htop & Hall).
  - intros p Hp Heq. revert Hp Heq. vm_compute. intros Hp Heq.
    apply list_elem_of_singleton in Hp. subst p. discriminate Heq.
  - destruct (Hall "/repo/packages/p" "/repo/packages/p/package.json"
                   (mkPackage "p" "0.1.0" (Some []) (Some [("typescript", "^2.3.0")]))
                   [("typescript", "^2.3.0")] "typescript") as (v & Hv & Hlast).
    + vm_compute. apply list_elem_of_here.
    + vm_compute; reflexivity.
    + vm_compute; reflexivity.
    + reflexivity.
    + apply list_elem_of_here.
    + exists top, v. split; [exact Htop|]. split; [exact Hv|exact Hlast].
Defined.

(** The package [p] declares [typescript] at a caret range and the version
    lookup gives a tilde range: the top level manifest gets the caret
    range. *)
Lemma top_canonical_declared :
  ~ Stated.top_canonical Example.Hoist.E Example.Hoist.st0.
Proof.
  intros H.
  assert (Example.Hoist.top = Ok (Example.value Example.Hoist.top None, Example.Hoist.st1))
    as Hrun by (vm_compute; reflexivity).
  destruct (H _ _ Hrun "/repo/packages/p" "/repo/packages/p/package.json"
              (mkPackage "p" "0.1.0" (Some []) (Some [("typescript", "^2.3.0")]))
              [("typescript", "^2.3.0")] "typescript") as (top & Htop & _ & Hcanon).
  - vm_compute. apply list_elem_of_here.
  - vm_compute; reflexivity.
  - vm_compute; reflexivity.
  - reflexivity.
  - apply list_elem_of_here.
  - assert (require_cache Example.Hoist.st1 !! topJson Example.Hoist.E
            = Some (mkPackage "top" "0.0.0" (Some []) (Some [("typescript", "^2.3.0")])))
      as Htop' by (vm_compute; reflexivity).
    rewrite Htop' in Htop. injection Htop as <-.
    revert Hcanon. vm_compute. discriminate.
Qed.

(** ** devDependencies *)




(** * Further properties of the script *)

(** ** The walk over a syntax tree *)

(** Induction on a tree with the property at hand for all the children. *)
Lemma Node_children_ind (P : Node -> Prop) :
  (forall text cs, Forall P cs -> P (ImportDeclaration text cs)) ->
  (forall r cs, Forall P cs -> P (ImportEqualsDeclaration r cs)) ->
  (forall cs, Forall P cs -> P (OtherKind cs)) ->
  forall node, P node.
Proof.
  intros Himport Hequals Hother. fix IH 1. intros [text cs|r cs|cs].
  - apply Himport. induction cs as [|c cs IHcs]; constructor; [apply IH|apply IHcs].
  - apply Hequals. induction cs as [|c cs IHcs]; constructor; [apply IH|apply IHcs].
  - apply Hother. induction cs as [|c cs IHcs]; constructor; [apply IH|apply IHcs].
Qed.

Lemma walkChildren_spec cs imports :
  Forall walked cs ->
  walkChildren cs imports
  = if entityImportBelow cs then Throw TypeError else Ok (imports ++ specifiersBelow cs).
Proof.
  intros Hcs. revert imports. induction Hcs as [|c cs Hc _ IH]; intros imports; simpl.
  - by rewrite app_nil_r.
  - rewrite Hc. destruct (entityImport c); simpl; [done|].
    rewrite IH. destruct (entityImportBelow cs); [done|]. by rewrite app_assoc.
Qed.

Lemma handleNode_spec node : walked node.
Proof.
  induction node as [text cs IH|r cs IH|cs IH] using Node_children_ind; intros imports.
  - change (handleNode (ImportDeclaration text cs) imports)
      with (walkChildren cs (imports ++ [text])).
    rewrite walkChildren_spec by done.
    change (entityImport (ImportDeclaration text cs)) with (entityImportBelow cs).
    change (specifiers (ImportDeclaration text cs)) with (text :: specifiersBelow cs).
    destruct (entityImportBelow cs); [done|]. by rewrite <- app_assoc.
  - destruct r as [text|].
    + change (handleNode (ImportEqualsDeclaration (ExternalModuleReference text) cs) imports)
        with (walkChildren cs (imports ++ [text])).
      rewrite walkChildren_spec by done.
      change (entityImport (ImportEqualsDeclaration (ExternalModuleReference text) cs))
        with (entityImportBelow cs).
      change (specifiers (ImportEqualsDeclaration (ExternalModuleReference text) cs))
        with (text :: specifiersBelow cs).
      destruct (entityImportBelow cs); [done|]. by rewrite <- app_assoc.
    + done.
  - change (handleNode (OtherKind cs) imports) with (walkChildren cs imports).
    rewrite walkChildren_spec by done.
    change (entityImport (OtherKind cs)) with (entityImportBelow cs).
    change (specifiers (OtherKind cs)) with (specifiersBelow cs).
    done.
Qed.

(** X1: [getImports] gives the module specifiers of the import declarations
    and of the import-equals declarations with an external module reference,
    in the order of the text, a declaration before what is below it; when the
    tree holds an import-equals declaration whose reference is an entity
    name, it throws a [TypeError] and gives nothing.  What has been collected
    before the walk of a node is kept in front. *)
Theorem getImports_listing (sourceFile : Node) :
  getImports sourceFile
  = (if entityImport sourceFile then Throw TypeError else Ok (specifiers sourceFile)) /\
  (forall imports found,
     handleNode sourceFile imports = Ok found ->
     found = imports ++ specifiers sourceFile /\ getImports sourceFile = Ok (specifiers sourceFile)) /\
  (forall imports e,
     handleNode sourceFile imports = Throw e ->
     e = TypeError /\ entityImport sourceFile = true /\ getImports sourceFile = Throw TypeError).
Proof.
  unfold getImports. split; [|split].
  - apply handleNode_spec.
  - intros imports found. rewrite !handleNode_spec.
    destruct (entityImport sourceFile); [done|]. by intros [= <-].
  - intros imports e. rewrite !handleNode_spec.
    destruct (entityImport sourceFile); [|done]. by intros [= <-].
Qed.

(** ** Reading the sources *)

Section sources.
Variable E : Env.

Lemma collectImports_result filenames acc st :
  match foldM (fun imports fileName =>
                 text <- readFileSync fileName ;;
                 match getImports (createSourceFile E text) with
                 | Ok found => ret (imports ++ found)
                 | Throw e => throw e
                 end) acc filenames st with
  | Ok (imports, st') =>
      st' = st /\
      exists texts,
        Forall2 (fun f t => textFiles st !! f = Some t) filenames texts /\
        Forall (fun t => entityImport (createSourceFile E t) = false) texts /\
        imports = acc ++ mjoin ((fun t => specifiers (createSourceFile E t)) <$> texts)
  | Throw e =>
      (exists f, f ∈ filenames /\ textFiles st !! f = None /\ e = ENOENT f) \/
      (e = TypeError /\
       exists f t, f ∈ filenames /\ textFiles st !! f = Some t /\
                   entityImport (createSourceFile E t) = true)
  end.
Proof.
  revert acc. induction filenames as [|f fs IH]; intros acc.
  - simpl. split; [done|]. exists []. split; [constructor|]. split; [constructor|].
    by rewrite app_nil_r.
  - cbn [foldM]. unfold bind at 1. unfold bind at 1. unfold readFileSync at 1.
    destruct (textFiles st !! f) as [t|] eqn:Hf.
    2:{ unfold throw. cbv beta iota. left. exists f. split; [apply elem_of_cons; by left|done]. }
    assert (getImports (createSourceFile E t)
            = if entityImport (createSourceFile E t) then Throw TypeError
              else Ok (specifiers (createSourceFile E t))) as Hget
      by exact (handleNode_spec (createSourceFile E t) []).
    rewrite Hget.
    destruct (entityImport (createSourceFile E t)) eqn:Hent.
    { unfold throw. cbv beta iota. right. split; [done|]. exists f, t. split; [apply elem_of_cons; by left|done]. }
    unfold ret at 1.
    specialize (IH (acc ++ specifiers (createSourceFile E t))).
    revert IH.
    destruct (foldM _ (acc ++ specifiers (createSourceFile E t)) fs st) as [[imports st']|e];
      intros IH.
    + destruct IH as (-> & texts & Hread & Hok & ->). cbv beta iota. split; [done|].
      exists (t :: texts). split; [by constructor|]. split; [by constructor|].
      simpl. by rewrite app_assoc.
    + cbv beta iota.
      destruct IH as [(f' & Hf' & Hnone & ->)|(-> & f' & t' & Hf' & Hsome & Hent')].
      * left. exists f'. split; [apply elem_of_cons; by right|done].
      * right. split; [done|]. exists f', t'. split; [apply elem_of_cons; by right|done].
Qed.

End sources.

(** X19: [ensurePackage] reads its sources without changing anything: when
    the reading returns, the imports are the module specifiers of the files,
    file after file in the order of the list, every file as [getImports]
    lists it, and no file holds an import-equals declaration with an entity
    name; when it throws a [TypeError], a file of the list holds such a
    declaration. *)
Theorem collectImports_reads E filenames st :
  match collectImports E filenames st with
  | Ok (imports, st') =>
      st' = st /\
      exists texts,
        Forall2 (fun f t => textFiles st !! f = Some t) filenames texts /\
        Forall (fun t => entityImport (createSourceFile E t) = false) texts /\
        imports = mjoin ((fun t => specifiers (createSourceFile E t)) <$> texts)
  | Throw TypeError =>
      exists f t, f ∈ filenames /\ textFiles st !! f = Some t /\
                  entityImport (createSourceFile E t) = true
  | Throw _ => True
  end.
Proof.
  assert (match collectImports E filenames st with
          | Ok (imports, st') =>
              st' = st /\
              exists texts,
                Forall2 (fun f t => textFiles st !! f = Some t) filenames texts /\
                Forall (fun t => entityImport (createSourceFile E t) = false) texts /\
                imports = mjoin ((fun t => specifiers (createSourceFile E t)) <$> texts)
          | Throw e =>
              (exists f, f ∈ filenames /\ textFiles st !! f = None /\ e = ENOENT f) \/
              (e = TypeError /\
               exists f t, f ∈ filenames /\ textFiles st !! f = Some t /\
                           entityImport (createSourceFile E t) = true)
          end) as H by apply (collectImports_result E filenames [] st).
  destruct (collectImports E filenames st) as [[imports st']|e]; [exact H|].
  destruct e; try exact I.
  destruct H as [(f & _ & _ & Hf)|[_ H]]; [discriminate Hf|exact H].
Qed.

(** ** Writing a manifest *)

(** X2: [ensurePackageData] answers [true] exactly when it changes the file;
    either way the file then holds the text written for the manifest object,
    no other file and none of the tables is touched, every manifest object
    keeps its specs, and a second call answers [false] and writes nothing. *)
Theorem ensurePackageData_settles data file changed st st' :
  ensurePackageData data file st = Ok (changed, st') ->
  exists d,
    require_cache st !! data = Some d /\
    jsonFiles st' !! file = Some (JSON_stringify (sortPackageJson d)) /\
    (changed = true <-> jsonFiles st' !! file ≠ jsonFiles st !! file) /\
    (changed = false -> jsonFiles st' = jsonFiles st) /\
    (forall p, p ≠ file -> jsonFiles st' !! p = jsonFiles st !! p) /\
    (forall ref d0, require_cache st !! ref = Some d0 ->
       exists d1, require_cache st' !! ref = Some d1 /\
         forall k, Js.inherited k = false ->
           dependencies d1 ≫= JsObject.get k = dependencies d0 ≫= JsObject.get k /\
           devDependencies d1 ≫= JsObject.get k = devDependencies d0 ≫= JsObject.get k) /\
    textFiles st' = textFiles st /\
    seenDeps st' = seenDeps st /\ same_tables st st' /\
    exists st'', ensurePackageData data file st' = Ok (false, st'') /\
                 jsonFiles st'' = jsonFiles st'.
Proof.
  intros (d & orig & Hd & Horig & Hcase)%ensurePackageData_Ok. exists d.
  destruct Hcase as [(-> & Heq & ->)|(-> & Hne & ->)].
  - split; [done|]. split; [by rewrite Horig, Heq|].
    split; [split; [done|intros Hdiff; by destruct Hdiff]|].
    do 2 (split; [done|]). split; [intros ref d0 Hd0; by exists d0|].
    do 3 (split; [done|]). exists st. split; [|done].
    apply ensurePackageData_Ok. exists d, orig. split; [done|]. split; [done|]. by left.
  - simpl. split; [done|]. split; [by rewrite lookup_insert_eq|].
    split; [split; [intros _|done]; rewrite lookup_insert_eq, Horig; congruence|].
    split; [done|]. split; [intros p Hp; by rewrite lookup_insert_ne|].
    split; [intros ref d0 Hd0; by exists d0|].
    do 3 (split; [done|]).
    exists (set_jsonFiles (insert file (JSON_stringify (sortPackageJson d))) st).
    split; [|done].
    apply ensurePackageData_Ok. exists d, (JSON_stringify (sortPackageJson d)).
    simpl. rewrite lookup_insert_eq. split; [done|]. split; [done|]. by left.
Qed.

Lemma ensurePackageData_settles_witness :
  exists d st',
    ensurePackageData "/repo/packages/native/package.json" "/repo/packages/native/package.json"
                      Example.Bare.st0 = Ok (false, st') /\
    require_cache Example.Bare.st0 !! "/repo/packages/native/package.json" = Some d /\
    jsonFiles st' !! "/repo/packages/native/package.json"
    = Some (JSON_stringify (sortPackageJson d)).
Proof.
  destruct (ensurePackageData_settles
              "/repo/packages/native/package.json" "/repo/packages/native/package.json"
              false Example.Bare.st0 Example.Bare.st0)
    as (d & Hd & Hfile & _); [vm_compute; reflexivity|].
  exists d, Example.Bare.st0. split; [vm_compute; reflexivity|]. done.
Defined.

(** X3: the manifest that [ensurePackageData] has written is read back, by
    a process that has not loaded it yet, with the name, the version and the
    specs of the manifest object, and it is in the written form already: the
    process finds nothing to write. *)
Theorem written_manifest_reloads data file changed st st' s2 :
  ensurePackageData data file st = Ok (changed, st') ->
  require_cache s2 !! file = None ->
  jsonFiles s2 !! file = jsonFiles st' !! file ->
  exists d d2,
    require_cache st !! data = Some d /\
    (ref <- require file ;; ensurePackageData ref file) s2
    = Ok (false, set_require_cache (insert file d2) s2) /\
    name d2 = name d /\ version d2 = version d /\
    (forall k, dependencies d2 ≫= JsObject.get k = dependencies d ≫= JsObject.get k) /\
    (forall k, devDependencies d2 ≫= JsObject.get k = devDependencies d ≫= JsObject.get k).
Proof.
  intros (d & orig & Hd & Horig & Hcase)%ensurePackageData_Ok Hnew Hfile.
  assert (jsonFiles st' !! file = Some (JSON_stringify (sortPackageJson d))) as Hwritten.
  { destruct Hcase as [(-> & Heq & ->)|(-> & Hne & ->)].
    - by rewrite Horig, Heq.
    - simpl. by rewrite lookup_insert_eq. }
  rewrite Hwritten in Hfile.
  destruct (JSON_stringify (sortPackageJson d)) as [r d2|] eqn:Hd2; [|done].
  exists d, d2. split; [done|]. split; [|].
  - apply bind_Ok. exists file, (set_require_cache (insert file d2) s2). split.
    + apply require_Ok. split; [done|]. right. split; [done|]. by exists r, d2.
    + apply ensurePackageData_Ok. exists d2, (Manifest r d2). simpl.
      rewrite lookup_insert_eq. split_and!; try done.
      left. split_and!; try done. by eapply stringify_reloaded.
  - unfold JSON_stringify, sortPackageJson in Hd2. simpl in Hd2. injection Hd2 as <- <-.
    simpl. split_and!; try done.
    + intros k. destruct (dependencies d) as [t|]; simpl; [|done].
      by rewrite get_entries, get_sortObject.
    + intros k. destruct (devDependencies d) as [t|]; simpl; [|done].
      by rewrite get_entries, get_sortObject.
Qed.

Lemma written_manifest_reloads_witness :
  exists d2,
    (ref <- require "/repo/packages/A/package.json" ;;
     ensurePackageData ref "/repo/packages/A/package.json")
      (initial (jsonFiles (Example.state Example.Two.runA Example.Two.st0))
               (textFiles (Example.state Example.Two.runA Example.Two.st0)))
    = Ok (false,
          set_require_cache (insert "/repo/packages/A/package.json" d2)
            (initial (jsonFiles (Example.state Example.Two.runA Example.Two.st0))
                     (textFiles (Example.state Example.Two.runA Example.Two.st0)))) /\
    dependencies d2 ≫= JsObject.get "lodash" = Some "^4.17.4".
Proof.
  destruct (written_manifest_reloads
              "/repo/packages/A/package.json" "/repo/packages/A/package.json" false
              (Example.state Example.Two.runA Example.Two.st0)
              (Example.state Example.Two.runA Example.Two.st0)
              (initial (jsonFiles (Example.state Example.Two.runA Example.Two.st0))
                       (textFiles (Example.state Example.Two.runA Example.Two.st0))))
    as (d & d2 & Hd & Hrun & _ & _ & Hdeps & _).
  - vm_compute; reflexivity.
  - vm_compute; reflexivity.
  - reflexivity.
  - exists d2. split; [exact Hrun|]. rewrite Hdeps.
    assert (require_cache (Example.state Example.Two.runA Example.Two.st0)
              !! "/repo/packages/A/package.json"
            = Some (mkPackage "A" "0.1.0" (Some [("lodash", "^4.17.4")]) (Some []))) as Hobj
      by (vm_compute; reflexivity).
    rewrite Hobj in Hd. injection Hd as <-. reflexivity.
Defined.

(** ** The version cache *)

(** X4: a name that is not the name of a member of [Object.prototype] is
    looked up with [getDependency] once: after [seenDep] has given a spec for
    the name, it gives the same spec again and leaves the state as it is,
    whatever [getDependency] would answer now; the specs that the cache held
    are kept, and nothing but the cache is touched. *)
Theorem seenDep_memoized E k v st st' :
  Js.inherited k = false ->
  seenDep E k st = Ok (v, st') ->
  (forall E', seenDep E' k st' = Ok (v, st')) /\
  (forall k' v', JsObject.get k' (seenDeps st) = Some v' ->
                 JsObject.get k' (seenDeps st') = Some v') /\
  (forall k', k' ≠ k -> JsObject.get k' (seenDeps st') = JsObject.get k' (seenDeps st)) /\
  (JsObject.get k (seenDeps st) = None -> getDependency E k = Some v) /\
  require_cache st' = require_cache st /\ same_tables st st' /\ same_disk st st'.
Proof.
  intros _ [[Hk ->]|(Hk & Hget & ->)]%seenDep_Ok.
  - split_and!; try done.
    + intros E'. apply seenDep_Ok. by left.
    + congruence.
  - simpl. split_and!; try done.
    + intros E'. apply seenDep_Ok. left. simpl. by rewrite JsFacts.get_set_eq.
    + intros k' v' Hk'. rewrite JsFacts.get_set.
      destruct (decide (k = k')) as [<-|]; [congruence|done].
    + intros k' Hne. by rewrite JsFacts.get_set_ne.
Qed.

Lemma seenDep_memoized_witness :
  exists st',
    seenDep Example.Two.E "lodash" Example.Two.st0 = Ok ("^4.17.4", st') /\
    seenDep Example.Hoist.E "lodash" st' = Ok ("^4.17.4", st').
Proof.
  exists (set_seenDeps (JsObject.set "lodash" "^4.17.4") Example.Two.st0).
  assert (seenDep Example.Two.E "lodash" Example.Two.st0
          = Ok ("^4.17.4", set_seenDeps (JsObject.set "lodash" "^4.17.4") Example.Two.st0))
    as Hrun by (vm_compute; reflexivity).
  split; [exact Hrun|].
  destruct (seenDep_memoized _ "lodash" _ _ _ eq_refl Hrun) as [Hagain _]. apply Hagain.
Defined.

(** ** Every write is reported *)

Section writes.
Variable E : Env.

(** The steps of the aggregator that write, and what they report. *)
Lemma ensureAllPackages_steps msgs st st' :
  ensureAllPackages E st = Ok (msgs, st') ->
  exists (index : string) (added : list string) (changed : bool),
    textFiles st !! indexPath E = Some index /\
    (forall m, m ∈ added -> exists k, m = "Updated: " +:+ k) /\
    let newIndex := Js.join (String LF EmptyString)
                      (take 3 (Js.split LF index) ++ (importLine <$> aggregated E st)) in
    msgs = added ++ (if changed then ["Package data changed"] else [])
                 ++ (if decide (newIndex = index) then [] else ["Index changed"]) /\
    textFiles st' = (if decide (newIndex = index) then textFiles st
                     else <[indexPath E := newIndex]> (textFiles st)) /\
    (changed = true <-> jsonFiles st' !! allPackageJson E ≠ jsonFiles st !! allPackageJson E) /\
    (forall p, p ≠ allPackageJson E -> jsonFiles st' !! p = jsonFiles st !! p).
Proof.
  intros Hrun. unfold ensureAllPackages in Hrun.
  apply bind_Ok in Hrun as (ref & st1 & Hreq & Hrun).
  apply require_Ok in Hreq as [-> Hreq].
  apply bind_Ok in Hrun as ([] & st2 & Hts & Hrun).
  apply requireJson_Ok in Hts as [_ ->].
  apply bind_Ok in Hrun as (index & st2 & Hidx & Hrun).
  apply readFileSync_Ok in Hidx as [Hidx ->].
  apply bind_Ok in Hrun as ([lines msgs1] & st2 & Hloop & Hrun).
  apply bind_Ok in Hrun as (changed & st3 & Hdata & Hrun).
  assert (exists agg, require_cache st1 !! allPackageJson E = Some agg /\
                      same_tables st st1 /\ same_disk st st1)
    as (agg & Hagg & Ht1 & [Hj1 Hx1]).
  { destruct Hreq as [[[agg Hagg] ->]|(Hnone & r & agg & Hj & ->)].
    - by exists agg.
    - exists agg. simpl. by rewrite lookup_insert_eq. }
  eapply allPackagesStep_spec in Hloop
    as (deps' & added & Hc2 & -> & -> & Hmsg & _ & _ & _ & _ & _ & _ & [Hj2 Hx2]); [|done].
  assert (nameOf st1 = nameOf st) as Hnm.
  { unfold nameOf. destruct Ht1 as (_ & _ & ->). done. }
  rewrite Hnm in *.
  apply ensurePackageData_Ok in Hdata as (d & orig & Hd & Horig & Hdata).
  assert (textFiles st3 = textFiles st /\
          (changed = true <-> jsonFiles st3 !! allPackageJson E ≠ jsonFiles st !! allPackageJson E) /\
          (forall p, p ≠ allPackageJson E -> jsonFiles st3 !! p = jsonFiles st !! p))
    as (Hx3 & Hch & Hj3).
  { rewrite <- Hj1, <- Hj2, <- Hx1, <- Hx2.
    destruct Hdata as [(-> & Heq & ->)|(-> & Hne & ->)].
    - split; [done|]. split; [|done]. split; [done|]. intros Hdiff. by destruct Hdiff.
    - simpl. split; [done|]. split.
      + split; [intros _|done]. rewrite lookup_insert_eq, Horig. congruence.
      + intros p Hp. by rewrite lookup_insert_ne. }
  exists index, added, changed. rewrite Hx1 in Hidx. split; [done|]. split.
  { intros m Hm. destruct (Hmsg m Hm) as (k & _ & ->). eauto. }
  unfold aggregated. simpl.
  destruct (decide _) as [Heq|Hne] in Hrun.
  - apply ret_Ok in Hrun as [-> ->]. rewrite !decide_True by done.
    split; [destruct changed; by rewrite ?app_nil_r|].
    split; [exact Hx3|]. split; [exact Hch|exact Hj3].
  - apply bind_Ok in Hrun as ([] & st4 & Hw & Hrun). apply ret_Ok in Hrun as [-> ->].
    apply writeFileSync_Ok in Hw as ->. rewrite !decide_False by done. simpl.
    split; [destruct changed; by rewrite <- ?app_assoc, ?app_nil_r|].
    split; [by rewrite Hx3|]. split; [exact Hch|exact Hj3].
Qed.

Lemma ensureAllPackages_silent st st' :
  ensureAllPackages E st = Ok ([], st') -> same_disk st st'.
Proof.
  intros (index & added & changed & _ & _ & Hmsgs & Hx & Hch & Hj)%ensureAllPackages_steps.
  simpl in Hmsgs, Hx.
  destruct added; [|done]. destruct changed; [done|].
  destruct (decide _); [|done]. split; [|done].
  apply map_eq. intros p. destruct (decide (p = allPackageJson E)) as [->|Hp]; [|by apply Hj].
  destruct (decide (jsonFiles st' !! allPackageJson E = jsonFiles st !! allPackageJson E))
    as [|Hdiff]; [done|]. by apply Hch in Hdiff.
Qed.

(** The steps of [ensureTop]. *)
Lemma ensureTop_steps m st st' :
  ensureTop E st = Ok (m, st') ->
  exists changed : bool,
    m = (if changed then Some "updated" else None) /\
    (changed = true <-> jsonFiles st' !! topJson E ≠ jsonFiles st !! topJson E) /\
    (forall p, p ≠ topJson E -> jsonFiles st' !! p = jsonFiles st !! p) /\
    textFiles st' = textFiles st.
Proof.
  intros Hrun. unfold ensureTop in Hrun.
  apply bind_Ok in Hrun as (ref & st1 & Hreq & Hrun).
  apply require_Ok in Hreq as [-> Hreq].
  apply bind_Ok in Hrun as ([] & st2 & Hloop & Hrun).
  apply bind_Ok in Hrun as (changed & st3 & Hdata & Hrun).
  apply ret_Ok in Hrun as [-> ->].
  assert (is_Some (require_cache st1 !! topJson E) /\ same_disk st st1) as [Hroot [Hj1 Hx1]].
  { destruct Hreq as [[Hroot ->]|(Hnone & r & root & Hj & ->)]; [done|].
    simpl. rewrite lookup_insert_eq. split; [eauto|done]. }
  apply hoistLoop_frame in Hloop as (_ & _ & [Hj2 Hx2] & _); [|done].
  apply ensurePackageData_Ok in Hdata as (d & orig & Hd & Horig & Hdata).
  exists changed. split; [done|]. fold (topJson E) in *.
  rewrite <- Hj1, <- Hj2, <- Hx1, <- Hx2.
  destruct Hdata as [(-> & Heq & ->)|(-> & Hne & ->)].
  - split; [|done]. split; [done|]. intros Hdiff. by destruct Hdiff.
  - simpl. split; [|split; [|done]].
    + split; [intros _|done]. rewrite lookup_insert_eq, Horig. congruence.
    + intros p Hp. by rewrite lookup_insert_ne.
Qed.

Lemma ensureTop_silent st st' :
  ensureTop E st = Ok (None, st') -> same_disk st st'.
Proof.
  intros (changed & Hm & Hch & Hj & Hx)%ensureTop_steps.
  destruct changed; [done|]. split; [|done].
  apply map_eq. intros p. destruct (decide (p = topJson E)) as [->|Hp]; [|by apply Hj].
  destruct (decide (jsonFiles st' !! topJson E = jsonFiles st !! topJson E))
    as [|Hdiff]; [done|]. by apply Hch in Hdiff.
Qed.

Lemma ensurePackage_silent pkgName st st' :
  ensurePackage E pkgName st = Ok ([], st') -> same_disk st st'.
Proof.
  intros Hrun.
  apply ensurePackage_Ok in Hrun
    as (dname & data & d & deps & devDeps & st1 & st2 & st3 & msgs0 &
        Hdname & Hdata & Hd & Hdeps & Hdev & Hn1 & Hn2 & Hagg & Hfin).
  destruct (prepare_spec E data d deps devDeps st st1 st2 Hd Hdeps Hdev Hn1 Hn2)
    as (t1 & t2 & Hc2 & Hk1 & Hk2 & Hv1 & Hv2 & Hg2 & Ht2 & Hd2).
  destruct (aggregate_spec E pkgName data
              (mkPackage (name d) (version d) (Some t1) (Some t2)) t1 msgs0 st2 st3) as
    (d3 & deps3 & Hd3 & Hdeps3 & _); [by rewrite Hc2, lookup_insert_eq|done|done|].
  assert (forall (changed : bool) (l : list string),
            [] = (if changed then l ++ ["Package data changed"] else l) ->
            changed = false /\ l = []) as Hnil.
  { intros [] l Hl; [by destruct l|done]. }
  assert (forall st5, ensurePackageData data (path_join dname "package.json") st5
                      = Ok (false, st') -> st' = st5) as Hkeep.
  { intros st5 (d5 & orig & _ & _ & [(_ & _ & ->)|(? & _)])%ensurePackageData_Ok; done. }
  assert (msgs0 = [] -> same_disk st2 st3) as Hsync.
  { intros ->. destruct (decide (pkgName = _)).
    - by apply ensureAllPackages_silent.
    - by destruct Hagg as [_ ->]. }
  destruct Hfin as [(Hnil' & changed & Hch & Hmsgs)
                   |(Hsrc & names & msgs1 & st4 & d4 & deps4 & msgs2 & st5 & changed &
                     Hnames & Hmiss & Hd4 & Hdeps4 & Hun & Hch & Hmsgs)].
  - apply Hnil in Hmsgs as [-> ->]. apply Hkeep in Hch as ->.
    eapply same_disk_trans; [exact Hd2|]. by apply Hsync.
  - apply Hnil in Hmsgs as [-> ->]. apply Hkeep in Hch as ->.
    eapply missing_spec in Hmiss
      as (deps4' & added & Hc4 & Hm1 & _ & _ & Hd4' & _); [|done..].
    eapply unused_spec in Hun as (_ & Hm2 & _ & _ & Hd5); [|done..].
    assert (msgs1 = []) as -> by (by destruct msgs1).
    assert (msgs0 = []) as Hm0 by (by destruct msgs0).
    eapply same_disk_trans; [exact Hd2|]. eapply same_disk_trans; [by apply Hsync|].
    eapply same_disk_trans; [exact Hd4'|]. exact Hd5.
Qed.

(** The loop over the packages when the report stays empty. *)
Lemma validate_fold_silent names messages st st' :
  foldM (validateStep E) messages names st = Ok ([], st') ->
  messages = [] /\ same_disk st st'.
Proof.
  revert messages st. induction names as [|n names IH]; intros messages st Hrun.
  - apply ret_Ok in Hrun as [<- ->]. done.
  - simpl in Hrun. apply bind_Ok in Hrun as (messages1 & st1 & Hstep & Hrun).
    apply IH in Hrun as [-> Hd1].
    unfold validateStep in Hstep.
    apply bind_Ok in Hstep as (pkgMessages & st0 & Hpkg & Hstep).
    apply ret_Ok in Hstep as [Hm ->].
    destruct (decide (0 < List.length pkgMessages)) as [Hlen|Hlen].
    + exfalso. destruct messages as [|[k v] messages]; simpl in Hm; [done|].
      by destruct (decide (k = n)).
    + destruct pkgMessages; [|simpl in Hlen; lia]. split; [done|].
      eapply same_disk_trans; [|exact Hd1]. by eapply ensurePackage_silent.
Qed.

End writes.

(** X5: a run that reports nothing has written nothing: when the process
    ends with status 0, the report is empty and every file is as it was
    before the run. *)
Theorem verified_run_writes_nothing E json text report st' :
  ensureIntegrity E (initial json text) = Ok (report, st') ->
  exitStatus report = 0 ->
  report = [] /\ jsonFiles st' = json /\ textFiles st' = text.
Proof.
  intros Hrun Hexit.
  assert (report = []) as ->.
  { unfold exitStatus in Hexit. destruct (decide _) as [|Hlen] in Hexit; [done|].
    destruct report as [|[k v] report]; [done|]. exfalso. apply Hlen.
    assert (k ∈ JsObject.keys ((k, v) :: report)) as Hk.
    { apply JsFacts.elem_of_keys. simpl. constructor. }
    destruct (JsObject.keys ((k, v) :: report)); [by apply elem_of_nil in Hk|simpl; lia]. }
  split; [done|].
  apply ensureIntegrity_Ok in Hrun as (st1 & top & st2 & Hload & Htop & Hval).
  destruct (initial_ok json text) as [Hc0 Ht0].
  apply loadPackages_spec in Hload as (_ & [Hj1 Hx1] & _); [|done..].
  unfold validatePackages in Hval.
  apply bind_Ok in Hval as (names & st0 & Hnames & Hval). apply gets_Ok in Hnames as [-> ->].
  apply validate_fold_silent in Hval as [Hm [Hj3 Hx3]].
  destruct top as [m|]; [done|].
  apply ensureTop_silent in Htop as [Hj2 Hx2].
  simpl in Hj1, Hx1. split; congruence.
Qed.

Lemma verified_run_writes_nothing_witness :
  Example.Two.second
  = Ok ([], Example.state Example.Two.second Example.Two.st0) /\
  jsonFiles (Example.state Example.Two.second Example.Two.st0) = Example.Two.json1 /\
  textFiles (Example.state Example.Two.second Example.Two.st0) = Example.Two.text1.
Proof.
  assert (Example.Two.second
          = Ok (Example.value Example.Two.second [],
                Example.state Example.Two.second Example.Two.st0)) as Hrun
    by (vm_compute; reflexivity).
  destruct (verified_run_writes_nothing Example.Two.E Example.Two.json1 Example.Two.text1
              (Example.value Example.Two.second [])
              (Example.state Example.Two.second Example.Two.st0) Hrun)
    as (Hrep & Hdisk); [vm_compute; reflexivity|].
  split; [|exact Hdisk]. rewrite Hrep in Hrun. exact Hrun.
Defined.

(** ** The top level package *)

(** X6: [ensureTop] answers [updated] exactly when it changes the top level
    manifest on disk; it changes no other file, no manifest object but the
    top level one, no table and no cached spec: nothing is resolved. *)
Theorem ensureTop_reports_update E m st st' :
  ensureTop E st = Ok (m, st') ->
  (m = Some "updated" \/ m = None) /\
  (m = Some "updated" <-> jsonFiles st' !! topJson E ≠ jsonFiles st !! topJson E) /\
  (forall p, p ≠ topJson E -> jsonFiles st' !! p = jsonFiles st !! p) /\
  textFiles st' = textFiles st /\
  (forall ref, ref ≠ topJson E -> require_cache st' !! ref = require_cache st !! ref) /\
  seenDeps st' = seenDeps st /\ same_tables st st'.
Proof.
  intros Hrun.
  destruct (ensureTop_steps E m st st' Hrun) as (changed & -> & Hch & Hj & Hx).
  destruct (ensureTop_frame E _ st st' Hrun) as (Hs & Ht & _ & _).
  split; [destruct changed; auto|].
  split; [rewrite <- Hch; destruct changed; split; done|].
  do 2 (split; [done|]). split; [|done].
  unfold ensureTop in Hrun.
  apply bind_Ok in Hrun as (localData & st1 & Hreq & Hrun).
  apply require_Ok in Hreq as [-> Hreq].
  apply bind_Ok in Hrun as ([] & st2 & Hloop & Hrun).
  apply bind_Ok in Hrun as (changed' & st3 & Hdata & Hrun).
  apply ret_Ok in Hrun as [_ ->]. fold (topJson E) in *.
  intros ref Href.
  assert (is_Some (require_cache st1 !! topJson E) /\
          require_cache st1 !! ref = require_cache st !! ref) as [Hroot Hc1].
  { destruct Hreq as [[Hroot ->]|(Hnone & r & d & _ & ->)]; [done|].
    simpl. rewrite lookup_insert_eq, lookup_insert_ne by done. eauto. }
  apply hoistLoop_frame in Hloop as (_ & _ & _ & Hother & _); [|done].
  apply ensurePackageData_Ok in Hdata as (d & orig & _ & _ & Hdata).
  assert (require_cache st3 = require_cache st2) as ->.
  { destruct Hdata as [(_ & _ & ->)|(_ & _ & ->)]; done. }
  rewrite Hother by done. done.
Qed.

Lemma ensureTop_reports_update_witness :
  Example.value Example.Hoist.top None = Some "updated" /\
  jsonFiles (Example.state Example.Hoist.top Example.Hoist.st0) !! "/repo/package.json"
  ≠ jsonFiles Example.Hoist.st0 !! "/repo/package.json".
Proof.
  assert (Example.Hoist.top
          = Ok (Example.value Example.Hoist.top None,
                Example.state Example.Hoist.top Example.Hoist.st0)) as Hrun
    by (vm_compute; reflexivity).
  assert (Example.value Example.Hoist.top None = Some "updated") as Hm
    by (vm_compute; reflexivity).
  split; [exact Hm|].
  destruct (ensureTop_reports_update Example.Hoist.E _ _ _ Hrun) as (_ & Hiff & _).
  apply Hiff. exact Hm.
Defined.

(** *** A directory without a manifest *)

Section stray.
Variable E : Env.

Lemma hoistKeys_result localData (devDeps : JsObject.t string) ks st :
  throwsOnly TypeError
    (forEach ks (fun name => match JsObject.get name devDeps with
                             | Some v => setDevDependency localData name v
                             | None => ret tt
                             end) st).
Proof.
  revert st. induction ks as [|k ks IH]; intros st; [done|].
  cbn [forEach]. unfold bind.
  destruct (JsObject.get k devDeps) as [v|].
  - unfold setDevDependency, setField, bind, load, defined, store, modify, ret, throw.
    destruct (require_cache st !! localData) as [d|]; [|done].
    destruct (field DevDependencies d) as [t|]; [|done]. apply IH.
  - unfold ret. apply IH.
Qed.

Lemma hoistStep_result localData pkgPath st :
  throwsOnly TypeError (hoistStep localData pkgPath st).
Proof.
  unfold hoistStep. unfold bind at 1. unfold gets at 1.
  unfold bind at 1. unfold gets at 1. unfold bind at 1.
  destruct (JsObject.get (nameOf st pkgPath) (pkgData st)) as [data|]; [|done].
  unfold defined at 1. unfold ret at 1. unfold bind at 1. unfold load at 1.
  destruct (require_cache st !! data) as [d|]; [|done].
  apply hoistKeys_result.
Qed.

Lemma hoistStep_unloaded localData pkgPath st :
  JsObject.get pkgPath (pkgNames st) = None ->
  JsObject.get "undefined" (pkgData st) = None ->
  hoistStep localData pkgPath st = Throw TypeError.
Proof.
  intros Hname Hdata. unfold hoistStep, bind, gets, nameOf. rewrite Hname. simpl.
  by rewrite Hdata.
Qed.

Lemma hoistLoop_unloaded localData ps pkgPath st :
  pkgPath ∈ ps ->
  JsObject.get pkgPath (pkgNames st) = None ->
  JsObject.get "undefined" (pkgData st) = None ->
  is_Some (require_cache st !! localData) ->
  forEach ps (hoistStep localData) st = Throw TypeError.
Proof.
  revert st. induction ps as [|q ps IH]; intros st Hin Hname Hdata Hroot.
  - by apply elem_of_nil in Hin.
  - cbn [forEach]. unfold bind.
    pose proof (hoistStep_result localData q st) as Hres.
    destruct (hoistStep localData q st) as [[[] st1]|e] eqn:Hstep;
      [|simpl in Hres; by rewrite Hres].
    destruct (decide (q = pkgPath)) as [->|Hne].
    { rewrite hoistStep_unloaded in Hstep by done. done. }
    destruct Hroot as [root Hroot].
    destruct (hoistStep_spec localData q st st1 root Hstep Hroot)
      as (rd & Hc & _ & _ & (Hpd & _ & Hpn) & _).
    apply IH.
    + apply elem_of_cons in Hin as [->|Hin]; done.
    + by rewrite Hpn.
    + by rewrite Hpd.
    + rewrite Hc, lookup_insert_eq. eauto.
Qed.

End stray.

(** A directory under [packages] from which no package was picked up makes
    [ensureTop] throw. *)
Lemma ensureTop_unloaded_directory E pkgPath st :
  pkgPath ∈ localPackages E ->
  JsObject.get pkgPath (pkgNames st) = None ->
  JsObject.get "undefined" (pkgData st) = None ->
  (is_Some (require_cache st !! topJson E) \/
   exists r d, jsonFiles st !! topJson E = Some (Manifest r d)) ->
  ensureTop E st = Throw TypeError.
Proof.
  intros Hin Hname Hdata Hroot. unfold ensureTop. fold (topJson E).
  assert (exists st1, require (topJson E) st = Ok (topJson E, st1) /\
                      same_tables st st1 /\ is_Some (require_cache st1 !! topJson E))
    as (st1 & Hreq & (Hpd & _ & Hpn) & Hroot1).
  { unfold require. destruct (require_cache st !! topJson E) as [root|] eqn:Hc.
    - exists st. split; [done|]. split; [done|]. rewrite Hc. eauto.
    - destruct Hroot as [[? ?]|(r & d & ->)]; [done|].
      eexists. split; [done|]. simpl. rewrite lookup_insert_eq. split; [done|]. eauto. }
  rewrite (bind_eq _ _ st (topJson E) st1 Hreq).
  unfold bind at 1. rewrite (hoistLoop_unloaded (topJson E) (localPackages E) pkgPath st1).
  - done.
  - done.
  - by rewrite Hpn.
  - by rewrite Hpd.
  - done.
Qed.

(** ** Picking up the packages *)

Lemma loadPackage_total pkgPath st : exists st', loadPackage pkgPath st = Ok (tt, st').
Proof.
  unfold loadPackage.
  destruct (require (path_join pkgPath "package.json") st) as [[ref st1]|e] eqn:Hreq; [|eauto].
  assert (is_Some (require_cache st1 !! ref)) as [d Hd].
  { apply require_Ok in Hreq as [-> [[Hc ->]|(_ & r & d & _ & ->)]]; [done|].
    simpl. rewrite lookup_insert_eq. eauto. }
  unfold bind, load, modify. rewrite Hd. eauto.
Qed.

Lemma manifestName_Some json pkgPath n :
  manifestName json pkgPath = Some n <->
  exists r d, json !! path_join pkgPath "package.json" = Some (Manifest r d) /\ name d = n.
Proof.
  unfold manifestName. destruct (json !! _) as [[r d|]|]; split.
  - intros [= <-]. eauto.
  - intros (r' & d' & [= <- <-] & <-). done.
  - done.
  - intros (? & ? & ? & _). done.
  - done.
  - intros (? & ? & ? & _). done.
Qed.

Lemma lastNamed_cons json n p ps :
  lastNamed json n (p :: ps)
  = match lastNamed json n ps with
    | Some q => Some q
    | None => if decide (manifestName json p = Some n) then Some p else None
    end.
Proof.
  simpl. destruct (lastNamed json n ps); [done|]. unfold manifestName.
  destruct (json !! _) as [[r d|]|]; [|done..].
  destruct (decide (name d = n)) as [->|Hne].
  - by rewrite decide_True.
  - rewrite decide_False; [done|]. by intros [= ?].
Qed.

Lemma lastNamed_Some json n ps p :
  lastNamed json n ps = Some p -> p ∈ ps /\ manifestName json p = Some n.
Proof.
  induction ps as [|q ps IH]; [done|]. rewrite lastNamed_cons.
  destruct (lastNamed json n ps) as [p'|].
  - intros [= ->]. destruct IH as [? ?]; [done|]. split; [by right|done].
  - destruct (decide _) as [Hq|]; [|done]. intros [= ->]. split; [by left|done].
Qed.

(** The tables after the loop over a list of directories. *)
Lemma loadPackages_tables ps st :
  cache_ok st ->
  exists st',
    forEach ps loadPackage st = Ok (tt, st') /\
    cache_ok st' /\ same_disk st st' /\ seenDeps st' = seenDeps st /\
    (forall n, JsObject.get n (pkgPaths st')
               = match lastNamed (jsonFiles st) n ps with
                 | Some p => Some p
                 | None => JsObject.get n (pkgPaths st)
                 end) /\
    (forall n, JsObject.get n (pkgData st')
               = match lastNamed (jsonFiles st) n ps with
                 | Some p => Some (path_join p "package.json")
                 | None => JsObject.get n (pkgData st)
                 end) /\
    (forall p, JsObject.get p (pkgNames st')
               = if decide (p ∈ ps /\ is_Some (manifestName (jsonFiles st) p))
                 then manifestName (jsonFiles st) p
                 else JsObject.get p (pkgNames st)).
Proof.
  revert st. induction ps as [|p ps IH]; intros st Hok.
  - exists st. split; [done|]. split_and!; done.
  - destruct (loadPackage_total p st) as [st1 Hstep].
    destruct (loadPackage_spec p st st1 Hstep Hok) as (Hs1 & [Hj1 Hx1] & Hok1 & _ & Hload).
    destruct (IH st1 Hok1) as (st' & Hrun & Hok' & [Hj Hx] & Hs & Hpaths & Hdata & Hnames).
    exists st'. split.
    { cbn [forEach]. by rewrite (bind_eq _ _ st tt st1 Hstep). }
    rewrite Hj1 in Hpaths, Hdata, Hnames.
    split; [done|]. split; [split; congruence|]. split; [congruence|].
    destruct (manifestName (jsonFiles st) p) as [n0|] eqn:Hname.
    + destruct Hload as (d & _ & _ & Hpd & Hpp & Hpn).
      split_and!.
      * intros n. rewrite Hpaths, lastNamed_cons, Hname.
        destruct (lastNamed (jsonFiles st) n ps); [done|].
        rewrite Hpp, JsFacts.get_set.
        destruct (decide (n0 = n)) as [->|Hne].
        -- by rewrite decide_True.
        -- rewrite decide_False; [done|]. by intros [= ?].
      * intros n. rewrite Hdata, lastNamed_cons, Hname.
        destruct (lastNamed (jsonFiles st) n ps); [done|].
        rewrite Hpd, JsFacts.get_set.
        destruct (decide (n0 = n)) as [->|Hne].
        -- by rewrite decide_True.
        -- rewrite decide_False; [done|]. by intros [= ?].
      * intros q. rewrite Hnames, Hpn, JsFacts.get_set.
        destruct (decide (q ∈ ps /\ is_Some (manifestName (jsonFiles st) q))) as [[Hq1 Hq2]|Hq].
        -- rewrite decide_True; [done|]. split; [by right|done].
        -- destruct (decide (p = q)) as [<-|Hne].
           ++ rewrite decide_True; [done|]. split; [by left|]. rewrite Hname. eauto.
           ++ rewrite decide_False; [done|]. intros [[?|?]%elem_of_cons ?]; [done|tauto].
    + subst st1. split_and!.
      * intros n. rewrite Hpaths, lastNamed_cons, Hname.
        destruct (lastNamed (jsonFiles st) n ps); [done|]. by rewrite decide_False.
      * intros n. rewrite Hdata, lastNamed_cons, Hname.
        destruct (lastNamed (jsonFiles st) n ps); [done|]. by rewrite decide_False.
      * intros q. rewrite Hnames.
        destruct (decide (q ∈ ps /\ is_Some (manifestName (jsonFiles st) q))) as [[Hq1 Hq2]|Hq].
        -- rewrite decide_True; [done|]. split; [by right|done].
        -- rewrite decide_False; [done|].
           intros [[->|?]%elem_of_cons Hq2]; [|tauto]. rewrite Hname in Hq2. by destruct Hq2.
Qed.

(** X7: in a workspace whose package manifests are named, the loop that
    picks up the packages never throws and writes nothing.  Afterwards a package name leads to the last directory of the
    lerna configuration whose manifest has this name and to the manifest of
    that directory, and every directory whose manifest could be loaded leads
    to the name of its manifest, also when a later directory took the name
    over; a directory without a manifest that can be loaded leaves no
    trace. *)
Theorem packages_picked_up E json text :
  wellNamed E json = true ->
  exists st',
    forEach (lernaPaths E) loadPackage (initial json text) = Ok (tt, st') /\
    jsonFiles st' = json /\ textFiles st' = text /\ seenDeps st' = [] /\
    (forall n, JsObject.get n (pkgPaths st') = lastNamed json n (lernaPaths E)) /\
    (forall n, JsObject.get n (pkgData st')
               = (fun p => path_join p "package.json") <$> lastNamed json n (lernaPaths E)) /\
    (forall p, JsObject.get p (pkgNames st')
               = if decide (p ∈ lernaPaths E) then manifestName json p else None).
Proof.
  intros _.
  destruct (initial_ok json text) as [Hok _].
  destruct (loadPackages_tables (lernaPaths E) (initial json text) Hok)
    as (st' & Hrun & _ & [Hj Hx] & Hs & Hpaths & Hdata & Hnames).
  change (jsonFiles (initial json text)) with json in *.
  change (textFiles (initial json text)) with text in *.
  exists st'. split; [done|]. do 3 (split; [done|]). split_and!.
  - intros n. rewrite Hpaths. by destruct (lastNamed json n (lernaPaths E)).
  - intros n. rewrite Hdata. by destruct (lastNamed json n (lernaPaths E)).
  - intros p. rewrite Hnames. destruct (decide (p ∈ lernaPaths E)) as [Hin|Hin].
    + destruct (manifestName json p) eqn:Hname.
      * rewrite decide_True; [done|]. split; [done|]. eauto.
      * rewrite decide_False; [done|]. intros [_ Hs']. by destruct Hs'.
    + rewrite decide_False; [done|]. tauto.
Qed.

Lemma packages_picked_up_witness :
  exists st',
    forEach (lernaPaths Example.Two.E) loadPackage
            (initial Example.Two.json Example.Two.text) = Ok (tt, st') /\
    JsObject.get "A" (pkgPaths st') = Some "/repo/packages/A".
Proof.
  destruct (packages_picked_up Example.Two.E Example.Two.json Example.Two.text)
    as (st' & Hrun & _ & _ & _ & Hpaths & _); [vm_compute; reflexivity|].
  exists st'. split; [exact Hrun|]. rewrite Hpaths. vm_compute; reflexivity.
Defined.

(** X8: the run does not survive a directory under [packages] that has no
    [package.json] that can be parsed, although the loop that picks up the
    packages passes over it: in a workspace whose package manifests are
    named, when the top level manifest can be loaded and no manifest has the
    name [undefined], the run throws a [TypeError] in [ensureTop] and
    reports nothing. *)
Theorem unloaded_directory_stops_run E json text pkgPath :
  pkgPath ∈ localPackages E ->
  json !! path_join pkgPath "package.json" = None ->
  wellNamed E json = true ->
  (forall q, q ∈ lernaPaths E -> manifestName json q ≠ Some "undefined") ->
  (exists r d, json !! topJson E = Some (Manifest r d)) ->
  ensureIntegrity E (initial json text) = Throw TypeError.
Proof.
  intros Hin Hfile _ Hundef Hroot.
  assert (manifestName json pkgPath = None) as Hnone.
  { unfold manifestName. by rewrite Hfile. }
  destruct (initial_ok json text) as [Hok _].
  destruct (loadPackages_tables (lernaPaths E) (initial json text) Hok)
    as (st1 & Hrun & _ & [Hj Hx] & Hs & Hpaths & Hdata & Hnames).
  change (jsonFiles (initial json text)) with json in *.
  unfold ensureIntegrity. rewrite (bind_eq _ _ _ tt st1 Hrun).
  unfold bind. rewrite (ensureTop_unloaded_directory E pkgPath st1); [done|done|..].
  - rewrite Hnames. rewrite decide_False; [done|]. intros [_ Hs']. rewrite Hnone in Hs'.
    by destruct Hs'.
  - rewrite Hdata. destruct (lastNamed json "undefined" (lernaPaths E)) as [q|] eqn:Hq; [|done].
    apply lastNamed_Some in Hq as [Hq1 Hq2]. by apply Hundef in Hq1.
  - right. by rewrite Hj.
Qed.

Lemma unloaded_directory_stops_run_witness :
  ensureIntegrity Example.Stray.E (initial Example.Stray.json Example.Stray.text)
  = Throw TypeError.
Proof.
  apply (unloaded_directory_stops_run Example.Stray.E _ _ "/repo/packages/docs").
  - assert (localPackages Example.Stray.E = ["/repo/packages/p"; "/repo/packages/docs"])
      as -> by (vm_compute; reflexivity).
    apply elem_of_cons. right. apply elem_of_cons. by left.
  - vm_compute; reflexivity.
  - vm_compute; reflexivity.
  - assert (lernaPaths Example.Stray.E = ["/repo/packages/p"; "/repo/packages/docs"])
      as -> by (vm_compute; reflexivity).
    intros q [->|[->|Hq%elem_of_nil]%elem_of_cons]%elem_of_cons; [| |done];
      vm_compute; discriminate.
  - eexists _, _. vm_compute; reflexivity.
Defined.

(** ** What the aggregator step reports *)

(** X9: the aggregator step reports [Index changed] exactly when it changes
    [index.ts] and [Package data changed] exactly when it changes the
    manifest of the aggregator on disk; it touches no other file, resolves
    nothing, and every other finding is [Updated] for the package of a
    directory under [packages]. *)
Theorem aggregator_reports_writes E msgs st st' :
  ensureAllPackages E st = Ok (msgs, st') ->
  ("Index changed" ∈ msgs <->
   textFiles st' !! indexPath E ≠ textFiles st !! indexPath E) /\
  ("Package data changed" ∈ msgs <->
   jsonFiles st' !! allPackageJson E ≠ jsonFiles st !! allPackageJson E) /\
  (forall f, f ≠ indexPath E -> textFiles st' !! f = textFiles st !! f) /\
  (forall p, p ≠ allPackageJson E -> jsonFiles st' !! p = jsonFiles st !! p) /\
  (forall m, m ∈ msgs ->
     m = "Index changed" \/ m = "Package data changed" \/
     exists k, k ∈ aggregated E st /\ m = "Updated: " +:+ k) /\
  seenDeps st' = seenDeps st /\ same_tables st st'.
Proof.
  intros Hrun.
  destruct (ensureAllPackages_steps E msgs st st' Hrun)
    as (index & added & changed & Hidx & Hadded & Hmsgs & Hx & Hch & Hj).
  destruct (ensureAllPackages_spec E msgs st st' Hrun)
    as (agg & deps' & index' & _ & _ & _ & _ & _ & _ & Hall & _ & _ & _ & _ & Hs & Ht).
  simpl in Hmsgs, Hx.
  set (newIndex := Js.join (String LF EmptyString)
                     (take 3 (Js.split LF index) ++ (importLine <$> aggregated E st))) in *.
  assert (forall m, m ∈ added -> m ≠ "Index changed" /\ m ≠ "Package data changed") as Hupd.
  { intros m (k & ->)%Hadded. split; discriminate. }
  split; [|split; [|split; [|split; [done|split; [|done]]]]].
  - rewrite Hmsgs, Hx, Hidx. destruct (decide (newIndex = index)) as [Heq|Hne].
    + split; [|by intros Hdiff; destruct Hdiff; rewrite Hidx].
      rewrite app_nil_r. intros [Hm|Hm]%elem_of_app.
      * by apply Hupd in Hm as [? _].
      * destruct changed; [|by apply elem_of_nil in Hm].
        apply list_elem_of_singleton in Hm. discriminate.
    + split.
      * intros _. rewrite lookup_insert_eq. congruence.
      * intros _. rewrite !elem_of_app. right. right. by apply list_elem_of_singleton.
  - rewrite <- Hch, Hmsgs. destruct changed.
    + split; [done|]. intros _. rewrite !elem_of_app. right. left.
      by apply list_elem_of_singleton.
    + split; [|done]. simpl. intros [Hm|Hm]%elem_of_app.
      * by apply Hupd in Hm as [_ ?].
      * destruct (decide (newIndex = index)); [by apply elem_of_nil in Hm|].
        apply list_elem_of_singleton in Hm. discriminate.
  - intros f Hf. rewrite Hx. destruct (decide (newIndex = index)); [done|].
    by rewrite lookup_insert_ne.
  - intros m Hm. destruct (Hall m Hm) as [(k & Hk & ->)|[->| ->]]; eauto.
Qed.

Lemma aggregator_reports_writes_witness :
  Example.value Example.Aggregate.sync []
  = ["Updated: p"; "Updated: q"; "Package data changed"] /\
  jsonFiles (Example.state Example.Aggregate.sync Example.Aggregate.st0)
    !! allPackageJson Example.Aggregate.E
  ≠ jsonFiles Example.Aggregate.st0 !! allPackageJson Example.Aggregate.E.
Proof.
  assert (Example.Aggregate.sync
          = Ok (Example.value Example.Aggregate.sync [],
                Example.state Example.Aggregate.sync Example.Aggregate.st0)) as Hrun
    by (vm_compute; reflexivity).
  assert (Example.value Example.Aggregate.sync []
          = ["Updated: p"; "Updated: q"; "Package data changed"]) as Hmsgs
    by (vm_compute; reflexivity).
  split; [exact Hmsgs|].
  destruct (aggregator_reports_writes Example.Aggregate.E _ _ _ Hrun) as (_ & Hiff & _).
  apply Hiff. rewrite Hmsgs. apply elem_of_cons. right. apply elem_of_cons. right.
  apply elem_of_cons. by left.
Defined.

(** ** Manifests without a table *)

Section tables.
Variable E : Env.

Lemma normalize_result f data ks st :
  match normalize E f data ks st with
  | Ok _ => True
  | Throw e => e = TypeError \/ exists k, e = LookupError k
  end.
Proof.
  unfold normalize. revert st. induction ks as [|k ks IH]; intros st; [done|].
  cbn [forEach]. unfold bind at 1. unfold bind at 1. unfold seenDep at 1.
  destruct (JsObject.get k (seenDeps st)) as [v|].
  - unfold setField, bind, load, defined, store, modify, ret, throw.
    destruct (require_cache st !! data) as [d|]; [|by left].
    destruct (field f d) as [t|]; [|by left]. apply IH.
  - destruct (getDependency E k) as [v|]; [|right; eauto].
    unfold setField, bind, load, defined, store, modify, ret, throw. simpl.
    destruct (require_cache st !! data) as [d|]; [|by left].
    destruct (field f d) as [t|]; [|by left]. apply IH.
Qed.

End tables.

(** X10: a manifest without the [dependencies] member makes the validation
    of its package throw a [TypeError]; one without the [devDependencies]
    member makes it throw as well, a [TypeError] unless a spec of the
    dependencies could not be resolved before.  [ensureTop] passes over a
    package without [devDependencies]. *)
Theorem tables_required E pkgName data d st :
  JsObject.get pkgName (pkgData st) = Some data ->
  require_cache st !! data = Some d ->
  (dependencies d = None -> ensurePackage E pkgName st = Throw TypeError) /\
  (devDependencies d = None ->
   exists e, ensurePackage E pkgName st = Throw e /\
             (e = TypeError \/ exists k, e = LookupError k)) /\
  (devDependencies d = None ->
   forall localData pkgPath,
     JsObject.get pkgPath (pkgNames st) = Some pkgName ->
     hoistStep localData pkgPath st = Ok (tt, st)).
Proof.
  intros Hdata Hd. split; [|split].
  - intros Hdeps. unfold ensurePackage, bind, gets, defined, load, ret, throw.
    by rewrite Hdata, Hd, Hdeps.
  - intros Hdev. unfold ensurePackage.
    unfold bind at 1. unfold gets at 1. unfold bind at 1. unfold gets at 1.
    rewrite Hdata. unfold bind at 1. unfold defined at 1. unfold ret at 1.
    rewrite (bind_eq _ _ st d st) by (by apply load_Ok).
    destruct (dependencies d) as [deps|] eqn:Hdeps.
    + unfold bind at 1. unfold defined at 1. unfold ret at 1. unfold bind at 1.
      pose proof (normalize_result E Dependencies data (JsObject.keys deps) st) as Hres.
      unfold normalize in Hres.
      destruct (forEach (JsObject.keys deps) _ st) as [[[] st1]|e] eqn:Hn.
      * rewrite Hdev. unfold bind, defined, throw. eauto.
      * eauto.
    + unfold bind, defined, throw. eauto.
  - intros Hdev localData pkgPath Hname.
    unfold hoistStep, bind, gets, nameOf, defined, load, ret. rewrite Hname. simpl.
    rewrite Hdata, Hd, Hdev. done.
Qed.

Lemma tables_required_witness :
  ensurePackage Example.Plain.E "bare" Example.Plain.st0 = Throw TypeError /\
  (exists e, ensurePackage Example.Plain.E "nodev" Example.Plain.st0 = Throw e) /\
  hoistStep "/repo/package.json" "/repo/packages/nodev" Example.Plain.st0
  = Ok (tt, Example.Plain.st0).
Proof.
  destruct (tables_required Example.Plain.E "bare" "/repo/packages/bare/package.json"
              (mkPackage "bare" "0.1.0" None (Some [])) Example.Plain.st0)
    as (Hbare & _); [vm_compute; reflexivity..|].
  destruct (tables_required Example.Plain.E "nodev" "/repo/packages/nodev/package.json"
              (mkPackage "nodev" "0.1.0" (Some [("left-pad", "^1.0.0")]) None)
              Example.Plain.st0)
    as (_ & Hnodev & Htop); [vm_compute; reflexivity..|].
  split; [by apply Hbare|]. split.
  - destruct Hnodev as (e & He & _); [done|]. by exists e.
  - apply Htop; [done|]. vm_compute; reflexivity.
Defined.

(** ** The package of a module specifier *)

Lemma split_head_startsWith (sep c : ascii) (s : string) :
  c ≠ sep ->
  Js.startsWith c (nth 0 (Js.split sep s) "undefined") = Js.startsWith c s.
Proof.
  intros Hc. destruct s as [|c' s]; simpl; [done|].
  destruct (decide (c' = sep)) as [->|Hne]; simpl.
  - by rewrite bool_decide_false.
  - destruct (Js.split sep s); done.
Qed.

(** X11: the package of a module specifier is its own package: mapping the
    names a second time changes nothing, so the names that are compared with
    the keys of the dependencies are fixed points of the mapping, and none of
    them has more than one slash. *)
Theorem packageOf_idempotent (name : string) :
  packageOf (packageOf name) = packageOf name /\
  (Js.startsWith "@" name = false -> ~ mentions "/" (packageOf name)) /\
  Js.startsWith "@" (packageOf name) = Js.startsWith "@" name.
Proof.
  destruct (split_Forall "/" name) as [Hne Hall].
  pose proof (split_head_startsWith "/" "@" name ltac:(done)) as Hhead.
  unfold packageOf at 2 3 4 5.
  destruct (Js.split "/" name) as [|a rest] eqn:Hsplit; [done|].
  apply Forall_cons in Hall as [Ha Hrest]. simpl in Hhead.
  destruct (Js.startsWith "@" name) eqn:Hat.
  - assert (~ mentions "/" (nth 1 (a :: rest) "undefined")) as Hb.
    { destruct rest as [|b rest]; simpl.
      - intros H. repeat destruct H as [H|H]; done.
      - by apply Forall_cons in Hrest as [? _]. }
    set (b := nth 1 (a :: rest) "undefined") in *. cbn [nth].
    assert (Js.startsWith "@" (a +:+ "/" +:+ b) = true) as Hat'.
    { destruct a; [done|]. done. }
    split; [|split; [done|exact Hat']].
    unfold packageOf. rewrite Hat'.
    change (a +:+ "/" +:+ b) with (a +:+ String "/" b).
    rewrite split_sep_l by done. rewrite split_nosep by done. done.
  - cbn [nth]. split; [|split; [done|exact Hhead]].
    unfold packageOf. rewrite Hhead. rewrite split_nosep by done. done.
Qed.

(** X12: a module specifier that is a scope and nothing more, [@scope]
    without a slash, is attributed to the package [@scope/undefined]: the
    second part of the specifier is [undefined] and is concatenated as such. *)
Theorem packageOf_scope_only (scope : string) :
  ~ mentions "/" scope ->
  packageOf ("@" +:+ scope) = "@" +:+ scope +:+ "/undefined" /\
  importNames ["@" +:+ scope] = ["@" +:+ scope +:+ "/undefined"].
Proof.
  intros Hscope.
  assert (packageOf ("@" +:+ scope) = "@" +:+ scope +:+ "/undefined") as Hpkg.
  { unfold packageOf. change ("@" +:+ scope) with (String "@" scope).
    cbn [Js.startsWith]. rewrite bool_decide_true by done.
    rewrite split_nosep; [done|]. simpl. intros [?|?]; [done|tauto]. }
  split; [exact Hpkg|]. unfold importNames. by rewrite <- Hpkg.
Qed.

Lemma packageOf_scope_only_witness :
  packageOf "@types" = "@types/undefined".
Proof.
  destruct (packageOf_scope_only "types") as [H _]; [|exact H].
  simpl. intros H. repeat destruct H as [H|H]; done.
Defined.

(** X16: the package names that the checks look at depend on the set of the
    module specifiers that the sources import and on nothing else: neither
    on how often a specifier is imported, nor on the order of the files, nor
    on a file being listed by both patterns. *)
Theorem importNames_set (imports imports' : list string) :
  (forall x, x ∈ imports <-> x ∈ imports') ->
  importNames imports = importNames imports'.
Proof.
  intros Hsame. unfold importNames. f_equal. apply sort_Permutation.
  apply NoDup_Permutation; try apply JsFacts.NoDup_uniq.
  intros x. by rewrite !JsFacts.elem_of_uniq.
Qed.

Lemma importNames_set_witness :
  importNames (["lodash"; "./util"] ++ ["lodash"; "./util"]) = importNames ["./util"; "lodash"] /\
  importNames ["./util"; "lodash"] = ["."; "lodash"].
Proof.
  split; [|vm_compute; reflexivity].
  apply importNames_set. intros x. rewrite elem_of_app, !elem_of_cons, elem_of_nil. tauto.
Defined.

(** ** What a validation touches and what it reports *)

(** X13: the validation of a package other than the aggregator touches the
    manifest object of this package and the manifest in its directory, and
    nothing else: every other manifest object, every other file and the
    three tables are as before, and the object keeps its name and its
    version. *)
Theorem ensurePackage_touches_own E pkgName dname data msgs st st' :
  pkgName ≠ "@jupyterlab/all-packages" ->
  JsObject.get pkgName (pkgPaths st) = Some dname ->
  JsObject.get pkgName (pkgData st) = Some data ->
  ensurePackage E pkgName st = Ok (msgs, st') ->
  (forall ref, ref ≠ data -> require_cache st' !! ref = require_cache st !! ref) /\
  (forall p, p ≠ path_join dname "package.json" -> jsonFiles st' !! p = jsonFiles st !! p) /\
  textFiles st' = textFiles st /\
  same_tables st st' /\
  exists d d', require_cache st !! data = Some d /\ require_cache st' !! data = Some d' /\
               name d' = name d /\ version d' = version d.
Proof.
  intros Hname Hdname Hdata Hrun.
  destruct (ensurePackage_spec E pkgName msgs st st' Hrun)
    as (data' & d & d' & Hdata' & Hd & Hd' & Ht & _ & Hkept & _ & Hother & _).
  rewrite Hdata in Hdata'. injection Hdata' as <-.
  apply ensurePackage_Ok in Hrun
    as (dname' & data' & d0 & deps & devDeps & st1 & st2 & st3 & msgs0 &
        Hdname' & Hdata' & Hd0 & Hdeps & Hdev & Hn1 & Hn2 & Hagg & Hfin).
  rewrite Hdname in Hdname'. injection Hdname' as <-.
  rewrite Hdata in Hdata'. injection Hdata' as <-.
  rewrite Hd in Hd0. injection Hd0 as <-.
  destruct (prepare_spec E data d deps devDeps st st1 st2 Hd Hdeps Hdev Hn1 Hn2)
    as (t1 & t2 & Hc2 & _ & _ & _ & _ & _ & _ & [Hj2 Hx2]).
  rewrite decide_False in Hagg by done. destruct Hagg as [-> ->].
  eapply finish_spec in Hfin
    as (depsF & found & _ & _ & _ & _ & _ & _ & _ & Hx & Hj & _).
  2:{ rewrite Hc2. apply lookup_insert_eq. }
  2:{ done. }
  split; [intros ref Href; apply Hother; [done|by right]|].
  split; [intros p Hp; rewrite Hj by done; by rewrite Hj2|].
  split; [congruence|]. split; [done|].
  exists d, d'. destruct (Hkept data d Hd) as (d'' & Hd'' & Hn & Hv & _).
  rewrite Hd' in Hd''. injection Hd'' as <-. done.
Qed.

Lemma ensurePackage_touches_own_witness :
  require_cache (Example.state Example.Two.runA Example.Two.st0)
    !! "/repo/packages/B/package.json"
  = require_cache Example.Two.st0 !! "/repo/packages/B/package.json" /\
  jsonFiles (Example.state Example.Two.runA Example.Two.st0) !! "/repo/package.json"
  = jsonFiles Example.Two.st0 !! "/repo/package.json".
Proof.
  assert (Example.Two.runA
          = Ok (Example.value Example.Two.runA [],
                Example.state Example.Two.runA Example.Two.st0)) as Hrun
    by (vm_compute; reflexivity).
  destruct (ensurePackage_touches_own Example.Two.E "A" "/repo/packages/A"
              "/repo/packages/A/package.json"
              (Example.value Example.Two.runA []) Example.Two.st0
              (Example.state Example.Two.runA Example.Two.st0)
              ltac:(discriminate) ltac:(vm_compute; reflexivity)
              ltac:(vm_compute; reflexivity) Hrun)
    as (Hobj & Hfile & _).
  split; [apply Hobj|apply Hfile]; discriminate.
Defined.

(** X14: every finding of the two import checks is justified and every
    change of the keys of the dependencies is reported, for a package other
    than the aggregator.  A name reported missing is imported by the sources
    and looked at, and was not a key or had the empty spec; afterwards it has
    its resolved spec.  A name reported unused was a key, is not imported, is
    not to be ignored, and is no key afterwards.  A key that was not there
    before is reported missing, and a key that is no longer there is
    reported unused. *)
Theorem findings_justified E pkgName dname data d deps msgs st st' :
  pkgName ≠ "@jupyterlab/all-packages" ->
  JsObject.get pkgName (pkgPaths st) = Some dname ->
  JsObject.get pkgName (pkgData st) = Some data ->
  require_cache st !! data = Some d ->
  dependencies d = Some deps ->
  ensurePackage E pkgName st = Ok (msgs, st') ->
  exists d',
    require_cache st' !! data = Some d' /\
    (forall k, missingMsg k ∈ msgs ->
       (exists names, importedNames E st dname = Some names /\ k ∈ names) /\
       checked pkgName k /\
       (k ∉ deps.*1 \/ canonical E st k = Some EmptyString) /\
       is_Some (canonical E st k) /\
       dependencies d' ≫= JsObject.get k = canonical E st k) /\
    (forall k, unusedMsg k ∈ msgs ->
       k ∈ deps.*1 /\ ignored UNUSED pkgName k = false /\
       (exists names, importedNames E st dname = Some names /\ k ∉ names) /\
       dependencies d' ≫= JsObject.get k = None) /\
    (forall k, k ∉ deps.*1 -> is_Some (dependencies d' ≫= JsObject.get k) ->
               missingMsg k ∈ msgs) /\
    (forall k, k ∈ deps.*1 -> dependencies d' ≫= JsObject.get k = None ->
               unusedMsg k ∈ msgs).
Proof.
  intros Hname Hdname Hdata Hd Hdeps Hrun.
  apply ensurePackage_Ok in Hrun
    as (dname' & data' & d0 & deps0 & devDeps & st1 & st2 & st3 & msgs0 &
        Hdname' & Hdata' & Hd0 & Hdeps0 & Hdev & Hn1 & Hn2 & Hagg & Hfin).
  rewrite Hdname in Hdname'. injection Hdname' as <-.
  rewrite Hdata in Hdata'. injection Hdata' as <-.
  rewrite Hd in Hd0. injection Hd0 as <-.
  rewrite Hdeps in Hdeps0. injection Hdeps0 as <-.
  destruct (prepare_spec E data d deps devDeps st st1 st2 Hd Hdeps Hdev Hn1 Hn2)
    as (t1 & t2 & Hc2 & Hk1 & Hk2 & Hv1 & Hv2 & Hg2 & Ht2 & [Hj2 Hx2]).
  rewrite decide_False in Hagg by done. destruct Hagg as [-> ->].
  assert (forall k, k ∈ deps.*1 <-> is_Some (JsObject.get k t1)) as Hkeys.
  { intros k. by rewrite <- Hk1, elem_of_get. }
  assert (forall data file changed st5 st' d5,
            ensurePackageData data file st5 = Ok (changed, st') ->
            require_cache st5 !! data = Some d5 ->
            require_cache st' !! data = Some d5) as Hpersist.
  { clear. intros data file changed st5 st' d5 (d & orig & Hd & Horig & H)%ensurePackageData_Ok Hd5.
    destruct H as [(-> & Heq & ->)|(-> & Hne & ->)]; done. }
  assert (forall k (changed : bool) (l : list string),
            missingMsg k ∈ (if changed then l ++ ["Package data changed"] else l) ->
            missingMsg k ∈ l) as Hmiss_in.
  { intros k [] l Hk; [|done].
    apply elem_of_app in Hk as [Hk|Hk%list_elem_of_singleton]; [done|discriminate]. }
  assert (forall k (changed : bool) (l : list string),
            unusedMsg k ∈ (if changed then l ++ ["Package data changed"] else l) ->
            unusedMsg k ∈ l) as Hun_in.
  { intros k [] l Hk; [|done].
    apply elem_of_app in Hk as [Hk|Hk%list_elem_of_singleton]; [done|discriminate]. }
  assert (forall (m : string) (changed : bool) (l : list string),
            m ∈ l -> m ∈ (if changed then l ++ ["Package data changed"] else l)) as Hin_msgs.
  { intros m [] l Hm; [|done]. apply elem_of_app. by left. }
  destruct Hfin as [(Hnil & changed & Hch & ->)
                   |(Hsrc & names & msgs1 & st4 & d4 & deps4 & msgs2 & st5 & changed &
                     Hnames & Hmiss & Hd4 & Hdeps4 & Hun & Hch & ->)].
  - eapply Hpersist in Hch; [|by rewrite Hc2, lookup_insert_eq].
    eexists. split; [exact Hch|]. simpl. split_and!.
    + intros k Hk. exfalso. destruct changed; simpl in Hk.
      * apply list_elem_of_singleton in Hk. discriminate.
      * by apply elem_of_nil in Hk.
    + intros k Hk. exfalso. destruct changed; simpl in Hk.
      * apply list_elem_of_singleton in Hk. discriminate.
      * by apply elem_of_nil in Hk.
    + intros k Hk Hs. by apply Hkeys in Hs.
    + intros k Hk%Hkeys Hn. rewrite Hn in Hk. by destruct Hk.
  - assert (importedNames E st dname = Some names) as Hnames0.
    { unfold importedNames in *. by rewrite <- Hx2. }
    eapply missing_spec in Hmiss
      as (deps4' & added & Hc4 & -> & Hg4 & Ht4 & [Hj4 Hx4] & Hin & Hout & Hmsg & Hrep).
    2:{ rewrite Hc2. apply lookup_insert_eq. }
    2:{ done. }
    rewrite Hc4, lookup_insert_eq in Hd4. injection Hd4 as <-.
    simpl in Hdeps4. injection Hdeps4 as ->.
    eapply unused_spec in Hun as (Hc5 & -> & Hs5 & Ht5 & [Hj5 Hx5]).
    2:{ rewrite Hc4. apply lookup_insert_eq. }
    2:{ done. }
    simpl in Hc5.
    set (removed := fun k => ignored UNUSED pkgName k = false /\ k ∉ names) in *.
    set (depsF := filter (fun kv : string * string =>
                            ~ (kv.1 ∈ JsObject.keys deps4 /\ removed kv.1)) deps4) in *.
    eapply Hpersist in Hch; [|by rewrite Hc5, lookup_insert_eq].
    assert (forall k,
              (~ (k ∈ JsObject.keys deps4 /\ removed k) ->
               JsObject.get k depsF = JsObject.get k deps4) /\
              (k ∈ JsObject.keys deps4 /\ removed k -> JsObject.get k depsF = None))
      as Hfilter.
    { intros k. subst depsF.
      destruct (get_filter (fun kv : string * string =>
                              ~ (kv.1 ∈ JsObject.keys deps4 /\ removed kv.1))
                  (fun k => ~ (k ∈ JsObject.keys deps4 /\ removed k)) deps4 k) as [Hkeep Hdrop];
        [done|].
      split; [exact Hkeep|]. intros Hr. apply Hdrop. tauto. }
    set (wanted := fun k => k ∈ names /\ checked pkgName k /\
                            Js.truthy (JsObject.get k t1) = false) in *.
    assert (cache_grows E st st4) as Hg by (by eapply cache_grows_trans).
    exists (mkPackage (name d) (version d) (Some depsF) (Some t2)).
    split; [exact Hch|]. simpl. split_and!.
    + intros k Hk%Hmiss_in. simpl in Hk.
      apply elem_of_app in Hk as [Hk|Hk].
      2:{ apply list_elem_of_fmap in Hk as (k' & Hk' & _). by apply missingMsg_unusedMsg in Hk'. }
      apply Hmsg in Hk as (k' & ->%missingMsg_inj & Hw).
      destruct (Hin k' Hw) as (v & Hv & Hsv). destruct Hw as (Hkn & Hck & Hfalsy).
      assert (canonical E st k' = Some v) as Hcan by (by eapply cache_grows_canonical).
      split; [eauto|]. split; [done|]. split; [|split; [by rewrite Hcan|]].
      * destruct (JsObject.get k' t1) as [v1|] eqn:Hk1'.
        -- right. simpl in Hfalsy. apply negb_false_iff, bool_decide_eq_true in Hfalsy as ->.
           eapply cache_grows_canonical; [exact Hg2|]. by apply Hv1.
        -- left. intros Hk%Hkeys. rewrite Hk1' in Hk. by destruct Hk.
      * rewrite Hcan. destruct (Hfilter k') as [Hkeep _]. rewrite Hkeep; [done|].
        intros [_ [_ Hn]]. done.
    + intros k Hk%Hun_in. simpl in Hk.
      apply elem_of_app in Hk as [Hk|Hk].
      { apply Hmsg in Hk as (k' & Hk' & _). symmetry in Hk'.
        by apply missingMsg_unusedMsg in Hk'. }
      apply list_elem_of_fmap in Hk as (k' & ->%unusedMsg_inj & Hk').
      apply list_elem_of_filter in Hk' as [[Hi Hn] Hkk].
      assert (~ wanted k') as Hnw by (intros (? & _); done).
      split_and!.
      * apply Hkeys. rewrite <- (Hout k' Hnw).
        apply JsFacts.elem_of_keys in Hkk. by apply elem_of_get.
      * done.
      * eauto.
      * destruct (Hfilter k') as [_ Hdrop]. apply Hdrop. done.
    + intros k Hk Hs. apply Hin_msgs. simpl. apply elem_of_app. left.
      destruct (decide (k ∈ JsObject.keys deps4 /\ removed k)) as [Hr|Hr].
      { destruct (Hfilter k) as [_ Hdrop]. rewrite Hdrop in Hs by done. by destruct Hs. }
      destruct (Hfilter k) as [Hkeep _]. rewrite Hkeep in Hs by done.
      destruct (decide (k ∈ names)) as [Hkn|Hkn].
      * destruct (checked_dec pkgName k) as [Hck|Hck].
        -- destruct (Js.truthy (JsObject.get k t1)) eqn:Htr.
           ++ exfalso. apply Hk, Hkeys. destruct (JsObject.get k t1); [eauto|done].
           ++ by apply Hrep.
        -- exfalso. rewrite Hout in Hs by (intros (_ & ? & _); done). by apply Hkeys in Hs.
      * exfalso. rewrite Hout in Hs by (intros (? & _); done). by apply Hkeys in Hs.
    + intros k Hk%Hkeys Hn. apply Hin_msgs. simpl. apply elem_of_app. right.
      apply list_elem_of_fmap. exists k. split; [done|].
      assert (is_Some (JsObject.get k deps4)) as Hk4.
      { destruct (decide (wanted k)) as [Hw|Hw].
        - destruct (Hin k Hw) as (v & -> & _). eauto.
        - by rewrite (Hout k Hw). }
      destruct (decide (k ∈ JsObject.keys deps4 /\ removed k)) as [[Hkk Hr]|Hr].
      * by apply list_elem_of_filter.
      * destruct (Hfilter k) as [Hkeep _]. rewrite Hkeep in Hn by done.
        rewrite Hn in Hk4. by destruct Hk4.
Qed.

Lemma findings_justified_witness :
  Example.value Example.Two.runB [] = ["Unused dependency: left-pad"; "Package data changed"] /\
  ignored UNUSED "B" "left-pad" = false /\
  exists names, importedNames Example.Two.E Example.Two.st0 "/repo/packages/B" = Some names /\
                "left-pad" ∉ names.
Proof.
  assert (Example.Two.runB
          = Ok (Example.value Example.Two.runB [],
                Example.state Example.Two.runB Example.Two.st0)) as Hrun
    by (vm_compute; reflexivity).
  assert (Example.value Example.Two.runB []
          = ["Unused dependency: left-pad"; "Package data changed"]) as Hmsgs
    by (vm_compute; reflexivity).
  split; [exact Hmsgs|].
  destruct (findings_justified Example.Two.E "B" "/repo/packages/B"
              "/repo/packages/B/package.json"
              (mkPackage "B" "0.1.0" (Some [("left-pad", "^1.1.3")]) (Some []))
              [("left-pad", "^1.1.3")]
              (Example.value Example.Two.runB []) Example.Two.st0
              (Example.state Example.Two.runB Example.Two.st0)
              ltac:(discriminate) ltac:(vm_compute; reflexivity)
              ltac:(vm_compute; reflexivity) ltac:(vm_compute; reflexivity)
              ltac:(reflexivity) Hrun)
    as (d' & _ & _ & Hunused & _).
  destruct (Hunused "left-pad") as (_ & Hi & Hn & _); [|done].
  rewrite Hmsgs. apply elem_of_cons. by left.
Defined.

(** ** The report *)

Section report.
Variable E : Env.

(** The entries of the report after the loop over the packages: an entry
    that was not there before is the list that the validation of the package
    returned, at the state that the loop had reached. *)
Lemma validate_fold_entries names messages report st st' n f :
  foldM (validateStep E) messages names st = Ok (report, st') ->
  JsObject.get n report = Some f ->
  JsObject.get n messages = Some f \/
  exists ns1 ns2 m1 s1 l s2,
    names = ns1 ++ n :: ns2 /\
    foldM (validateStep E) messages ns1 st = Ok (m1, s1) /\
    ensurePackage E n s1 = Ok (l, s2) /\
    f = PkgMessages l /\ l ≠ [].
Proof.
  revert messages st. induction names as [|n0 names IH]; intros messages st Hrun Hn.
  - apply ret_Ok in Hrun as [-> _]. by left.
  - simpl in Hrun. apply bind_Ok in Hrun as (messages1 & st1 & Hstep & Hrun).
    destruct (IH _ _ Hrun Hn)
      as [Hold|(ns1 & ns2 & m1 & s1 & l & s2 & -> & Hfold & Hpkg & -> & Hl)].
    2:{ right. exists (n0 :: ns1), ns2, m1, s1, l, s2. split; [done|].
        split; [|done]. simpl. apply bind_Ok. eauto. }
    pose proof Hstep as Hstep'. unfold validateStep in Hstep'.
    apply bind_Ok in Hstep' as (pkgMessages & st0 & Hpkg & Hret).
    apply ret_Ok in Hret as [-> ->].
    destruct (decide (0 < List.length pkgMessages)) as [Hlen|Hlen]; [|by left].
    rewrite JsFacts.get_set in Hold. destruct (decide (n0 = n)) as [->|Hne]; [|by left].
    injection Hold as <-. right.
    exists [], names, messages, st, pkgMessages, st0. split; [done|].
    split; [by apply ret_Ok|]. split; [done|]. split; [done|].
    intros ->. simpl in Hlen. lia.
Qed.

End report.

(** X15: the report of a run has an entry for a package only when its
    validation in this run found something, and this entry is the list of
    findings that this validation returned, which is not empty; any other
    entry is [top] with the message [updated].  The process ends with status
    1 exactly when the report has an entry. *)
Theorem report_entries E json text report st' :
  ensureIntegrity E (initial json text) = Ok (report, st') ->
  (forall n f, JsObject.get n report = Some f ->
     (n = "top" /\ f = TopMessage "updated") \/
     exists ns1 ns2 top s0 m1 s1 l s2,
       JsObject.keys (pkgData st') = ns1 ++ n :: ns2 /\
       (forEach (lernaPaths E) loadPackage ;;; ensureTop E) (initial json text)
       = Ok (top, s0) /\
       foldM (validateStep E)
             (match top with Some m => [("top", TopMessage m)] | None => [] end)
             ns1 s0 = Ok (m1, s1) /\
       ensurePackage E n s1 = Ok (l, s2) /\
       f = PkgMessages l /\ l ≠ []) /\
  (exitStatus report = 1 <-> report ≠ []) /\
  (exitStatus report = 0 <-> report = []).
Proof.
  intros Hrun. split.
  - intros n f Hn.
    apply ensureIntegrity_Ok in Hrun as (st1 & top & st2 & Hload & Htop & Hval).
    destruct (validatePackages_spec E _ _ _ _ Hval) as ((Hpd & _) & _).
    unfold validatePackages in Hval.
    apply bind_Ok in Hval as (names & st0 & Hnames & Hval). apply gets_Ok in Hnames as [-> ->].
    destruct (validate_fold_entries E _ _ _ _ _ n f Hval Hn)
      as [Hold|(ns1 & ns2 & m1 & s1 & l & s2 & Hsplit & Hfold & Hpkg & Hf & Hl)].
    + left. apply ensureTop_steps in Htop as (changed & -> & _).
      destruct changed; [|done]. simpl in Hold.
      destruct (decide ("top" = n)) as [<-|]; [|done]. by injection Hold as <-.
    + right. exists ns1, ns2, top, st2, m1, s1, l, s2.
      split; [by rewrite Hpd|]. split; [apply bind_Ok; by exists tt, st1|]. done.
  - assert (report = [] <-> JsObject.keys report = []) as Hkeys.
    { split; [by intros ->|]. intros Hk.
      destruct report as [|[k v] report]; [done|].
      assert (k ∈ JsObject.keys ((k, v) :: report)) as Hin.
      { apply JsFacts.elem_of_keys. simpl. constructor. }
      rewrite Hk in Hin. by apply elem_of_nil in Hin. }
    unfold exitStatus. rewrite Hkeys.
    destruct (decide (0 < List.length (JsObject.keys report))) as [Hlen|Hlen].
    + assert (JsObject.keys report ≠ []) as Hne.
      { intros Hk. rewrite Hk in Hlen. simpl in Hlen. lia. }
      split; split; done.
    + assert (JsObject.keys report = []) as Hnil.
      { destruct (JsObject.keys report); [done|]. simpl in Hlen. lia. }
      split; split; done.
Qed.

Lemma report_entries_witness :
  Example.value Example.Hoist.second [] = [("top", TopMessage "updated")] /\
  exitStatus (Example.value Example.Hoist.second []) = 1.
Proof.
  assert (Example.Hoist.second
          = Ok (Example.value Example.Hoist.second [],
                Example.state Example.Hoist.second Example.Hoist.st0)) as Hrun
    by (vm_compute; reflexivity).
  assert (Example.value Example.Hoist.second [] = [("top", TopMessage "updated")]) as Hrep
    by (vm_compute; reflexivity).
  split; [exact Hrep|].
  destruct (report_entries Example.Hoist.E _ _ _ _ Hrun) as (_ & Hexit & _).
  apply Hexit. by rewrite Hrep.
Defined.

(** ** The aggregator step a second time *)

Lemma prefix_append (sub s : string) : String.prefix sub (sub +:+ s) = true.
Proof.
  induction sub as [|c sub IH]; simpl; [by destruct s|].
  destruct (ascii_dec c c); [exact IH|done].
Qed.

Lemma includes_prefix (sub s : string) :
  String.prefix sub s = true -> Js.includes sub s = true.
Proof. destruct s; simpl; intros ->; done. Qed.

Lemma includes_here (sub s : string) : Js.includes sub (sub +:+ s) = true.
Proof. apply includes_prefix, prefix_append. Qed.

Lemma includes_append (sub a s : string) :
  Js.includes sub s = true -> Js.includes sub (a +:+ s) = true.
Proof.
  intros Hs. induction a as [|c a IH]; simpl; [done|]. rewrite IH. apply orb_true_r.
Qed.

Lemma includes_append_l (sub s b : string) :
  Js.includes sub s = true -> Js.includes sub (s +:+ b) = true.
Proof.
  assert (forall s, String.prefix sub s = true -> String.prefix sub (s +:+ b) = true) as Hpre.
  { clear. induction sub as [|c sub IH]; intros [|c' s]; simpl; try done.
    - by destruct b.
    - destruct (ascii_dec c c'); [apply IH|done]. }
  induction s as [|c s IH].
  - intros H. apply includes_prefix. simpl in H. rewrite orb_false_r in H.
    by apply (Hpre EmptyString).
  - intros H. cbn [Js.includes] in H. apply orb_true_iff in H as [H|H].
    + apply includes_prefix. by apply (Hpre (String c s)).
    + change (String c s +:+ b) with (String c (s +:+ b)). cbn [Js.includes].
      rewrite IH by done. apply orb_true_r.
Qed.

Lemma includes_importLine (name : string) : Js.includes name (importLine name) = true.
Proof.
  unfold importLine. apply includes_append.
  change (Js.includes name
            (String DQUOTE EmptyString
               +:+ (name +:+ String DQUOTE (String ";" (String LF EmptyString)))) = true).
  apply includes_append, includes_here.
Qed.

Lemma includes_join (sub : string) (sep : string) (l : list string) x :
  x ∈ l -> Js.includes sub x = true -> Js.includes sub (Js.join sep l) = true.
Proof.
  intros Hin Hx. unfold Js.join. induction l as [|y l IH]; [by apply elem_of_nil in Hin|].
  simpl. destruct l as [|z l].
  - apply elem_of_cons in Hin as [->|Hin]; [done|by apply elem_of_nil in Hin].
  - apply elem_of_cons in Hin as [->|Hin].
    + by apply includes_append_l.
    + apply includes_append. apply includes_append. by apply IH.
Qed.

Lemma split_join_cons (h : string) (rest : list string) :
  ~ mentions LF h -> rest ≠ [] ->
  Js.split LF (Js.join (String LF EmptyString) (h :: rest))
  = h :: Js.split LF (Js.join (String LF EmptyString) rest).
Proof.
  intros Hh Hrest. destruct rest as [|r rest]; [done|].
  exact (split_sep_l LF h (Js.join (String LF EmptyString) (r :: rest)) Hh).
Qed.

(** The first three lines of a text that starts with three given lines. *)
Lemma take3_split_join (index : string) (rest : list string) :
  3 <= List.length (Js.split LF index) ->
  take 3 (Js.split LF (Js.join (String LF EmptyString) (take 3 (Js.split LF index) ++ rest)))
  = take 3 (Js.split LF index).
Proof.
  intros Hlen. destruct (split_Forall LF index) as [_ Hall].
  destruct (Js.split LF index) as [|h1 [|h2 [|h3 tl]]]; simpl in Hlen; try lia.
  apply Forall_cons in Hall as [H1 Hall]. apply Forall_cons in Hall as [H2 Hall].
  apply Forall_cons in Hall as [H3 _].
  change (take 3 (h1 :: h2 :: h3 :: tl)) with [h1; h2; h3].
  change ([h1; h2; h3] ++ rest) with (h1 :: h2 :: h3 :: rest).
  rewrite (split_join_cons h1) by done. rewrite (split_join_cons h2) by done.
  destruct rest as [|r rest].
  - change (Js.join (String LF EmptyString) [h3]) with h3.
    rewrite split_nosep by done. done.
  - rewrite (split_join_cons h3) by done. done.
Qed.

Section again.
Variable E : Env.

Lemma ensureAllPackages_tsconfig msgs st st' :
  ensureAllPackages E st = Ok (msgs, st') -> is_Some (jsonFiles st !! tsconfigPath E).
Proof.
  intros Hrun. unfold ensureAllPackages in Hrun.
  apply bind_Ok in Hrun as (ref & st1 & Hreq & Hrun).
  apply require_Ok in Hreq as [-> Hreq].
  apply bind_Ok in Hrun as ([] & st2 & Hts & Hrun).
  apply requireJson_Ok in Hts as [Hts ->].
  destruct Hreq as [[_ ->]|(_ & r & d & _ & ->)]; done.
Qed.

Lemma tsconfig_not_manifest : tsconfigPath E ≠ allPackageJson E.
Proof.
  unfold tsconfigPath, allPackageJson, allPackagesPath, path_join.
  intros H. apply append_inj_r in H. discriminate.
Qed.

(** The loop of the aggregator step when every package is a dependency and
    is mentioned in the index. *)
Lemma allPackagesStep_quiet a index ps lines msgs st agg :
  require_cache st !! a = Some agg ->
  (forall p, p ∈ ps -> p ≠ allPackagesPath E ->
     exists deps, dependencies agg = Some deps /\
                  Js.truthy (JsObject.get (nameOf st p) deps) = true /\
                  Js.includes (nameOf st p) index = true) ->
  foldM (allPackagesStep E a index) (lines, msgs) ps st
  = Ok ((lines ++ (importLine <$> (nameOf st <$> filter (fun p => p ≠ allPackagesPath E) ps)),
         msgs), st).
Proof.
  intros Ha. revert lines. induction ps as [|p ps IH]; intros lines Hall.
  - simpl. by rewrite app_nil_r.
  - cbn [foldM]. rewrite filter_cons.
    destruct (decide (p ≠ allPackagesPath E)) as [Hp|Hp].
    + destruct (Hall p) as (deps & Hdeps & Htr & Hinc); [by left|done|].
      rewrite (bind_eq _ _ st (lines ++ [importLine (nameOf st p)], msgs) st).
      * rewrite IH by (intros q Hq; apply Hall; by right).
        rewrite !fmap_cons. by rewrite <- app_assoc.
      * unfold allPackagesStep. cbv beta iota.
        destruct (decide (p = allPackagesPath E)); [done|].
        unfold bind, gets, load, defined, ret. rewrite Ha, Hdeps, Htr, Hinc. done.
    + apply dec_stable in Hp.
      rewrite (bind_eq _ _ st (lines, msgs) st).
      * apply IH. intros q Hq; apply Hall; by right.
      * unfold allPackagesStep. cbv beta iota.
        destruct (decide (p = allPackagesPath E)); done.
Qed.

End again.

(** X17: the aggregator step is idempotent when [index.ts] has at least
    three lines: called a second time, on the state and the files that a
    first call has left, it reports nothing and changes nothing. *)
Theorem aggregator_step_idempotent E msgs st st' index :
  ensureAllPackages E st = Ok (msgs, st') ->
  textFiles st !! indexPath E = Some index ->
  3 <= List.length (Js.split LF index) ->
  ensureAllPackages E st' = Ok ([], st').
Proof.
  intros Hrun Hidx Hlen.
  pose proof (ensureAllPackages_tsconfig E msgs st st' Hrun) as Hts.
  destruct (ensureAllPackages_spec E msgs st st' Hrun)
    as (agg & deps' & index0 & Hload & Hidx0 & Hc & Hx & Hj & Hja & _ & _ & _ & Hall &
        _ & _ & (_ & _ & Hpn)).
  rewrite Hidx in Hidx0. injection Hidx0 as <-.
  assert (nameOf st' = nameOf st) as Hnm by (unfold nameOf; by rewrite Hpn).
  set (names := nameOf st <$> filter (fun p => p ≠ allPackagesPath E) (localPackages E)) in *.
  set (hdr := take 3 (Js.split LF index)) in *.
  set (newIndex := Js.join (String LF EmptyString) (hdr ++ (importLine <$> names))) in *.
  set (agg' := with_field Dependencies deps' agg) in *.
  assert (require_cache st' !! allPackageJson E = Some agg') as Hagg'.
  { rewrite Hc. apply lookup_insert_eq. }
  assert (textFiles st' !! indexPath E = Some newIndex) as Hidx'.
  { rewrite Hx. apply lookup_insert_eq. }
  unfold ensureAllPackages.
  rewrite (bind_eq _ _ st' (allPackageJson E) st').
  2:{ unfold require. by rewrite Hagg'. }
  rewrite (bind_eq _ _ st' tt st').
  2:{ unfold requireJson. rewrite Hj by apply tsconfig_not_manifest.
      destruct Hts as [ts ->]. done. }
  rewrite (bind_eq _ _ st' newIndex st').
  2:{ unfold readFileSync. by rewrite Hidx'. }
  assert (take 3 (Js.split LF newIndex) = hdr) as Htake
    by (by apply take3_split_join).
  rewrite Htake.
  rewrite (bind_eq _ _ st' (hdr ++ (importLine <$> names), []) st').
  2:{ rewrite (allPackagesStep_quiet E _ _ _ _ _ _ agg' Hagg'); [by rewrite Hnm|].
      intros p Hp Hne. rewrite Hnm.
      assert (nameOf st p ∈ names) as Hin.
      { apply list_elem_of_fmap. exists p. split; [done|]. by apply list_elem_of_filter. }
      specialize (Hall _ Hin). destruct deps' as [deps|]; [|done].
      exists deps. split; [done|]. split; [exact Hall|].
      apply (includes_join _ _ _ (importLine (nameOf st p))).
      - apply elem_of_app. right. apply list_elem_of_fmap. eauto.
      - apply includes_importLine. }
  cbv beta iota.
  rewrite (bind_eq _ _ st' false st').
  2:{ apply ensurePackageData_Ok. exists agg', (JSON_stringify (sortPackageJson agg')).
      split; [done|]. split; [done|]. by left. }
  cbv zeta. fold newIndex. by rewrite decide_True.
Qed.

Lemma aggregator_step_idempotent_witness :
  ensureAllPackages Example.Aggregate.E
    (Example.state Example.Aggregate.sync Example.Aggregate.st0)
  = Ok ([], Example.state Example.Aggregate.sync Example.Aggregate.st0).
Proof.
  assert (Example.Aggregate.sync
          = Ok (Example.value Example.Aggregate.sync [],
                Example.state Example.Aggregate.sync Example.Aggregate.st0)) as Hrun
    by (vm_compute; reflexivity).
  apply (aggregator_step_idempotent Example.Aggregate.E
           (Example.value Example.Aggregate.sync []) Example.Aggregate.st0
           (Example.state Example.Aggregate.sync Example.Aggregate.st0)
           Example.Aggregate.index Hrun).
  - vm_compute; reflexivity.
  - vm_compute. lia.
Defined.

(** ** What the top level manifest keeps *)

(** X18: [ensureTop] never takes anything from the top level manifest: its
    name and version are as before and every dependency has the spec it
    had, a devDependency that no package of a directory under [packages]
    declares keeps its spec, and every devDependency that was there is still
    there.  The top level manifest is taken not to be one of these packages,
    and the keys are those that are not the name of a member of
    [Object.prototype]. *)
Theorem ensureTop_keeps_undeclared E m st st' :
  ensureTop E st = Ok (m, st') ->
  (forall p, p ∈ localPackages E ->
             JsObject.get (nameOf st p) (pkgData st) ≠ Some (topJson E)) ->
  exists root top,
    (require_cache st !! topJson E = Some root \/
     (require_cache st !! topJson E = None /\
      exists r, jsonFiles st !! topJson E = Some (Manifest r root))) /\
    require_cache st' !! topJson E = Some top /\
    name top = name root /\ version top = version root /\
    forall k, Js.inherited k = false ->
      dependencies top ≫= JsObject.get k = dependencies root ≫= JsObject.get k /\
      (lastDeclared st k (localPackages E) = None ->
       devDependencies top ≫= JsObject.get k
       = devDependencies root ≫= JsObject.get k) /\
      (is_Some (devDependencies root ≫= JsObject.get k) ->
       is_Some (devDependencies top ≫= JsObject.get k)).
Proof.
  intros Hrun Halias. unfold ensureTop in Hrun. fold (topJson E) in Hrun.
  apply bind_Ok in Hrun as (localData & st1 & Hreq & Hrun).
  apply require_Ok in Hreq as [-> Hreq].
  apply bind_Ok in Hrun as ([] & st2 & Hloop & Hrun).
  apply bind_Ok in Hrun as (changed & st3 & Hdata & Hrun).
  apply ret_Ok in Hrun as [_ ->].
  assert (exists root,
            (require_cache st !! topJson E = Some root \/
             (require_cache st !! topJson E = None /\
              exists r, jsonFiles st !! topJson E = Some (Manifest r root))) /\
            require_cache st1 = <[topJson E := root]> (require_cache st) /\
            same_tables st st1) as (root & Hroot & Hc1 & Ht1).
  { destruct Hreq as [[[root Hroot] ->]|(Hnone & r & root & Hj & ->)].
    - exists root. split; [by left|]. by rewrite insert_id.
    - exists root. split; [right; eauto|done]. }
  assert (forall p k, p ∈ localPackages E -> declared st1 p k = declared st p k) as Hdecl.
  { intros p k Hp. unfold declared, nameOf. destruct Ht1 as (-> & _ & ->).
    destruct (JsObject.get _ (pkgData st)) as [data|] eqn:Hget; [|done]. simpl.
    rewrite Hc1, lookup_insert_ne; [done|]. intros <-. by apply (Halias p). }
  eapply hoistLoop_spec in Hloop as (rd' & Hc2 & Hrd & Hs2 & Ht2 & Hd2).
  2:{ rewrite Hc1. apply lookup_insert_eq. }
  2:{ intros p Hp. unfold nameOf. destruct Ht1 as (-> & _ & ->). by apply Halias. }
  assert (require_cache st3 = require_cache st2) as Hc3.
  { apply ensurePackageData_Ok in Hdata as (d & orig & _ & _ & Hdata).
    destruct Hdata as [(_ & _ & ->)|(_ & _ & ->)]; done. }
  assert (forall k, lastDeclared st1 k (localPackages E)
                    = lastDeclared st k (localPackages E)) as Hlast.
  { intros k. clear -Hdecl. induction (localPackages E) as [|p ps IH]; [done|]. simpl.
    rewrite IH by set_solver. rewrite Hdecl by set_solver. done. }
  exists root, (with_field DevDependencies rd' root). split; [done|]. split.
  { rewrite Hc3, Hc2. apply lookup_insert_eq. }
  do 2 (split; [done|]). intros k _. simpl. split; [done|]. split.
  - intros Hnone. by rewrite Hrd, Hlast, Hnone.
  - intros Hk. rewrite Hrd, Hlast. by destruct (lastDeclared st k (localPackages E)).
Qed.

Lemma ensureTop_keeps_undeclared_witness :
  exists top,
    require_cache Example.Hoist.st1 !! "/repo/package.json" = Some top /\
    name top = "top" /\ dependencies top ≫= JsObject.get "lodash" = None.
Proof.
  assert (Example.Hoist.top = Ok (Example.value Example.Hoist.top None, Example.Hoist.st1))
    as Hrun by (vm_compute; reflexivity).
  destruct (ensureTop_keeps_undeclared Example.Hoist.E _ _ _ Hrun)
    as (root & top & Hroot & Htop & Hname & _ & Hkeys).
  - intros p Hp Heq. revert Hp Heq. vm_compute. intros Hp Heq.
    apply list_elem_of_singleton in Hp. subst p. discriminate Heq.
  - exists top. split; [exact Htop|].
    assert (root = mkPackage "top" "0.0.0" (Some []) (Some [])) as ->.
    { destruct Hroot as [Hroot|(_ & r & Hroot)]; revert Hroot; vm_compute; congruence. }
    split; [exact Hname|]. destruct (Hkeys "lodash" eq_refl) as [Hdeps _].
    rewrite Hdeps. reflexivity.
Defined.
